(** * FX pipeline: the transformation stage (scripts/transform.py)

    A shallow embedding of [calculate_cross_pairs], [calculate_ytd_metrics],
    [log_execution] and [main] of [scripts/transform.py], with the constant
    [CURRENCIES] of [config/config.py], and the properties the specification
    states about them. The extraction and loading stages
    ([scripts/extract.py], [scripts/load.py]) and the orchestration
    ([run_pipeline.py]) follow, with their properties, in the second half of
    each part. *)

From Stdlib Require Import ZArith QArith Qround Qabs Lqa Lia.
From stdpp Require Import base decidable option list sorting gmap strings.

Local Open Scope string_scope.
Local Open Scope list_scope.

(** ** Python outcomes: a value or a raised exception *)

Module Py.

(** Every exception met in this stage is a subclass of [Exception]; it is
    kept as its class name. *)
Inductive outcome (A : Type) : Type :=
| Ret (a : A)
| Raise (e : string).
Arguments Ret {A} a.
Arguments Raise {A} e.

Definition bind {A B} (m : outcome A) (k : A → outcome B) : outcome B :=
  match m with
  | Ret a => k a
  | Raise e => Raise e
  end.

(** A [for] loop whose body may raise and which extends the list
    accumulated so far. *)
Fixpoint for_each {A R} (l : list A) (body : A → list R → outcome (list R))
    (acc : list R) : outcome (list R) :=
  match l with
  | [] => Ret acc
  | x :: l' => bind (body x acc) (for_each l' body)
  end.

(** The rows a loop appends, one list per iteration, concatenated. *)
Fixpoint gather {A R} (g : A → outcome (list R)) (l : list A) : outcome (list R) :=
  match l with
  | [] => Ret []
  | x :: l' => bind (g x) (λ r, bind (gather g l') (λ rs, Ret (r ++ rs)))
  end.

End Py.

Import Py.

#[global] Instance outcome_ret : MRet outcome := @Ret.
#[global] Instance outcome_bind : MBind outcome := λ A B k m, Py.bind m k.

(** ** Calendar dates *)

(** [datetime.date]: year, month and day, compared lexicographically. Month
    and day start at 1. *)
Record Date : Type := mkDate { year : positive; month : positive; day : positive }.

#[global] Instance Date_eq_dec : EqDecision Date.
Proof. solve_decision. Defined.

Definition date_le (d1 d2 : Date) : Prop :=
  (year d1 < year d2)%positive ∨
  (year d1 = year d2 ∧
   ((month d1 < month d2)%positive ∨
    (month d1 = month d2 ∧ (day d1 ≤ day d2)%positive))).

#[global] Instance date_le_dec : RelDecision date_le.
Proof. intros d1 d2. unfold date_le. apply _. Defined.

(** [datetime(current_date.year, 1, 1)] *)
Definition year_start (d : Date) : Date := mkDate (year d) 1 1.

(** ** The numbers of the program

    Rates are Python floats (in [calculate_cross_pairs]) and numpy float64
    values (in [calculate_ytd_metrics]). The operations the program applies to
    them belong to the interpreter and to numpy, not to the repository, and
    are taken as an interface. *)
Class PyNum (F : Type) : Type := {
  f_zero : F;                       (* 0.0 *)
  f_one : F;                        (* the literal 1.0 *)
  f_hundred : F;                    (* the literal 100 *)
  f_of_nat : nat → F;               (* a count used as a number *)
  f_add : F → F → F;
  f_sub : F → F → F;
  f_mul : F → F → F;
  py_div : F → F → outcome F;       (* [/] on Python floats: may raise *)
  np_div : F → F → F;               (* [/] on numpy floats: never raises *)
  np_sqrt : F → F;
  np_minimum : F → F → F;
  np_maximum : F → F → F;
  py_round : nat → F → F;           (* [round(x, ndigits)] on a Python float *)
  np_round : nat → F → F;           (* [round(x, ndigits)] on a numpy float *)
  f_truthy : F → bool               (* [x != 0], which is also the truth value of [x] *)
}.

(** ** CURRENCIES (config/config.py) *)

Definition CURRENCIES : list string :=
  ["NOK"; "EUR"; "SEK"; "PLN"; "RON"; "DKK"; "CZK"].

Section Transform.

Context {F : Type} {num : PyNum F}.

(** *** Rows of the three data frames *)

(** A row of the extracted CSV. [base_currency] is not read by the
    transformation and is left out. *)
Record RawRow : Type := mkRaw {
  raw_date : Date;
  raw_quote : string;
  raw_rate : F
}.

Record CrossRow : Type := mkCross {
  rate_date : Date;
  base_currency : string;
  quote_currency : string;
  exchange_rate : F
}.

Record YtdRow : Type := mkYtd {
  ytd_date : Date;
  ytd_base : string;
  ytd_quote : string;
  ytd_avg_rate : F;
  ytd_min_rate : F;
  ytd_max_rate : F;
  ytd_first_rate : F;
  ytd_last_rate : F;
  ytd_days_count : nat;
  ytd_variance : option F;
  ytd_std_dev : option F;
  ytd_change_pct : F
}.

(** *** pandas helpers *)

(** The keys of [df.groupby('rate_date')]: the distinct dates, ascending. *)
Definition group_dates (df : list RawRow) : list Date :=
  merge_sort date_le (remove_dups (raw_date <$> df)).

Definition date_group (df : list RawRow) (d : Date) : list RawRow :=
  filter (λ r, raw_date r = d) df.

(** *** calculate_cross_pairs *)

(** [rates_dict] after the loop over the rows of one date. *)
Definition build_rates_dict (group : list RawRow) : gmap string F :=
  foldl (λ rates_dict row, <[raw_quote row := raw_rate row]> rates_dict)
    {[ "EUR" := f_one ]} group.

(** The body of the innermost loop: appends at most one row. *)
Definition cross_pair_body (d : Date) (rates_dict : gmap string F)
    (base quote : string) (all_rates : list CrossRow) : outcome (list CrossRow) :=
  if decide (base ≠ quote) then
    match rates_dict !! base, rates_dict !! quote with
    | Some rb, Some rq =>
        cross_rate ← py_div rq rb;
        mret (all_rates ++ [mkCross d base quote (py_round 8 cross_rate)])
    | _, _ => mret all_rates
    end
  else mret all_rates.

Definition cross_pairs_of_date (C : list string) (df : list RawRow) (d : Date)
    (all_rates : list CrossRow) : outcome (list CrossRow) :=
  let rates_dict := build_rates_dict (date_group df d) in
  for_each C (λ base, for_each C (cross_pair_body d rates_dict base)) all_rates.

(** The function over a currency universe [C]. After the loops the frame
    built from [all_rates] is indexed by column for the statistics that are
    logged; a frame built from an empty list has no columns, and the lookup
    raises [KeyError]. *)
Definition calculate_cross_pairs_in (C : list string) (df : list RawRow)
    : outcome (list CrossRow) :=
  all_rates ← for_each (group_dates df) (cross_pairs_of_date C df) [];
  match all_rates with
  | [] => Raise "KeyError"
  | _ => mret all_rates
  end.

Definition calculate_cross_pairs : list RawRow → outcome (list CrossRow) :=
  calculate_cross_pairs_in CURRENCIES.

(** The rows one iteration of the innermost loop appends. *)
Definition cross_pair_cell (d : Date) (rates_dict : gmap string F)
    (base quote : string) : outcome (list CrossRow) :=
  if decide (base ≠ quote) then
    match rates_dict !! base, rates_dict !! quote with
    | Some rb, Some rq =>
        cross_rate ← py_div rq rb;
        mret [mkCross d base quote (py_round 8 cross_rate)]
    | _, _ => mret []
    end
  else mret [].

(** The rows appended for one date. *)
Definition cross_pairs_block (C : list string) (df : list RawRow) (d : Date)
    : outcome (list CrossRow) :=
  let rates_dict := build_rates_dict (date_group df d) in
  gather (λ base, gather (cross_pair_cell d rates_dict base) C) C.

(** The currencies of [C] with an entry in the table of date [d]: EUR, and
    the quote currencies of the raw rows of that date. *)
Definition available (C : list string) (df : list RawRow) (d : Date) : list string :=
  filter (λ c, c = "EUR" ∨ c ∈ raw_quote <$> date_group df d) C.

(** The ordered pairs of distinct members of a list. *)
Definition ordered_pairs (l : list string) : list (string * string) :=
  b ← l; q ← l; if decide (b ≠ q) then [(b, q)] else [].

(** *** calculate_ytd_metrics *)

Definition row_date_le (a b : CrossRow) : Prop := date_le (rate_date a) (rate_date b).

#[global] Instance row_date_le_dec : RelDecision row_date_le.
Proof. intros a b. unfold row_date_le. apply _. Defined.

(** [df.sort_values('rate_date')]. pandas leaves the order of rows with
    equal dates open; the merge sort used here fixes one. *)
Definition sort_values (df : list CrossRow) : list CrossRow :=
  merge_sort row_date_le df.

Definition pair_key (r : CrossRow) : string * string :=
  (base_currency r, quote_currency r).

Definition pair_le (k1 k2 : string * string) : Prop :=
  match String.compare k1.1 k2.1 with
  | Lt => True
  | Eq => String.leb k1.2 k2.2 = true
  | Gt => False
  end.

#[global] Instance pair_le_dec : RelDecision pair_le.
Proof. intros k1 k2. unfold pair_le. destruct (String.compare k1.1 k2.1); apply _. Defined.

(** The key of a row in the warehouse: pair and date. *)
Definition row_key (r : CrossRow) : string * string * Date := (pair_key r, rate_date r).

(** The keys of [df.groupby(['base_currency', 'quote_currency'])]. *)
Definition group_pairs (df : list CrossRow) : list (string * string) :=
  merge_sort pair_le (remove_dups (pair_key <$> df)).

Definition pair_group (df : list CrossRow) (k : string * string) : list CrossRow :=
  filter (λ r, pair_key r = k) df.

(** A value that is either the int literal [0] or a numpy float: the two
    branches of [ytd_var], [ytd_std] and [ytd_change_pct]. *)
Inductive zero_or_float : Type :=
| IntZero
| NpFloat (x : F).

Definition truthy (v : zero_or_float) : bool :=
  match v with
  | IntZero => false
  | NpFloat x => f_truthy x
  end.

(** [round(v, ndigits)]: the int [0] rounds to itself. *)
Definition round_value (ndigits : nat) (v : zero_or_float) : F :=
  match v with
  | IntZero => f_zero
  | NpFloat x => np_round ndigits x
  end.

(** numpy reductions of a one-dimensional array; [var] and [std] with
    numpy's default [ddof=0]. *)
Definition np_sum (rates : list F) : F := foldl f_add f_zero rates.

Definition np_mean (rates : list F) : F :=
  np_div (np_sum rates) (f_of_nat (length rates)).

Definition np_min (rates : list F) : F :=
  match rates with
  | [] => f_zero
  | x :: l => foldl np_minimum x l
  end.

Definition np_max (rates : list F) : F :=
  match rates with
  | [] => f_zero
  | x :: l => foldl np_maximum x l
  end.

Definition np_var (rates : list F) : F :=
  let m := np_mean rates in
  np_mean ((λ x, f_mul (f_sub x m) (f_sub x m)) <$> rates).

Definition np_std (rates : list F) : F := np_sqrt (np_var rates).

(** The rows of [group] with [year_start <= rate_date <= current_date]. *)
Definition ytd_window (group : list CrossRow) (current_date : Date) : list CrossRow :=
  filter (λ r, date_le (year_start current_date) (rate_date r) ∧
               date_le (rate_date r) current_date) group.

(** The body of the loop over the rows of a group, from [ytd_data] on. *)
Definition ytd_record (base quote : string) (current_date : Date)
    (ytd_data : list CrossRow) : list YtdRow :=
  if decide (0 < length ytd_data) then
    let rates := exchange_rate <$> ytd_data in
    let ytd_avg := np_mean rates in
    let ytd_min := np_min rates in
    let ytd_max := np_max rates in
    let ytd_first := default f_zero (head rates) in
    let ytd_last := default f_zero (last rates) in
    let ytd_count := length rates in
    let ytd_var := if decide (1 < length rates) then NpFloat (np_var rates) else IntZero in
    let ytd_std := if decide (1 < length rates) then NpFloat (np_std rates) else IntZero in
    let ytd_change_pct :=
      if f_truthy ytd_first
      then NpFloat (f_mul (np_div (f_sub ytd_last ytd_first) ytd_first) f_hundred)
      else IntZero in
    [ {| ytd_date := current_date;
         ytd_base := base;
         ytd_quote := quote;
         ytd_avg_rate := np_round 8 ytd_avg;
         ytd_min_rate := np_round 8 ytd_min;
         ytd_max_rate := np_round 8 ytd_max;
         ytd_first_rate := np_round 8 ytd_first;
         ytd_last_rate := np_round 8 ytd_last;
         ytd_days_count := ytd_count;
         ytd_variance := if truthy ytd_var then Some (round_value 8 ytd_var) else None;
         ytd_std_dev := if truthy ytd_std then Some (round_value 8 ytd_std) else None;
         ytd_change_pct := round_value 4 ytd_change_pct |} ]
  else [].

Definition ytd_of_group (k : string * string) (group : list CrossRow) : list YtdRow :=
  row ← group;
  ytd_record k.1 k.2 (rate_date row) (ytd_window group (rate_date row)).

Definition calculate_ytd_metrics (df : list CrossRow) : list YtdRow :=
  let df := sort_values df in
  k ← group_pairs df;
  ytd_of_group k (sort_values (pair_group df k)).

(** [ytd_data] for the rows of pair [k] at date [current_date], as the
    function computes it from its argument. *)
Definition ytd_window_of (df : list CrossRow) (k : string * string)
    (current_date : Date) : list CrossRow :=
  ytd_window (sort_values (pair_group (sort_values df) k)) current_date.

(** The squared deviations from the mean, summed. *)
Definition sum_sq_dev (rates : list F) : F :=
  let m := np_mean rates in
  np_sum ((λ x, f_mul (f_sub x m) (f_sub x m)) <$> rates).

(** The sample variance the specification names: divisor [N - 1]. *)
Definition spec_sample_variance (rates : list F) : F :=
  np_div (sum_sq_dev rates) (f_of_nat (length rates - 1)).

(** The percent change the specification names, not rounded. *)
Definition spec_change_pct (first last : F) : F :=
  f_mul (np_div (f_sub last first) first) f_hundred.

End Transform.

Arguments RawRow F : clear implicits.
Arguments CrossRow F : clear implicits.
Arguments YtdRow F : clear implicits.
Arguments zero_or_float F : clear implicits.

(** ** Exact rational numbers with a not-a-number value

    An instance of the interface in which arithmetic is exact: the round-off
    of binary floating point is left out, a missing value is [NaN], and
    dividing Python floats by zero raises. *)

Inductive pyfloat : Type :=
| Fin (q : Q)
| NaN.

(** Round half to even, to the nearest integer. *)
Definition round_half_even (q : Q) : Z :=
  let f := Qfloor q in
  match (q - inject_Z f ?= 1 # 2)%Q with
  | Lt => f
  | Gt => (f + 1)%Z
  | Eq => if Z.even f then f else (f + 1)%Z
  end.

Definition Qround_digits (ndigits : nat) (q : Q) : Q :=
  Qred (round_half_even (q * inject_Z (10 ^ Z.of_nat ndigits))
          # Z.to_pos (10 ^ Z.of_nat ndigits)).

(** The square root, rounded up to a multiple of [1 / (den * 10^16)]. *)
Definition Qsqrt_up (q : Q) : Q :=
  Qred (Z.sqrt_up (Qnum q * Zpos (Qden q) * 10 ^ 32) # Qden q * 10 ^ 16).

Definition Qis_zero (q : Q) : bool := Qeq_bool q 0.

Definition lift2 (op : Q → Q → Q) (x y : pyfloat) : pyfloat :=
  match x, y with
  | Fin a, Fin b => Fin (op a b)
  | _, _ => NaN
  end.

Definition lift1 (op : Q → Q) (x : pyfloat) : pyfloat :=
  match x with
  | Fin a => Fin (op a)
  | NaN => NaN
  end.

Definition pyfloat_div (x y : pyfloat) : outcome pyfloat :=
  match y with
  | Fin b => if Qis_zero b then Raise "ZeroDivisionError" else Ret (lift2 Qdiv x y)
  | NaN => Ret NaN
  end.

(** numpy's quotient by zero is an infinity or a NaN; the program never
    divides numpy values by zero, and [NaN] stands for both. *)
Definition numpy_div (x y : pyfloat) : pyfloat :=
  match y with
  | Fin b => if Qis_zero b then NaN else lift2 Qdiv x y
  | NaN => NaN
  end.

Definition numpy_sqrt (x : pyfloat) : pyfloat :=
  match x with
  | Fin a => if Qle_bool 0 a then Fin (Qsqrt_up a) else NaN
  | NaN => NaN
  end.

#[global] Instance pyfloat_num : PyNum pyfloat := {|
  f_zero := Fin 0;
  f_one := Fin 1;
  f_hundred := Fin 100;
  f_of_nat n := Fin (inject_Z (Z.of_nat n));
  f_add := lift2 Qplus;
  f_sub := lift2 Qminus;
  f_mul := lift2 Qmult;
  py_div := pyfloat_div;
  np_div := numpy_div;
  np_sqrt := numpy_sqrt;
  np_minimum := lift2 (λ a b, if Qle_bool a b then a else b);
  np_maximum := lift2 (λ a b, if Qle_bool a b then b else a);
  py_round n := lift1 (Qround_digits n);
  np_round n := lift1 (Qround_digits n);
  f_truthy x := match x with Fin a => negb (Qis_zero a) | NaN => true end
|}.

(** ** The stage as a program: log_execution, load_extracted_data, save_to_csv, main *)

(** A row of [pipeline_execution_log]. *)
Record AuditRecord : Type := mkAudit {
  pipeline_step : string;
  status : string;
  rows_processed : nat;
  error_message : option string;
  duration_seconds : option nat
}.

(** The entries of [DB_CONFIG] and [PIPELINE_CONFIG] this stage reads. *)
Record Config : Type := mkConfig {
  DB_PASSWORD : string;
  START_DATE : string;
  extract_output : string;
  transform_output : string;
  ytd_output : string
}.

(** What lies outside the program: whether the directory can be made and the
    database reached, what an insert into the audit table does, which paths
    can be written, and the measured durations. *)
Record Env : Type := mkEnv {
  config : Config;
  makedirs : outcome unit;
  db_connect : outcome unit;
  db_insert : list AuditRecord → AuditRecord → outcome (list AuditRecord);
  writable : string → bool;
  duration_cross : nat;
  duration_ytd : nat
}.

(** The same outside world with another behaviour of the audit table. *)
Definition with_db_insert (env : Env)
    (f : list AuditRecord → AuditRecord → outcome (list AuditRecord)) : Env :=
  mkEnv (config env) (makedirs env) (db_connect env) f (writable env)
    (duration_cross env) (duration_ytd env).

Section Stage.

Context {F : Type} {num : PyNum F}.

Inductive FileContent : Type :=
| ExtractedCsv (rows : list (RawRow F))
| CrossCsv (rows : list (CrossRow F))
| YtdCsv (rows : list (YtdRow F))
| OtherFile.

Record World : Type := mkWorld {
  files : gmap string FileContent;
  execution_log : list AuditRecord;
  warnings : list string;
  connection : bool;          (* the variable [connection] is not [None] *)
  closed : bool               (* [connection.close()] was called *)
}.

(** Programs: a state of the world goes in, an outcome and a state come out;
    the effects made before an exception stay. *)
Definition M (A : Type) : Type := World → outcome A * World.

Definition ret {A} (a : A) : M A := λ w, (Ret a, w).

Definition raise {A} (e : string) : M A := λ w, (Raise e, w).

Definition seq {A B} (m : M A) (k : A → M B) : M B :=
  λ w, match m w with
       | (Ret a, w') => k a w'
       | (Raise e, w') => (Raise e, w')
       end.

Definition lift {A} (o : outcome A) : M A := λ w, (o, w).

Definition try_except {A} (body : M A) (handler : string → M A) : M A :=
  λ w, match body w with
       | (Ret a, w') => (Ret a, w')
       | (Raise e, w') => handler e w'
       end.

Definition try_finally {A} (body : M A) (final : M unit) : M A :=
  λ w, match body w with
       | (r, w') =>
           match final w' with
           | (Ret _, w'') => (r, w'')
           | (Raise e, w'') => (Raise e, w'')
           end
       end.

Definition when (b : bool) (m : M unit) : M unit := if b then m else ret ().

Definition logger_warning (msg : string) : M unit :=
  λ w, (Ret (), mkWorld (files w) (execution_log w) (msg :: warnings w)
                  (connection w) (closed w)).

(** [connection.execute(query, ...)] followed by [connection.commit()]. *)
Definition insert_audit (env : Env) (rec : AuditRecord) : M unit :=
  λ w, match db_insert env (execution_log w) rec with
       | Ret log' => (Ret (), mkWorld (files w) log' (warnings w) (connection w) (closed w))
       | Raise e => (Raise e, w)
       end.

Definition log_execution (env : Env) (step status : string) (rows : nat)
    (error : option string) (duration : option nat) : M unit :=
  try_except
    (insert_audit env (mkAudit step status rows error duration))
    (λ e, logger_warning "Impossible de logger dans la DB").

(** config.validate_config *)
Definition validate_config (env : Env) : M bool :=
  if decide (DB_PASSWORD (config env) = "") then raise "ValueError"
  else if decide (START_DATE (config env) = "") then raise "ValueError"
  else seq (lift (makedirs env)) (λ _, ret true).

Definition get_db_connection (env : Env) : M unit :=
  seq (lift (db_connect env))
      (λ _ w, (Ret (), mkWorld (files w) (execution_log w) (warnings w) true (closed w))).

Definition connection_close : M unit :=
  λ w, (Ret (), mkWorld (files w) (execution_log w) (warnings w) (connection w) true).

(** [pd.read_csv] and the conversion of [rate_date]. A cross-pair file has
    the columns of an extracted one. A YTD file lacks [exchange_rate]: the
    [KeyError] comes when the first row is read in [calculate_cross_pairs],
    before anything is saved, and is placed here. *)
Definition read_csv (fs : gmap string FileContent) (input_path : string)
    : outcome (list (RawRow F)) :=
  match fs !! input_path with
  | None => Raise "FileNotFoundError"
  | Some (ExtractedCsv rows) => Ret rows
  | Some (CrossCsv rows) =>
      Ret ((λ r, mkRaw (rate_date r) (quote_currency r) (exchange_rate r)) <$> rows)
  | Some (YtdCsv _) => Raise "KeyError"
  | Some OtherFile => Raise "KeyError"
  end.

Definition load_extracted_data (input_path : string) : M (list (RawRow F)) :=
  λ w, (read_csv (files w) input_path, w).

Definition save_to_csv (env : Env) (content : FileContent) (output_path : string) : M unit :=
  λ w, if writable env output_path
       then (Ret (), mkWorld (<[output_path := content]> (files w)) (execution_log w)
                       (warnings w) (connection w) (closed w))
       else (Raise "OSError", w).

Definition main_body (env : Env) (input_path output_cross_path output_ytd_path : option string)
    : M Z :=
  seq (validate_config env) (λ _,
  let input_path := default (extract_output (config env)) input_path in
  let output_cross_path := default (transform_output (config env)) output_cross_path in
  let output_ytd_path := default (ytd_output (config env)) output_ytd_path in
  seq (try_except
         (seq (get_db_connection env) (λ _,
          log_execution env "transform" "running" 0 None None))
         (λ e, logger_warning "Impossible de se connecter a la DB pour les logs")) (λ _,
  seq (load_extracted_data input_path) (λ df_raw,
  seq (lift (calculate_cross_pairs df_raw)) (λ df_cross,
  let total_duration := duration_cross env in
  seq (save_to_csv env (CrossCsv df_cross) output_cross_path) (λ _,
  let df_ytd := calculate_ytd_metrics df_cross in
  let total_duration := total_duration + duration_ytd env in
  seq (save_to_csv env (YtdCsv df_ytd) output_ytd_path) (λ _,
  seq (λ w, when (connection w)
              (log_execution env "transform" "success" (length df_cross + length df_ytd)
                 None (Some total_duration)) w) (λ _,
  ret 0%Z))))))).

Definition main (env : Env) (input_path output_cross_path output_ytd_path : option string)
    : M Z :=
  λ w,
  let w := mkWorld (files w) (execution_log w) (warnings w) false (closed w) in
  try_finally
    (try_except
       (main_body env input_path output_cross_path output_ytd_path)
       (λ e, seq (λ w, when (connection w)
                         (log_execution env "transform" "failed" 0 (Some e) None) w) (λ _,
             ret 1%Z)))
    (λ w, when (connection w) connection_close w)
    w.

(** Two states that agree on everything but the audit table and the
    warnings that were logged. *)
Definition same_data (w1 w2 : World) : Prop :=
  files w1 = files w2 ∧ connection w1 = connection w2 ∧ closed w1 = closed w2.

(** Two programs that, from such states, end alike and in such states. *)
Definition alike {A} (m1 m2 : M A) : Prop :=
  ∀ w1 w2, same_data w1 w2 →
    (m1 w1).1 = (m2 w2).1 ∧ same_data (m1 w1).2 (m2 w2).2.

End Stage.

Arguments FileContent F : clear implicits.
Arguments World F : clear implicits.
Arguments M F A : clear implicits.

Definition is_positive (x : pyfloat) : bool :=
  match x with
  | Fin q => negb (Qle_bool q 0)
  | NaN => false
  end.

(** The value of a number of the exact instance; a missing value has none
    and is given 0. *)
Definition pyfloat_value (x : pyfloat) : Q :=
  match x with
  | Fin q => q
  | NaN => 0
  end.

(** ** Sample data *)

Definition d_2024_01_01 : Date := mkDate 2024 1 1.
Definition d_2024_01_02 : Date := mkDate 2024 1 2.

(** The scenario of the specification: NOK at 11.5 and SEK at 11.2. *)
Definition ex_raw : list (RawRow pyfloat) :=
  [ mkRaw d_2024_01_01 "NOK" (Fin (115 # 10));
    mkRaw d_2024_01_01 "SEK" (Fin (112 # 10)) ].

Definition ex_raw_out : list (CrossRow pyfloat) :=
  [ mkCross d_2024_01_01 "NOK" "EUR" (Fin (2173913 # 25000000));
    mkCross d_2024_01_01 "NOK" "SEK" (Fin (12173913 # 12500000));
    mkCross d_2024_01_01 "EUR" "NOK" (Fin (23 # 2));
    mkCross d_2024_01_01 "EUR" "SEK" (Fin (56 # 5));
    mkCross d_2024_01_01 "SEK" "NOK" (Fin (102678571 # 100000000));
    mkCross d_2024_01_01 "SEK" "EUR" (Fin (8928571 # 100000000)) ].

(** Two days of raw rates: NOK at 3 then 4, SEK at 1 then 3, PLN at 2 twice. *)
Definition ex_raw_two_days : list (RawRow pyfloat) :=
  [ mkRaw d_2024_01_01 "NOK" (Fin 3);
    mkRaw d_2024_01_01 "SEK" (Fin 1);
    mkRaw d_2024_01_01 "PLN" (Fin 2);
    mkRaw d_2024_01_02 "NOK" (Fin 4);
    mkRaw d_2024_01_02 "SEK" (Fin 3);
    mkRaw d_2024_01_02 "PLN" (Fin 2) ].

(** The cross pairs of these two days, as the function gives them. *)
Definition ex_cross_two_days : list (CrossRow pyfloat) :=
  match calculate_cross_pairs ex_raw_two_days with
  | Ret out => out
  | Raise _ => []
  end.

(** Two days that do not quote the same currencies: NOK and SEK on the
    first, NOK and PLN on the second, NOK at another rate. *)
Definition ex_raw_mixed : list (RawRow pyfloat) :=
  [ mkRaw d_2024_01_01 "NOK" (Fin 4);
    mkRaw d_2024_01_01 "SEK" (Fin 2);
    mkRaw d_2024_01_02 "NOK" (Fin 5);
    mkRaw d_2024_01_02 "PLN" (Fin (5 # 2)) ].

Definition ex_cross_mixed : list (CrossRow pyfloat) :=
  match calculate_cross_pairs ex_raw_mixed with
  | Ret out => out
  | Raise _ => []
  end.



(** The scenario with the rate of NOK missing. *)
Definition ex_raw_missing : list (RawRow pyfloat) :=
  [ mkRaw d_2024_01_01 "NOK" NaN;
    mkRaw d_2024_01_01 "SEK" (Fin (112 # 10)) ].

Definition ex_config : Config :=
  mkConfig "secret" "2024-01-01" "raw.csv" "cross.csv" "ytd.csv".

(** An outside world in which everything works. *)
Definition ex_env : Env :=
  mkEnv ex_config (Ret ()) (Ret ()) (λ log rec, Ret (log ++ [rec])) (λ _, true) 0 0.

Definition ex_world (rows : list (RawRow pyfloat)) : World pyfloat :=
  mkWorld {[ "raw.csv" := ExtractedCsv rows ]} [] [] false false.

(** The YTD record of EUR/SEK on the second day: rates 1 and 3. *)
Definition ex_ytd_sek : YtdRow pyfloat :=
  mkYtd d_2024_01_02 "EUR" "SEK" (Fin 2) (Fin 1) (Fin 3) (Fin 1) (Fin 3) 2
    (Some (Fin 1)) (Some (Fin 1)) (Fin 200).

(** The YTD record of EUR/PLN on the second day: rates 2 and 2. *)
Definition ex_ytd_pln : YtdRow pyfloat :=
  mkYtd d_2024_01_02 "EUR" "PLN" (Fin 2) (Fin 2) (Fin 2) (Fin 2) (Fin 2) 2
    None None (Fin 0).

(** The YTD record of EUR/NOK on the second day: rates 3 and 4. *)
Definition ex_ytd_nok : YtdRow pyfloat :=
  mkYtd d_2024_01_02 "EUR" "NOK" (Fin (7 # 2)) (Fin 3) (Fin 4) (Fin 3) (Fin 4) 2
    (Some (Fin (1 # 4))) (Some (Fin (1 # 2))) (Fin (333333 # 10000)).

(** * The rest of the pipeline

    The other stages and the orchestration: [scripts/extract.py],
    [scripts/load.py] and [run_pipeline.py], and what the properties of the
    transformation stage need besides the definitions above. *)

(** The key of a YTD record in the warehouse: pair and date. *)
Definition ytd_key {F} (y : YtdRow F) : string * string * Date :=
  (ytd_base y, ytd_quote y, ytd_date y).

(** The order of two numbers, neither of them missing. *)
Definition pyfloat_le (x y : pyfloat) : Prop :=
  match x, y with
  | Fin a, Fin b => (a <= b)%Q
  | _, _ => False
  end.

(** The same outside world with another database: whether it can be reached
    and what an insert into the audit table does. *)
Definition with_database (env : Env) (c : outcome unit)
    (f : list AuditRecord → AuditRecord → outcome (list AuditRecord)) : Env :=
  mkEnv (config env) (makedirs env) c f (writable env)
    (duration_cross env) (duration_ytd env).

Section StageFiles.

Context {F : Type} {num : PyNum F}.

(** Two programs that, from states with the same files, end alike and with
    the same files. *)
Definition files_alike {A} (m1 m2 : M F A) : Prop :=
  ∀ w1 w2 : World F, files w1 = files w2 →
    (m1 w1).1 = (m2 w2).1 ∧ files (m1 w1).2 = files (m2 w2).2.

(** A program that returns and leaves the files as they are. *)
Definition files_kept (m : M F unit) : Prop :=
  ∀ w : World F, (m w).1 = Ret () ∧ files (m w).2 = files w.

End StageFiles.

(** ** The extraction stage (scripts/extract.py) *)

(** config.API_BASE_URL *)
Definition API_BASE_URL : string := "https://api.frankfurter.dev/v1".

Module Extract.

Section Extract.

Context {F : Type} {num : PyNum F}.

(** What the stage reads of the answer of the API: the status code and, of
    the JSON body, the object under the key [rates] when there is one: the
    dates, each with its currencies and rates, in the order of the
    document. [json] raises when the body is not JSON. *)
Record Response : Type := mkResponse {
  status_code : nat;
  json : outcome (option (list (string * list (string * F))))
}.

(** What lies outside the stage besides [Env]: today's date, the answer to
    the request for a URL and a list of symbols, how pandas reads a date,
    and the measured duration. *)
Record Api : Type := mkApi {
  today : string;
  requests_get : string → string → outcome Response;
  to_datetime : string → outcome Date;
  duration_extract : nat
}.

(** [response.raise_for_status()]: client and server errors raise. *)
Definition raise_for_status (response : Response) : outcome unit :=
  if decide (400 ≤ status_code response < 600)%nat then Raise "HTTPError" else Ret ().

(** The dictionaries appended to [records]. *)
Record RateRecord : Type := mkRecord {
  rec_rate_date : string;
  rec_base_currency : string;
  rec_quote_currency : string;
  rec_exchange_rate : F
}.

(** [records] after the two loops over the response. *)
Definition build_records (rates : list (string * list (string * F))) : list RateRecord :=
  entry ← rates;
  item ← entry.2;
  [mkRecord entry.1 "EUR" item.1 item.2].

(** One row of the frame: the record with its date read by pandas. The
    columns are those of a cross-pair row. *)
Definition row_of_record (api : Api) (r : RateRecord) : outcome (list (CrossRow F)) :=
  d ← to_datetime api (rec_rate_date r);
  mret [mkCross d (rec_base_currency r) (rec_quote_currency r) (rec_exchange_rate r)].

(** [pd.DataFrame(records)] and the conversion of the column [rate_date]. A
    frame built from an empty list has no column, and the lookup of
    [rate_date] raises [KeyError]. *)
Definition to_frame (api : Api) (records : list RateRecord) : outcome (list (CrossRow F)) :=
  match records with
  | [] => Raise "KeyError"
  | _ => gather (row_of_record api) records
  end.

Definition extract_fx_data (api : Api) (start_date : string) (end_date : option string)
    : outcome (list (CrossRow F) * nat) :=
  let end_date := default (today api) end_date in
  let symbols := String.concat "," (filter (λ c, c ≠ "EUR") CURRENCIES) in
  let url := API_BASE_URL +:+ "/" +:+ start_date +:+ ".." +:+ end_date in
  response ← requests_get api url symbols;
  _ ← raise_for_status response;
  data ← json response;
  rates ← match data with
           | Some rates => Ret rates
           | None => Raise "KeyError"
           end;
  df ← to_frame api (build_records rates);
  mret (df, duration_extract api).

(** A row of the extracted file as the transformation reads it:
    [base_currency], which is always EUR, is left out. *)
Definition raw_row (r : CrossRow F) : RawRow F :=
  mkRaw (rate_date r) (quote_currency r) (exchange_rate r).

Definition save_to_csv (env : Env) (df : list (CrossRow F)) (output_path : string)
    : M F unit :=
  save_to_csv env (ExtractedCsv (raw_row <$> df)) output_path.

Definition main_body (env : Env) (api : Api)
    (start_date end_date output_path : option string) : M F Z :=
  seq (validate_config env) (λ _,
  let start_date := default (START_DATE (config env)) start_date in
  let output_path := default (extract_output (config env)) output_path in
  seq (try_except
         (seq (get_db_connection env) (λ _,
          log_execution env "extract" "running" 0 None None))
         (λ e, logger_warning "Impossible de se connecter a la DB pour les logs")) (λ _,
  seq (lift (extract_fx_data api start_date end_date)) (λ result,
  let df := result.1 in
  let duration := result.2 in
  seq (save_to_csv env df output_path) (λ _,
  seq (λ w, when (connection w)
              (log_execution env "extract" "success" (length df) None (Some duration)) w)
      (λ _,
  ret 0%Z))))).

Definition main (env : Env) (api : Api)
    (start_date end_date output_path : option string) : M F Z :=
  λ w,
  let w := mkWorld (files w) (execution_log w) (warnings w) false (closed w) in
  try_finally
    (try_except
       (main_body env api start_date end_date output_path)
       (λ e, seq (λ w, when (connection w)
                         (log_execution env "extract" "failed" 0 (Some e) None) w) (λ _,
             ret 1%Z)))
    (λ w, when (connection w) connection_close w)
    w.

End Extract.

Arguments Response F : clear implicits.
Arguments Api F : clear implicits.
Arguments RateRecord F : clear implicits.

End Extract.

(** ** The orchestration (run_pipeline.py) *)

Module RunPipeline.

(** How [subprocess.run] ends: the child has exited with a return code, or
    it could not be started and an [OSError] is raised. *)
Inductive Completed : Type :=
| Exited (returncode : Z)
| NotStarted (e : string).

Section RunPipeline.

(** The world the child processes act on. *)
Context {S : Type}.

(** The interpreter of the parent and what running a command does. *)
Record Host : Type := mkHost {
  sys_executable : string;
  subprocess_run : list string → S → Completed * S
}.

(** The world and the commands run so far, each with its end. *)
Record Run : Type := mkRun {
  world : S;
  history : list (list string * Completed)
}.

(** [os.path.join] of two relative POSIX paths. *)
Definition path_join (a b : string) : string := a +:+ "/" +:+ b.

Definition command (host : Host) (script_name : string) (args : list string)
    : list string :=
  let cmd := [sys_executable host; path_join "scripts" script_name] in
  match args with
  | [] => cmd
  | _ => cmd ++ args
  end.

(** With [check=True] a return code other than 0 raises
    [CalledProcessError], which is caught; another exception is not. *)
Definition run_step (host : Host) (script_name : string) (step_number : nat)
    (step_name : string) (args : list string) (st : Run) : outcome bool * Run :=
  let cmd := command host script_name args in
  match subprocess_run host cmd (world st) with
  | (Exited code, s) =>
      (Ret (bool_decide (code = 0%Z)), mkRun s (history st ++ [(cmd, Exited code)]))
  | (NotStarted e, s) =>
      (Raise e, mkRun s (history st ++ [(cmd, NotStarted e)]))
  end.

Definition Step : Type := string * nat * string * list string.

Definition steps : list Step :=
  [ ("extract.py", 1, "Extraction", []);
    ("transform.py", 2, "Transformation", []);
    ("load.py", 3, "Chargement", []) ].

(** The loop of [main] over the steps; the value is the exit status of the
    process: 1 from [sys.exit(1)], 0 when [main] returns. *)
Fixpoint run_steps (host : Host) (steps : list Step) (st : Run) : outcome Z * Run :=
  match steps with
  | [] => (Ret 0%Z, st)
  | (script, step_num, step_name, args) :: steps' =>
      match run_step host script step_num step_name args st with
      | (Ret true, st') => run_steps host steps' st'
      | (Ret false, st') => (Ret 1%Z, st')
      | (Raise e, st') => (Raise e, st')
      end
  end.

Definition main (host : Host) (st : Run) : outcome Z * Run :=
  run_steps host steps st.

(** The command of a step. *)
Definition step_command (host : Host) (step : Step) : list string :=
  command host step.1.1.1 step.2.

End RunPipeline.

Arguments Host S : clear implicits.
Arguments Run S : clear implicits.

End RunPipeline.

(** ** The loading stage (scripts/load.py) *)

Module Load.

Section Load.

Context {F : Type} {num : PyNum F}.

(** What the stage sends to the two fact tables. [to_sql] goes through the
    engine, the other statements through the connection. *)
Inductive Statement : Type :=
| ToSqlDaily (df : list (CrossRow F))
| UpsertDaily (row : CrossRow F)
| Commit
| DeleteYtd (d : Date)
| ToSqlYtd (df : list (YtdRow F))
| Select (query : string).

(** The database: what a statement gives, after the statements sent before
    it: a row count or an exception; and the measured durations. *)
Record Database : Type := mkDatabase {
  db_execute : list Statement → Statement → outcome Z;
  duration_daily : nat;
  duration_ytd_load : nat
}.

(** The state of the stage: that of its files, audit table and connection,
    the statements sent, whether the engine was made and disposed of, and
    the statements that had been sent when the connection last committed.
    What the connection has sent since then is pending: it is kept by the
    next commit and dropped when the connection is closed before one. *)
Record State : Type := mkState {
  stage : World F;
  sent : list Statement;
  engine : bool;
  disposed : bool;
  committed : list Statement
}.

Definition L (A : Type) : Type := State → outcome A * State.

Definition lret {A} (a : A) : L A := λ s, (Ret a, s).

Definition lseq {A B} (m : L A) (k : A → L B) : L B :=
  λ s, match m s with
       | (Ret a, s') => k a s'
       | (Raise e, s') => (Raise e, s')
       end.

Definition llift {A} (o : outcome A) : L A := λ s, (o, s).

Definition ltry_except {A} (body : L A) (handler : string → L A) : L A :=
  λ s, match body s with
       | (Ret a, s') => (Ret a, s')
       | (Raise e, s') => handler e s'
       end.

Definition ltry_finally {A} (body : L A) (final : L unit) : L A :=
  λ s, match body s with
       | (r, s') =>
           match final s' with
           | (Ret _, s'') => (r, s'')
           | (Raise e, s'') => (Raise e, s'')
           end
       end.

(** A program of the stage that touches neither table. *)
Definition on_stage {A} (m : M F A) : L A :=
  λ s, match m (stage s) with
       | (r, w) => (r, mkState w (sent s) (engine s) (disposed s) (committed s))
       end.

(** A statement is sent and its result read. A [Commit] that returns
    commits what has been sent. *)
Definition execute (db : Database) (stmt : Statement) : L Z :=
  λ s, (db_execute db (sent s) stmt,
        mkState (stage s) (sent s ++ [stmt]) (engine s) (disposed s)
          (match stmt, db_execute db (sent s) stmt with
           | Commit, Ret _ => sent s ++ [stmt]
           | _, _ => committed s
           end)).

(** What [connection.commit()] in [log_execution] does to the tables: with
    the record, it commits what the connection has pending. *)
Definition commit_pending : L unit :=
  λ s, (Ret (), mkState (stage s) (sent s) (engine s) (disposed s) (sent s)).

(** [log_execution] of this stage. The record goes through the connection
    that carries the upserts and the deletions. [insert_audit] returns when
    the insertion of the record and the commit have both returned: what was
    pending is then committed too. When either raises, the commit has
    committed nothing, and a warning is logged. *)
Definition log_execution (env : Env) (step status : string) (rows : nat)
    (error : option string) (duration : option nat) : L unit :=
  ltry_except
    (lseq (on_stage (insert_audit env (mkAudit step status rows error duration))) (λ _,
     commit_pending))
    (λ e, on_stage (logger_warning "Impossible de logger dans la DB")).

(** [os.path.exists] and [pd.read_csv]. *)
Definition load_csv_data (file_path : string) : L (FileContent F) :=
  λ s, match files (stage s) !! file_path with
       | Some content => (Ret content, s)
       | None => (Raise "FileNotFoundError", s)
       end.

(** The frame of a file read as daily rates. An extracted file has the
    columns of a cross-pair file, with base EUR. A file of another shape
    lacks [exchange_rate]: the stage ends in an error of the database or in
    a [KeyError] when the first row is read, and the [KeyError] is placed
    here. *)
Definition daily_frame (content : FileContent F) : outcome (list (CrossRow F)) :=
  match content with
  | CrossCsv rows => Ret rows
  | ExtractedCsv rows =>
      Ret ((λ r, mkCross (raw_date r) "EUR" (raw_quote r) (raw_rate r)) <$> rows)
  | _ => Raise "KeyError"
  end.

(** The frame of a file read as YTD metrics; a file of another shape is
    refused by the database or lacks a column, and the error is placed
    here. *)
Definition ytd_frame (content : FileContent F) : outcome (list (YtdRow F)) :=
  match content with
  | YtdCsv rows => Ret rows
  | _ => Raise "KeyError"
  end.

(** The loop of the fallback: one statement for each row, counted as an
    insertion when the row count is 1 and as an update otherwise. *)
Fixpoint upsert_rows (db : Database) (rows : list (CrossRow F)) (counts : nat * nat)
    : L (nat * nat) :=
  match rows with
  | [] => lret counts
  | row :: rows' =>
      lseq (execute db (UpsertDaily row)) (λ rowcount,
      upsert_rows db rows'
        (if decide (rowcount = 1%Z) then (S counts.1, counts.2)
         else (counts.1, S counts.2)))
  end.

Definition load_daily_rates (db : Database) (content : FileContent F) : L (nat * nat) :=
  lseq (llift (daily_frame content)) (λ df,
  lseq (ltry_except
          (lseq (execute db (ToSqlDaily df)) (λ _, lret (length df, 0)))
          (λ e,
             lseq (on_stage (logger_warning "Insertion directe echouee, utilisation de UPSERT"))
                  (λ _,
             lseq (upsert_rows db df (0, 0)) (λ counts,
             lseq (execute db Commit) (λ _,
             lret counts))))) (λ counts,
  lret (counts.1 + counts.2, duration_daily db))).

(** [Series.unique]: the distinct values in the order of their first
    appearance. *)
Definition unique (dates : list Date) : list Date :=
  foldl (λ seen d, if decide (d ∈ seen) then seen else seen ++ [d]) [] dates.

Fixpoint delete_dates (db : Database) (dates : list Date) : L unit :=
  match dates with
  | [] => lret ()
  | d :: dates' => lseq (execute db (DeleteYtd d)) (λ _, delete_dates db dates')
  end.

Definition load_ytd_metrics (db : Database) (content : FileContent F) : L (nat * nat) :=
  lseq (llift (ytd_frame content)) (λ df,
  let dates := unique (ytd_date <$> df) in
  lseq (delete_dates db dates) (λ _,
  lseq (execute db Commit) (λ _,
  lseq (execute db (ToSqlYtd df)) (λ _,
  lret (length df, duration_ytd_load db))))).

(** The four queries whose results are logged. *)
Definition verify_load (db : Database) : L unit :=
  lseq (execute db (Select "SELECT COUNT(*) as count FROM fact_fx_rates_daily")) (λ _,
  lseq (execute db (Select "SELECT COUNT(*) as count FROM fact_fx_rates_ytd")) (λ _,
  lseq (execute db (Select "SELECT MAX(rate_date) as max_date FROM fact_fx_rates_daily"))
       (λ _,
  lseq (execute db (Select "SELECT COUNT(DISTINCT CONCAT(base_currency, '/', quote_currency)) as pair_count FROM fact_fx_rates_daily"))
       (λ _,
  lret ())))).

(** [config.get_db_engine]: the engine is made without a connection. *)
Definition get_db_engine : L unit :=
  λ s, (Ret (), mkState (stage s) (sent s) true (disposed s) (committed s)).

Definition engine_dispose : L unit :=
  λ s, (Ret (), mkState (stage s) (sent s) (engine s) true (committed s)).

Definition main_body (env : Env) (db : Database)
    (input_cross_path input_ytd_path : option string) : L Z :=
  lseq (on_stage (validate_config env)) (λ _,
  let input_cross_path := default (transform_output (config env)) input_cross_path in
  let input_ytd_path := default (ytd_output (config env)) input_ytd_path in
  lseq get_db_engine (λ _,
  lseq (on_stage (get_db_connection env)) (λ _,
  lseq (log_execution env "load" "running" 0 None None) (λ _,
  lseq (load_csv_data input_cross_path) (λ df_cross,
  lseq (load_daily_rates db df_cross) (λ daily,
  let total_rows := daily.1 in
  let total_duration := daily.2 in
  lseq (load_csv_data input_ytd_path) (λ df_ytd,
  lseq (load_ytd_metrics db df_ytd) (λ ytd,
  let total_rows := total_rows + ytd.1 in
  let total_duration := total_duration + ytd.2 in
  lseq (verify_load db) (λ _,
  lseq (log_execution env "load" "success" total_rows None (Some total_duration)) (λ _,
  lret 0%Z)))))))))).

Definition main (env : Env) (db : Database)
    (input_cross_path input_ytd_path : option string) : L Z :=
  λ s,
  let w := stage s in
  let s := mkState (mkWorld (files w) (execution_log w) (warnings w) false (closed w))
             (sent s) false (disposed s) (committed s) in
  ltry_finally
    (ltry_except
       (main_body env db input_cross_path input_ytd_path)
       (λ e, lseq (λ s, if connection (stage s)
                        then log_execution env "load" "failed" 0 (Some e) None s
                        else lret () s) (λ _,
             lret 1%Z)))
    (lseq (λ s, if connection (stage s) then on_stage connection_close s else lret () s)
          (λ _ s, if engine s then engine_dispose s else lret () s))
    s.

(** Two states of which the second has the files, the audit table, the
    connection and the engine of the first. *)
Definition stage_kept (s s' : State) : Prop :=
  files (stage s') = files (stage s) ∧
  execution_log (stage s') = execution_log (stage s) ∧
  connection (stage s') = connection (stage s) ∧
  closed (stage s') = closed (stage s) ∧
  engine s' = engine s ∧ disposed s' = disposed s.

(** Two states that agree on everything but the audit table, the warnings
    that were logged and what the connection has committed. *)
Definition same_load (s1 s2 : State) : Prop :=
  same_data (stage s1) (stage s2) ∧ sent s1 = sent s2 ∧
  engine s1 = engine s2 ∧ disposed s1 = disposed s2.

(** Two programs that, from such states, end alike and in such states. *)
Definition lalike {A} (m1 m2 : L A) : Prop :=
  ∀ s1 s2, same_load s1 s2 →
    (m1 s1).1 = (m2 s2).1 ∧ same_load (m1 s1).2 (m2 s2).2.

End Load.

Arguments Statement F : clear implicits.
Arguments Database F : clear implicits.
Arguments State F : clear implicits.
Arguments L F A : clear implicits.

End Load.

(** The four queries of [verify_load]. *)
Definition verify_queries {F} : list (Load.Statement F) :=
  [ Load.Select "SELECT COUNT(*) as count FROM fact_fx_rates_daily";
    Load.Select "SELECT COUNT(*) as count FROM fact_fx_rates_ytd";
    Load.Select "SELECT MAX(rate_date) as max_date FROM fact_fx_rates_daily";
    Load.Select "SELECT COUNT(DISTINCT CONCAT(base_currency, '/', quote_currency)) as pair_count FROM fact_fx_rates_daily" ].

(** ** The three scripts as child processes *)

Module Pipeline.

Section Pipeline.

Context {F : Type} {num : PyNum F}.

(** [sys.exit(exit_code)] at the end of a script; an exception that is not
    caught ends the interpreter with status 1. *)
Definition exit_status (r : outcome Z) : RunPipeline.Completed :=
  match r with
  | Ret code => RunPipeline.Exited code
  | Raise _ => RunPipeline.Exited 1
  end.

(** The interpreter on a command of the pipeline: the script is run without
    arguments, so that every parameter of its [main] is [None], in the world
    the parent is in. A file that is not one of the three scripts cannot be
    opened, and the interpreter exits with 2. *)
Definition python (env : Env) (api : Extract.Api F) (db : Load.Database F)
    (cmd : list string) (s : Load.State F) : RunPipeline.Completed * Load.State F :=
  match cmd with
  | [_; script] =>
      if decide (script = RunPipeline.path_join "scripts" "extract.py") then
        match Load.on_stage (Extract.main env api None None None) s with
        | (r, s') => (exit_status r, s')
        end
      else if decide (script = RunPipeline.path_join "scripts" "transform.py") then
        match Load.on_stage (main env None None None) s with
        | (r, s') => (exit_status r, s')
        end
      else if decide (script = RunPipeline.path_join "scripts" "load.py") then
        match Load.main env db None None s with
        | (r, s') => (exit_status r, s')
        end
      else (RunPipeline.Exited 2, s)
  | _ => (RunPipeline.Exited 2, s)
  end.

Definition host (executable : string) (env : Env) (api : Extract.Api F)
    (db : Load.Database F) : RunPipeline.Host (Load.State F) :=
  RunPipeline.mkHost executable (python env api db).

End Pipeline.

End Pipeline.

(** ** Sample data of the other stages *)

(** An API that answers every request with NOK at 11.5 and SEK at 11.2 on
    2024-01-01 and reads that date. *)
Definition ex_api : Extract.Api pyfloat :=
  Extract.mkApi "2024-01-01"
    (λ _ _, Ret (Extract.mkResponse 200
                   (Ret (Some [("2024-01-01",
                                [("NOK", Fin (115 # 10)); ("SEK", Fin (112 # 10))])]))))
    (λ s, if decide (s = "2024-01-01") then Ret d_2024_01_01 else Raise "ValueError")
    0.

(** An API that has a date without a rate for the period. *)
Definition ex_api_empty : Extract.Api pyfloat :=
  Extract.mkApi "2024-01-06"
    (λ _ _, Ret (Extract.mkResponse 200 (Ret (Some [("2024-01-06", [])]))))
    (λ s, Raise "ValueError")
    0.

(** One day with a rate for each of the six currencies. *)
Definition ex_raw_full : list (RawRow pyfloat) :=
  [ mkRaw d_2024_01_01 "NOK" (Fin (115 # 10));
    mkRaw d_2024_01_01 "SEK" (Fin (112 # 10));
    mkRaw d_2024_01_01 "PLN" (Fin (43 # 10));
    mkRaw d_2024_01_01 "RON" (Fin (5 # 1));
    mkRaw d_2024_01_01 "DKK" (Fin (75 # 10));
    mkRaw d_2024_01_01 "CZK" (Fin (25 # 1)) ].

Definition ex_cross_full : list (CrossRow pyfloat) :=
  match calculate_cross_pairs ex_raw_full with
  | Ret out => out
  | Raise _ => []
  end.

(** A rate of zero for NOK. *)
Definition ex_raw_zero : list (RawRow pyfloat) :=
  [ mkRaw d_2024_01_01 "NOK" (Fin 0);
    mkRaw d_2024_01_01 "SEK" (Fin (112 # 10)) ].

(** A row in a currency that is not in [CURRENCIES]. *)
Definition ex_raw_foreign : list (RawRow pyfloat) :=
  [ mkRaw d_2024_01_01 "USD" (Fin (11 # 10)) ].

(** The frame extracted from the answer of [ex_api]. *)
Definition ex_extracted : list (CrossRow pyfloat) :=
  [ mkCross d_2024_01_01 "EUR" "NOK" (Fin (115 # 10));
    mkCross d_2024_01_01 "EUR" "SEK" (Fin (112 # 10)) ].

(** A database that takes every statement. *)
Definition ex_db : Load.Database pyfloat :=
  Load.mkDatabase (λ _ _, Ret 1%Z) 0 0.

(** A database that refuses the insertion of a frame of daily rates and
    updates a row at each upsert. *)
Definition ex_db_duplicates : Load.Database pyfloat :=
  Load.mkDatabase
    (λ _ stmt, match stmt with
               | Load.ToSqlDaily _ => Raise "IntegrityError"
               | _ => Ret 2%Z
               end) 0 0.

Definition ex_ytd_two_days : list (YtdRow pyfloat) :=
  calculate_ytd_metrics ex_cross_two_days.

(** A state of the loading stage with the given files and nothing sent. *)
Definition ex_load_state (fs : gmap string (FileContent pyfloat)) : Load.State pyfloat :=
  Load.mkState (mkWorld fs [] [] false false) [] false false [].

Definition ex_files_transformed : gmap string (FileContent pyfloat) :=
  <[ "ytd.csv" := YtdCsv ex_ytd_two_days ]>
    {[ "cross.csv" := CrossCsv ex_cross_two_days ]}.

(** The pipeline on an empty directory. *)
Definition ex_run : RunPipeline.Run (Load.State pyfloat) :=
  RunPipeline.mkRun (ex_load_state ∅) [].

(** A database that refuses the insertion of a frame of daily rates, takes
    the first upsert and fails at the second. *)
Definition ex_db_upsert_fails : Load.Database pyfloat :=
  Load.mkDatabase
    (λ before stmt, match stmt with
                    | Load.ToSqlDaily _ => Raise "IntegrityError"
                    | Load.UpsertDaily _ =>
                        if decide (length before = 1) then Ret 1%Z
                        else Raise "OperationalError"
                    | _ => Ret 1%Z
                    end) 0 0.

(** The outside world of [ex_env] with an audit table that refuses the
    record of a failure and takes the others. *)
Definition ex_env_audit_fails : Env :=
  with_db_insert ex_env
    (λ log rec, if decide (status rec = "failed") then Raise "DataError"
                else Ret (log ++ [rec])).

(** The file of cross pairs alone, with the two rows of [ex_extracted]. *)
Definition ex_files_cross : gmap string (FileContent pyfloat) :=
  {[ "cross.csv" := CrossCsv ex_extracted ]}.

(** * Properties *)

(** ** Dates are totally ordered *)

#[global] Instance date_le_refl : Reflexive date_le.
Proof. intros [y m d]. unfold date_le; simpl. lia. Qed.

#[global] Instance date_le_trans : Transitive date_le.
Proof. intros [y1 m1 d1] [y2 m2 d2] [y3 m3 d3]. unfold date_le; simpl. lia. Qed.

#[global] Instance date_le_total : Total date_le.
Proof. intros [y1 m1 d1] [y2 m2 d2]. unfold date_le; simpl. lia. Qed.

#[global] Instance date_le_antisym : AntiSymm (=) date_le.
Proof.
  intros [y1 m1 d1] [y2 m2 d2]. unfold date_le; simpl. intros H1 H2.
  assert (y1 = y2 ∧ m1 = m2 ∧ d1 = d2) as (-> & -> & ->) by lia. done.
Qed.

Lemma year_start_le (d : Date) : date_le (year_start d) d.
Proof. destruct d as [y m dd]. unfold date_le, year_start; simpl. lia. Qed.

Lemma date_in_year (d e : Date) :
  date_le (year_start d) e → date_le e d → year e = year d.
Proof. destruct d, e. unfold date_le, year_start; simpl. lia. Qed.

(** From January 1 of the year of [D] to [D]: in the year of [D], and no
    later than [D]. *)
Lemma year_window_iff D (d : Date) :
  date_le (year_start D) d ∧ date_le d D ↔ year d = year D ∧ date_le d D.
Proof.
  destruct D as [y1 m1 d1], d as [y2 m2 d2]. unfold date_le, year_start; simpl. lia.
Qed.

(** ** Loops that may raise *)

Section Loops.

Context {A R : Type}.
Implicit Types (g : A → outcome (list R)) (l : list A).

Lemma for_each_gather l (body : A → list R → outcome (list R)) g acc :
  (∀ x acc', body x acc' = Py.bind (g x) (λ r, Ret (acc' ++ r))) →
  for_each l body acc = Py.bind (gather g l) (λ rs, Ret (acc ++ rs)).
Proof.
  intros Hbody. revert acc. induction l as [|x l IH]; intros acc; simpl.
  - by rewrite app_nil_r.
  - rewrite Hbody. destruct (g x) as [r|e]; simpl; [|done].
    rewrite IH. destruct (gather g l) as [rs|e]; simpl; [|done].
    by rewrite app_assoc.
Qed.

Lemma gather_ext g g' l :
  (∀ x, x ∈ l → g x = g' x) → gather g l = gather g' l.
Proof.
  induction l as [|x l IH]; intros Hg; simpl; [done|].
  rewrite Hg by left. rewrite IH; [done|]. intros y Hy. apply Hg. by right.
Qed.

Lemma gather_filter (P : A → Prop) `{!∀ x, Decision (P x)} g l :
  (∀ x, x ∈ l → ¬ P x → g x = Ret []) →
  gather g (filter P l) = gather g l.
Proof.
  induction l as [|x l IH]; intros Hg; simpl; [done|].
  rewrite filter_cons. destruct (decide (P x)) as [HP|HP]; simpl.
  - rewrite IH; [done|]. intros y Hy. apply Hg. by right.
  - rewrite (Hg x) by (done || left). simpl.
    rewrite IH by (intros y Hy; apply Hg; by right).
    by destruct (gather g l).
Qed.

Lemma gather_Ret g l out :
  gather g l = Ret out →
  ∃ rss, Forall2 (λ x rs, g x = Ret rs) l rss ∧ out = concat rss.
Proof.
  revert out. induction l as [|x l IH]; intros out; simpl.
  - intros [= <-]. exists []. split; [constructor|done].
  - destruct (g x) as [r|e] eqn:Hx; simpl; [|done].
    destruct (gather g l) as [rs|e] eqn:Hl; simpl; [|done].
    intros [= <-]. destruct (IH rs eq_refl) as (rss & HF & ->).
    exists (r :: rss). split; [by constructor|done].
Qed.

Lemma gather_returns g l :
  (∀ x, x ∈ l → ∃ r, g x = Ret r) → ∃ out, gather g l = Ret out.
Proof.
  induction l as [|x l IH]; intros Hg; simpl; [by eexists|].
  destruct (Hg x) as [r ->]; [left|]. simpl.
  destruct IH as [rs ->]; [intros y Hy; apply Hg; by right|].
  simpl. by eexists.
Qed.

Lemma gather_elem_of g l out r :
  gather g l = Ret out →
  r ∈ out ↔ ∃ x rs, x ∈ l ∧ g x = Ret rs ∧ r ∈ rs.
Proof.
  revert out. induction l as [|x l IH]; intros out; simpl.
  - intros [= <-]. split; [by intros ?%elem_of_nil|].
    by intros (x & rs & ?%elem_of_nil & _).
  - destruct (g x) as [r0|e] eqn:Hx; simpl; [|done].
    destruct (gather g l) as [rs|e] eqn:Hl; simpl; [|done].
    intros [= <-]. rewrite elem_of_app, (IH rs eq_refl). split.
    + intros [Hr|(y & rs' & Hy & Hgy & Hr)].
      * exists x, r0. split_and!; [left|done..].
      * exists y, rs'. split_and!; [by right|done..].
    + intros (y & rs' & Hy & Hgy & Hr).
      apply elem_of_cons in Hy as [->|Hy].
      * left. congruence.
      * right. eauto.
Qed.

End Loops.

(** ** The cross-pair engine *)

Section CrossPairs.

Context {F : Type} {num : PyNum F}.
Implicit Types (df group : list (RawRow F)) (d : Date) (C : list string).
Implicit Types (row : CrossRow F) (out : list (CrossRow F)).

(** The table of a date holds, for a currency, the rate of the last raw row
    of that date that quotes it, and 1.0 for EUR when no row quotes EUR. *)
Lemma build_rates_dict_lookup group c :
  build_rates_dict group !! c =
    match last (filter (λ r, raw_quote r = c) group) with
    | Some r => Some (raw_rate r)
    | None => if decide (c = "EUR") then Some f_one else None
    end.
Proof.
  unfold build_rates_dict.
  induction group as [|r group IH] using rev_ind.
  - simpl. destruct (decide (c = "EUR")) as [->|Hc].
    + apply lookup_singleton_eq.
    + apply lookup_singleton_ne. congruence.
  - rewrite foldl_snoc, filter_app, filter_cons, filter_nil.
    destruct (decide (raw_quote r = c)) as [<-|Hne].
    + by rewrite lookup_insert_eq, last_snoc.
    + by rewrite lookup_insert_ne, app_nil_r.
Qed.

Lemma build_rates_dict_is_Some group c :
  is_Some (build_rates_dict group !! c) ↔ c = "EUR" ∨ c ∈ raw_quote <$> group.
Proof.
  rewrite build_rates_dict_lookup.
  destruct (last (filter (λ r, raw_quote r = c) group)) as [r|] eqn:Hlast.
  - split; [intros _|by eauto].
    apply last_Some_elem_of, list_elem_of_filter in Hlast as [<- Hr].
    right. by apply list_elem_of_fmap_2.
  - apply last_None in Hlast.
    destruct (decide (c = "EUR")) as [->|Hc].
    + split; [by left|by eauto].
    + split; [by intros [? [=]]|]. intros [?|Hin]; [done|].
      apply list_elem_of_fmap in Hin as (r & -> & Hr).
      by apply (filter_nil_not_elem_of _ _ r) in Hlast.
Qed.

(** The table of date [d] read off the raw rows: a currency has the rate of
    the last row dated [d] that quotes it, and EUR has 1.0 when no row dated
    [d] quotes EUR. Rows of other dates play no part. *)
Lemma rates_dict_of_date df d c :
  build_rates_dict (date_group df d) !! c =
    match last (filter (λ r, raw_date r = d ∧ raw_quote r = c) df) with
    | Some r => Some (raw_rate r)
    | None => if decide (c = "EUR") then Some f_one else None
    end.
Proof.
  rewrite build_rates_dict_lookup. unfold date_group. rewrite list_filter_filter.
  rewrite (list_filter_iff (λ r, raw_quote r = c ∧ raw_date r = d)
             (λ r, raw_date r = d ∧ raw_quote r = c)); [done|].
  intros r. tauto.
Qed.

Lemma rates_dict_of_date_is_Some df d c :
  is_Some (build_rates_dict (date_group df d) !! c) ↔
  c = "EUR" ∨ Exists (λ r, raw_date r = d ∧ raw_quote r = c) df.
Proof.
  rewrite build_rates_dict_is_Some, Exists_exists. unfold date_group.
  split; (intros [?|H]; [by left|right]).
  - apply list_elem_of_fmap in H as (r & -> & Hr).
    apply list_elem_of_filter in Hr as [Hd Hr]. by exists r.
  - destruct H as (r & Hr & Hd & <-).
    apply list_elem_of_fmap_2. by apply list_elem_of_filter.
Qed.

Lemma cross_pair_body_cell d (t : gmap string F) b q (acc : list (CrossRow F)) :
  cross_pair_body d t b q acc = Py.bind (cross_pair_cell d t b q) (λ r, Ret (acc ++ r)).
Proof.
  unfold cross_pair_body, cross_pair_cell.
  destruct (decide (b ≠ q)); simpl; [|by rewrite app_nil_r].
  destruct (t !! b) as [rb|]; simpl; [|by rewrite app_nil_r].
  destruct (t !! q) as [rq|]; simpl; [|by rewrite app_nil_r].
  unfold mbind, outcome_bind. by destruct (py_div rq rb).
Qed.

Lemma cross_pairs_of_date_block C df d (acc : list (CrossRow F)) :
  cross_pairs_of_date C df d acc =
    Py.bind (cross_pairs_block C df d) (λ r, Ret (acc ++ r)).
Proof.
  unfold cross_pairs_of_date, cross_pairs_block.
  apply for_each_gather. intros b acc'.
  apply for_each_gather. intros q acc''. apply cross_pair_body_cell.
Qed.

Lemma calculate_cross_pairs_in_gather C df :
  calculate_cross_pairs_in C df =
    Py.bind (gather (cross_pairs_block C df) (group_dates df))
      (λ all_rates, match all_rates with [] => Raise "KeyError" | _ => Ret all_rates end).
Proof.
  unfold calculate_cross_pairs_in, mbind, outcome_bind.
  rewrite (for_each_gather _ _ (cross_pairs_block C df)).
  - by destruct (gather _ _).
  - intros d acc. apply cross_pairs_of_date_block.
Qed.

Lemma calculate_cross_pairs_in_Ret C df out :
  calculate_cross_pairs_in C df = Ret out →
  gather (cross_pairs_block C df) (group_dates df) = Ret out ∧ out ≠ [].
Proof.
  rewrite calculate_cross_pairs_in_gather.
  destruct (gather _ _) as [[|r rs]|e]; simpl; [done| |done].
  by intros [= <-].
Qed.

(** The dates of the groups are the dates of the rows, once each. *)
Lemma elem_of_group_dates df d : d ∈ group_dates df ↔ d ∈ raw_date <$> df.
Proof.
  unfold group_dates. by rewrite merge_sort_Permutation, elem_of_remove_dups.
Qed.

Lemma NoDup_group_dates df : NoDup (group_dates df).
Proof.
  unfold group_dates. rewrite merge_sort_Permutation. apply NoDup_remove_dups.
Qed.

Lemma Sorted_group_dates df : Sorted date_le (group_dates df).
Proof. apply (Sorted_merge_sort _). Qed.

(** What one iteration of the innermost loop appends. *)
Lemma cross_pair_cell_Ret d (t : gmap string F) b q rs :
  cross_pair_cell d t b q = Ret rs →
  (rs = [] ∧ ¬ (b ≠ q ∧ is_Some (t !! b) ∧ is_Some (t !! q))) ∨
  (b ≠ q ∧ ∃ rb rq x, t !! b = Some rb ∧ t !! q = Some rq ∧
     py_div rq rb = Ret x ∧ rs = [mkCross d b q (py_round 8 x)]).
Proof.
  unfold cross_pair_cell. destruct (decide (b ≠ q)) as [Hne|Heq].
  - destruct (t !! b) as [rb|] eqn:Hb, (t !! q) as [rq|] eqn:Hq; simpl.
    + unfold mbind, outcome_bind. destruct (py_div rq rb) as [x|e] eqn:Hdiv; simpl; [|done].
      intros [= <-]. right. split; [done|]. by exists rb, rq, x.
    + intros [= <-]. left. split; [done|]. by intros (_ & _ & [? [=]]).
    + intros [= <-]. left. split; [done|]. by intros (_ & [? [=]] & _).
    + intros [= <-]. left. split; [done|]. by intros (_ & [? [=]] & _).
  - intros [= <-]. left. split; [done|]. by intros [? _].
Qed.

Lemma cross_pairs_block_elem_of C df d blk row :
  cross_pairs_block C df d = Ret blk →
  row ∈ blk ↔
  ∃ b q rb rq x, b ∈ C ∧ q ∈ C ∧ b ≠ q ∧
    build_rates_dict (date_group df d) !! b = Some rb ∧
    build_rates_dict (date_group df d) !! q = Some rq ∧
    py_div rq rb = Ret x ∧ row = mkCross d b q (py_round 8 x).
Proof.
  unfold cross_pairs_block. intros Hblk.
  rewrite (gather_elem_of _ _ _ _ Hblk). split.
  - intros (b & rs & Hb & Hrs & Hrow).
    rewrite (gather_elem_of _ _ _ _ Hrs) in Hrow.
    destruct Hrow as (q & cell & Hq & Hcell & Hrow).
    apply cross_pair_cell_Ret in Hcell
      as [[-> _]|(Hne & rb & rq & x & Htb & Htq & Hdiv & ->)].
    + by apply elem_of_nil in Hrow.
    + apply list_elem_of_singleton in Hrow as ->. by exists b, q, rb, rq, x.
  - intros (b & q & rb & rq & x & Hb & Hq & Hne & Htb & Htq & Hdiv & ->).
    destruct (gather_Ret _ _ _ Hblk) as (rss & HF & _).
    destruct (proj1 (list_elem_of_lookup _ _) Hb) as [i Hi].
    destruct (Forall2_lookup_l _ _ _ _ _ HF Hi) as (rs & _ & Hrs).
    exists b, rs. split_and!; [done..|].
    rewrite (gather_elem_of _ _ _ _ Hrs).
    exists q, [mkCross d b q (py_round 8 x)]. split_and!; [done| |by left].
    unfold cross_pair_cell. rewrite decide_True by done. rewrite Htb, Htq.
    unfold mbind, outcome_bind. by rewrite Hdiv.
Qed.

Lemma calculate_cross_pairs_in_elem_of C df out row :
  calculate_cross_pairs_in C df = Ret out →
  row ∈ out ↔
  ∃ b q rb rq x, rate_date row ∈ raw_date <$> df ∧ b ∈ C ∧ q ∈ C ∧ b ≠ q ∧
    build_rates_dict (date_group df (rate_date row)) !! b = Some rb ∧
    build_rates_dict (date_group df (rate_date row)) !! q = Some rq ∧
    py_div rq rb = Ret x ∧ row = mkCross (rate_date row) b q (py_round 8 x).
Proof.
  intros [Hout _]%calculate_cross_pairs_in_Ret.
  rewrite (gather_elem_of _ _ _ _ Hout). split.
  - intros (d & blk & Hd & Hblk & Hrow).
    apply (cross_pairs_block_elem_of _ _ _ _ _ Hblk) in Hrow
      as (b & q & rb & rq & x & Hb & Hq & Hne & Htb & Htq & Hdiv & ->). simpl.
    exists b, q, rb, rq, x. by rewrite <-elem_of_group_dates.
  - intros (b & q & rb & rq & x & Hd & Hb & Hq & Hne & Htb & Htq & Hdiv & Hrow).
    apply elem_of_group_dates in Hd.
    destruct (gather_Ret _ _ _ Hout) as (rss & HF & _).
    destruct (proj1 (list_elem_of_lookup _ _) Hd) as [i Hi].
    destruct (Forall2_lookup_l _ _ _ _ _ HF Hi) as (blk & _ & Hblk).
    exists (rate_date row), blk. split_and!; [done..|].
    apply (cross_pairs_block_elem_of _ _ _ _ _ Hblk). by exists b, q, rb, rq, x.
Qed.

End CrossPairs.

Section CrossPairsClaims.

Context {F : Type} {num : PyNum F}.
Implicit Types (df group : list (RawRow F)) (d : Date) (C : list string).
Implicit Types (row : CrossRow F) (out : list (CrossRow F)).

(** When the loops return, every division they met returned. *)
Lemma cross_pairs_block_div_returns C df d blk b q rb rq :
  cross_pairs_block C df d = Ret blk →
  b ∈ C → q ∈ C → b ≠ q →
  build_rates_dict (date_group df d) !! b = Some rb →
  build_rates_dict (date_group df d) !! q = Some rq →
  ∃ x, py_div rq rb = Ret x.
Proof.
  unfold cross_pairs_block. intros Hblk Hb Hq Hne Htb Htq.
  destruct (gather_Ret _ _ _ Hblk) as (rss & HF & _).
  destruct (proj1 (list_elem_of_lookup _ _) Hb) as [i Hi].
  destruct (Forall2_lookup_l _ _ _ _ _ HF Hi) as (rs & _ & Hrs).
  destruct (gather_Ret _ _ _ Hrs) as (cells & HF' & _).
  destruct (proj1 (list_elem_of_lookup _ _) Hq) as [j Hj].
  destruct (Forall2_lookup_l _ _ _ _ _ HF' Hj) as (cell & _ & Hcell).
  unfold cross_pair_cell in Hcell. rewrite decide_True in Hcell by done.
  rewrite Htb, Htq in Hcell. unfold mbind, outcome_bind in Hcell.
  destruct (py_div rq rb) as [x|e]; [by exists x|done].
Qed.

Lemma calculate_cross_pairs_in_block C df out d :
  calculate_cross_pairs_in C df = Ret out → d ∈ raw_date <$> df →
  ∃ blk, cross_pairs_block C df d = Ret blk.
Proof.
  intros [Hout _]%calculate_cross_pairs_in_Ret Hd%elem_of_group_dates.
  destruct (gather_Ret _ _ _ Hout) as (rss & HF & _).
  destruct (proj1 (list_elem_of_lookup _ _) Hd) as [i Hi].
  destruct (Forall2_lookup_l _ _ _ _ _ HF Hi) as (blk & _ & Hblk). by exists blk.
Qed.

(** The function returns when the divisions it needs return and some date
    has two currencies of [C] in its table. *)
Lemma calculate_cross_pairs_in_returns C df :
  (∀ d b q rb rq, d ∈ raw_date <$> df → b ∈ C → q ∈ C → b ≠ q →
     build_rates_dict (date_group df d) !! b = Some rb →
     build_rates_dict (date_group df d) !! q = Some rq →
     ∃ x, py_div rq rb = Ret x) →
  (∃ d b q, d ∈ raw_date <$> df ∧ b ∈ C ∧ q ∈ C ∧ b ≠ q ∧
     is_Some (build_rates_dict (date_group df d) !! b) ∧
     is_Some (build_rates_dict (date_group df d) !! q)) →
  ∃ out, calculate_cross_pairs_in C df = Ret out.
Proof.
  intros Hdiv (d & b & q & Hd & Hb & Hq & Hne & [rb Htb] & [rq Htq]).
  assert (∀ d', d' ∈ group_dates df → ∃ blk, cross_pairs_block C df d' = Ret blk)
    as Hblocks.
  { intros d' Hd'%elem_of_group_dates. unfold cross_pairs_block.
    apply gather_returns. intros b' Hb'. apply gather_returns. intros q' Hq'.
    unfold cross_pair_cell. destruct (decide (b' ≠ q')) as [Hne'|]; [|by eexists].
    destruct (_ !! b') as [rb'|] eqn:Hb1; [|by eexists].
    destruct (_ !! q') as [rq'|] eqn:Hq1; [|by eexists].
    destruct (Hdiv d' b' q' rb' rq') as [x Hx]; [done..|].
    unfold mbind, outcome_bind. rewrite Hx. by eexists. }
  destruct (gather_returns _ _ Hblocks) as [out Hout].
  rewrite calculate_cross_pairs_in_gather, Hout. simpl.
  destruct (Hblocks d) as [blk Hblk]; [by apply elem_of_group_dates|].
  destruct (Hdiv d b q rb rq) as [x Hx]; [done..|].
  assert (mkCross d b q (py_round 8 x) ∈ out) as Hin.
  { apply (gather_elem_of _ _ _ _ Hout). exists d, blk.
    split_and!; [by apply elem_of_group_dates|done|].
    apply (cross_pairs_block_elem_of _ _ _ _ _ Hblk). by exists b, q, rb, rq, x. }
  destruct out; [by apply elem_of_nil in Hin|by eexists].
Qed.

(** C2. For a date [d] of the input in which no raw row quotes EUR, let
    [rate_on d' c] be what the raw rows give currency [c] on date [d']: 1.0
    for EUR, and for another currency the rate of the raw row dated [d'] that
    quotes it (the last one, were there several), nothing when there is
    none. The table the function builds for [d] is [rate_on d]: rows of other
    dates play no part in it. When the function returns [out], every ordered
    pair of distinct currencies of [CURRENCIES] that both have a rate on [d]
    gets the row whose rate is [table[quote] / table[base]] rounded to 8
    digits, the rows of [out] for [d] are only such rows, and a currency that
    no raw row dated [d] quotes is in none of them. The function returns
    when the divisions return and some date has a pair. *)
Theorem cross_pairs_rate_table df d :
  Forall (λ r, raw_quote r ≠ "EUR") df →
  d ∈ raw_date <$> df →
  let rate_on (d' : Date) (c : string) : option F :=
    if decide (c = "EUR") then Some f_one
    else raw_rate <$> last (filter (λ r, raw_date r = d' ∧ raw_quote r = c) df) in
  (∀ c, build_rates_dict (date_group df d) !! c = rate_on d c) ∧
  (∀ out, calculate_cross_pairs df = Ret out →
     (∀ base quote rb rq,
        base ∈ CURRENCIES → quote ∈ CURRENCIES → base ≠ quote →
        rate_on d base = Some rb → rate_on d quote = Some rq →
        ∃ x, py_div rq rb = Ret x ∧ mkCross d base quote (py_round 8 x) ∈ out) ∧
     (∀ row, row ∈ out → rate_date row = d →
        base_currency row ∈ CURRENCIES ∧ quote_currency row ∈ CURRENCIES ∧
        base_currency row ≠ quote_currency row ∧
        ∃ rb rq x, rate_on d (base_currency row) = Some rb ∧
          rate_on d (quote_currency row) = Some rq ∧
          py_div rq rb = Ret x ∧ exchange_rate row = py_round 8 x) ∧
     (∀ c row, c ≠ "EUR" → (∀ r, r ∈ df → raw_date r = d → raw_quote r ≠ c) →
        row ∈ out → rate_date row = d →
        base_currency row ≠ c ∧ quote_currency row ≠ c)) ∧
  ((∀ d' b q rb rq, d' ∈ raw_date <$> df → b ∈ CURRENCIES → q ∈ CURRENCIES → b ≠ q →
      rate_on d' b = Some rb → rate_on d' q = Some rq →
      ∃ x, py_div rq rb = Ret x) →
   (∃ b q, b ∈ CURRENCIES ∧ q ∈ CURRENCIES ∧ b ≠ q ∧
      is_Some (rate_on d b) ∧ is_Some (rate_on d q)) →
   ∃ out, calculate_cross_pairs df = Ret out).
Proof.
  intros Hvalid Hd rate_on.
  assert (∀ d' c, build_rates_dict (date_group df d') !! c = rate_on d' c) as Htable.
  { intros d' c. rewrite rates_dict_of_date. unfold rate_on.
    destruct (last _) as [r|] eqn:Hlast; [|by destruct (decide _)].
    rewrite decide_False; [done|]. intros ->.
    apply last_Some_elem_of, list_elem_of_filter in Hlast as [[_ Hq] Hr].
    rewrite Forall_forall in Hvalid. by destruct (Hvalid r Hr). }
  assert (∀ row out, calculate_cross_pairs df = Ret out → row ∈ out → rate_date row = d →
     base_currency row ∈ CURRENCIES ∧ quote_currency row ∈ CURRENCIES ∧
     base_currency row ≠ quote_currency row ∧
     ∃ rb rq x, rate_on d (base_currency row) = Some rb ∧
       rate_on d (quote_currency row) = Some rq ∧
       py_div rq rb = Ret x ∧ exchange_rate row = py_round 8 x) as Hrows.
  { intros row out Hout Hrow Hdate.
    apply (calculate_cross_pairs_in_elem_of _ _ _ _ Hout) in Hrow
      as (b & q & rb & rq & x & _ & Hb & Hq & Hne & Htb & Htq & Hdiv & Hrow).
    rewrite Hdate, Htable in Htb, Htq. rewrite Hrow. simpl.
    split_and!; [done..|]. by exists rb, rq, x. }
  split_and!; [apply Htable| |].
  - intros out Hout. split_and!.
    + intros base quote rb rq Hb Hq Hne Htb Htq. rewrite <-Htable in Htb, Htq.
      destruct (calculate_cross_pairs_in_block _ _ _ d Hout Hd) as [blk Hblk].
      destruct (cross_pairs_block_div_returns _ _ _ _ _ _ _ _ Hblk Hb Hq Hne Htb Htq)
        as [x Hx].
      exists x. split; [done|].
      apply (calculate_cross_pairs_in_elem_of _ _ _ _ Hout).
      exists base, quote, rb, rq, x. simpl. by split_and!.
    + intros row Hrow Hdate. by apply (Hrows row out).
    + intros c row Hc Habs Hrow Hdate.
      destruct (Hrows row out Hout Hrow Hdate)
        as (_ & _ & _ & rb & rq & x & Htb & Htq & _).
      assert (rate_on d c = None) as Hno.
      { unfold rate_on. rewrite decide_False by done.
        destruct (last _) as [r|] eqn:Hlast; [|done].
        apply last_Some_elem_of, list_elem_of_filter in Hlast as [[Hdr Hq] Hr].
        by destruct (Habs r Hr Hdr). }
      split; intros <-; congruence.
  - intros Hdiv (b & q & Hb & Hq & Hne & Hsb & Hsq).
    apply calculate_cross_pairs_in_returns.
    + intros d' b' q' rb rq Hd' Hb' Hq' Hne' Htb Htq. rewrite Htable in Htb, Htq.
      by apply (Hdiv d' b' q').
    + exists d, b, q. by rewrite !Htable.
Qed.

End CrossPairsClaims.

(** ** Lists *)

Lemma filter_all {X : Type} (P : X → Prop) `{!∀ x, Decision (P x)} (l : list X) :
  Forall P l → filter P l = l.
Proof.
  induction 1 as [|x l Hx _ IH]; [done|].
  by rewrite filter_cons_True, IH.
Qed.

Lemma filter_none {X : Type} (P : X → Prop) `{!∀ x, Decision (P x)} (l : list X) :
  Forall (λ x, ¬ P x) l → filter P l = [].
Proof.
  induction 1 as [|x l Hx _ IH]; [done|].
  by rewrite filter_cons_False.
Qed.

Section ListFacts.

Context {A B : Type}.

Lemma bind_filter (P : A → Prop) `{!∀ x, Decision (P x)} (f : A → list B) (l : list A) :
  filter P l ≫= f = l ≫= (λ x, if decide (P x) then f x else []).
Proof.
  induction l as [|x l IH]; [done|].
  rewrite filter_cons. csimpl. destruct (decide (P x)); csimpl; by rewrite IH.
Qed.

Lemma bind_ext_in (f g : A → list B) (l : list A) :
  (∀ x, x ∈ l → f x = g x) → l ≫= f = l ≫= g.
Proof. intros Hfg. apply Forall_bind_ext, Forall_forall, Hfg. Qed.

Lemma length_bind_const (f : A → list B) (l : list A) (n : nat) :
  (∀ x, x ∈ l → length (f x) = n) → length (l ≫= f) = length l * n.
Proof.
  induction l as [|x l IH]; intros Hf; [done|].
  rewrite bind_cons, length_app, Hf by left.
  rewrite IH by (intros y Hy; apply Hf; by right). simpl. lia.
Qed.

Lemma length_filter_ne `{!EqDecision A} (l : list A) (b : A) :
  NoDup l → b ∈ l → length (filter (λ q, b ≠ q) l) = length l - 1.
Proof.
  induction 1 as [|x l Hx Hnd IH]; [by intros ?%elem_of_nil|].
  intros [->|Hb]%elem_of_cons.
  - rewrite filter_cons_False by (intros Hne; by apply Hne).
    rewrite filter_all; [simpl; lia|].
    apply Forall_forall. by intros q Hq ->.
  - rewrite filter_cons_True by (by intros ->).
    simpl. rewrite IH by done.
    destruct l; [by apply elem_of_nil in Hb|simpl; lia].
Qed.

Lemma gather_Ret_bind (g : A → outcome (list B)) (l : list A) out :
  gather g l = Ret out →
  out = l ≫= (λ x, match g x with Ret r => r | Raise _ => [] end).
Proof.
  revert out. induction l as [|x l IH]; intros out Hout; simpl in Hout.
  - by injection Hout as <-.
  - destruct (g x) as [r|e] eqn:Hx; simpl in Hout; [|done].
    destruct (gather g l) as [rs|e] eqn:Hl; simpl in Hout; [|done].
    injection Hout as <-. by rewrite bind_cons, Hx, <-(IH rs).
Qed.

(** In the concatenated result of a loop over distinct keys, the rows that
    carry a key are the rows appended at that key. *)
Lemma gather_filter_block `{!EqDecision A} (key : B → A)
    (g : A → outcome (list B)) (l : list A) out x blk :
  NoDup l →
  (∀ y rs r, g y = Ret rs → r ∈ rs → key r = y) →
  gather g l = Ret out → x ∈ l → g x = Ret blk →
  filter (λ r, key r = x) out = blk.
Proof.
  intros Hnd Hkey. revert out.
  induction Hnd as [|a l Ha Hnd IH]; intros out; simpl; [by intros _ ?%elem_of_nil|].
  destruct (g a) as [r0|e] eqn:Hga; simpl; [|done].
  destruct (gather g l) as [rs|e] eqn:Hl; simpl; [|done].
  intros [= <-] Hx Hgx. rewrite filter_app.
  destruct (decide (x = a)) as [->|Hne].
  - assert (r0 = blk) as -> by congruence.
    rewrite filter_all by (apply Forall_forall; intros r Hr; by apply (Hkey a blk)).
    rewrite filter_none; [by rewrite app_nil_r|].
    apply Forall_forall. intros r Hr Hk.
    apply (gather_elem_of _ _ _ _ Hl) in Hr as (y & rs' & Hy & Hgy & Hr).
    rewrite (Hkey y rs' r Hgy Hr) in Hk. by subst.
  - rewrite filter_none.
    + apply (IH rs eq_refl); [|done]. by apply elem_of_cons in Hx as [?|?].
    + apply Forall_forall. intros r Hr Hk.
      rewrite (Hkey a r0 r Hga Hr) in Hk. by subst.
Qed.

End ListFacts.

(** ** Ordered pairs of distinct currencies *)

Lemma ordered_pairs_inner (l : list string) (b : string) :
  (q ← l; if decide (b ≠ q) then [(b, q)] else []) = (λ q, (b, q)) <$> filter (λ q, b ≠ q) l.
Proof.
  induction l as [|q l IH]; [done|].
  rewrite bind_cons, filter_cons, IH. by destruct (decide (b ≠ q)).
Qed.

Lemma elem_of_ordered_pairs (l : list string) (b q : string) :
  (b, q) ∈ ordered_pairs l ↔ b ∈ l ∧ q ∈ l ∧ b ≠ q.
Proof.
  unfold ordered_pairs. rewrite list_elem_of_bind. split.
  - intros (b' & Hin & Hb'). rewrite ordered_pairs_inner in Hin.
    apply list_elem_of_fmap in Hin as (q' & [= -> ->] & Hq').
    apply list_elem_of_filter in Hq' as [Hne Hq']. done.
  - intros (Hb & Hq & Hne). exists b. split; [|done].
    rewrite ordered_pairs_inner. apply list_elem_of_fmap. exists q.
    split; [done|]. by apply list_elem_of_filter.
Qed.

Lemma NoDup_ordered_pairs (l : list string) : NoDup l → NoDup (ordered_pairs l).
Proof.
  intros Hnd. unfold ordered_pairs. apply NoDup_bind; [| |done].
  - intros b1 b2 [b q] _ _. rewrite !ordered_pairs_inner.
    intros (? & [= -> ->] & _)%list_elem_of_fmap (? & [= -> _] & _)%list_elem_of_fmap. done.
  - intros b _. rewrite ordered_pairs_inner. apply NoDup_fmap_2.
    + by intros q1 q2 [= ->].
    + by apply NoDup_filter.
Qed.

Lemma length_ordered_pairs (l : list string) :
  NoDup l → length (ordered_pairs l) = length l * (length l - 1).
Proof.
  intros Hnd. unfold ordered_pairs. apply length_bind_const. intros b Hb.
  rewrite ordered_pairs_inner, length_fmap. by apply length_filter_ne.
Qed.

Lemma NoDup_CURRENCIES : NoDup CURRENCIES.
Proof. apply (bool_decide_unpack _). by vm_compute. Qed.

Lemma fmap_bind_list {A B C : Type} (g : B → C) (f : A → list B) (l : list A) :
  g <$> (l ≫= f) = l ≫= (λ x, g <$> f x).
Proof.
  induction l as [|x l IH]; [done|]. by rewrite !bind_cons, fmap_app, IH.
Qed.

Lemma bind_nil_const {A B : Type} (l : list A) : l ≫= (λ _, @nil B) = [].
Proof. by induction l. Qed.

Lemma ordered_pairs_filter (P : string → Prop) `{!∀ c, Decision (P c)} (C : list string) :
  ordered_pairs (filter P C) =
    b ← C; q ← C; if decide (b ≠ q ∧ P b ∧ P q) then [(b, q)] else [].
Proof.
  unfold ordered_pairs. rewrite bind_filter. apply bind_ext_in. intros b _.
  destruct (decide (P b)) as [Hb|Hb].
  - rewrite bind_filter. apply bind_ext_in. intros q _.
    destruct (decide (P q)), (decide (b ≠ q)), (decide (b ≠ q ∧ P b ∧ P q));
      first [done | (exfalso; tauto)].
  - transitivity (C ≫= (λ _ : string, @nil (string * string)));
      [by rewrite bind_nil_const|].
    apply bind_ext_in. intros q _. by rewrite decide_False by tauto.
Qed.

Section CrossPairsCount.

Context {F : Type} {num : PyNum F}.
Implicit Types (df group : list (RawRow F)) (d : Date) (C : list string).
Implicit Types (row : CrossRow F) (out : list (CrossRow F)).

Lemma available_table C df d :
  available C df d = filter (λ c, is_Some (build_rates_dict (date_group df d) !! c)) C.
Proof.
  unfold available. apply list_filter_iff. intros c.
  by rewrite build_rates_dict_is_Some.
Qed.

Lemma cross_pair_cell_keys d (t : gmap string F) b q rs :
  cross_pair_cell d t b q = Ret rs →
  pair_key <$> rs =
    if decide (b ≠ q ∧ is_Some (t !! b) ∧ is_Some (t !! q)) then [(b, q)] else [].
Proof.
  intros [[-> Hno]|(Hne & rb & rq & x & Htb & Htq & _ & ->)]%cross_pair_cell_Ret.
  - by rewrite decide_False.
  - rewrite decide_True; [done|]. rewrite Htb, Htq. eauto.
Qed.

Lemma cross_pairs_block_keys C df d blk :
  cross_pairs_block C df d = Ret blk →
  pair_key <$> blk = ordered_pairs (available C df d).
Proof.
  unfold cross_pairs_block. intros Hblk.
  rewrite available_table, ordered_pairs_filter.
  rewrite (gather_Ret_bind _ _ _ Hblk), fmap_bind_list.
  destruct (gather_Ret _ _ _ Hblk) as (rss & HF & _).
  apply bind_ext_in. intros b Hb.
  destruct (proj1 (list_elem_of_lookup _ _) Hb) as [i Hi].
  destruct (Forall2_lookup_l _ _ _ _ _ HF Hi) as (rs & _ & Hrs).
  rewrite Hrs, (gather_Ret_bind _ _ _ Hrs), fmap_bind_list.
  destruct (gather_Ret _ _ _ Hrs) as (cells & HF' & _).
  apply bind_ext_in. intros q Hq.
  destruct (proj1 (list_elem_of_lookup _ _) Hq) as [j Hj].
  destruct (Forall2_lookup_l _ _ _ _ _ HF' Hj) as (cell & _ & Hcell).
  rewrite Hcell. apply (cross_pair_cell_keys d _ _ _ _ Hcell).
Qed.

Lemma cross_pairs_block_date C df d blk row :
  cross_pairs_block C df d = Ret blk → row ∈ blk → rate_date row = d.
Proof.
  intros Hblk Hrow.
  apply (cross_pairs_block_elem_of _ _ _ _ _ Hblk) in Hrow
    as (b & q & rb & rq & x & _ & _ & _ & _ & _ & _ & ->). done.
Qed.

Lemma calculate_cross_pairs_in_rows_of_date C df out d :
  calculate_cross_pairs_in C df = Ret out → d ∈ raw_date <$> df →
  cross_pairs_block C df d = Ret (filter (λ row, rate_date row = d) out).
Proof.
  intros Hout Hd.
  destruct (calculate_cross_pairs_in_block _ _ _ d Hout Hd) as [blk Hblk].
  apply calculate_cross_pairs_in_Ret in Hout as [Hout _].
  rewrite Hblk. f_equal. symmetry.
  apply (gather_filter_block rate_date (cross_pairs_block C df) (group_dates df));
    [apply NoDup_group_dates| |done|by apply elem_of_group_dates|done].
  intros d' rs r. apply cross_pairs_block_date.
Qed.

(** The currencies with an entry in the table of date [d] are EUR and those
    that a raw row dated [d] quotes. *)
Lemma available_of_date C df d :
  available C df d =
    filter (λ c, c = "EUR" ∨ Exists (λ r, raw_date r = d ∧ raw_quote r = c) df) C.
Proof.
  rewrite available_table. apply list_filter_iff. intros c.
  apply rates_dict_of_date_is_Some.
Qed.

(** C4. For a date [d] of the input, the available currencies are those of
    [CURRENCIES] that are EUR or are quoted by a raw row dated [d], and [k]
    is their number. When the function returns, the rows emitted for [d]
    carry exactly the ordered pairs of distinct available currencies, each
    pair once, [k * (k - 1)] rows, and no row of the output has its base
    equal to its quote; when it raises though every division returns, it is
    that no date has a pair, and [k * (k - 1)] is 0. *)
Theorem cross_pairs_count df d :
  d ∈ raw_date <$> df →
  let rate_on (d' : Date) (c : string) : option F :=
    match last (filter (λ r, raw_date r = d' ∧ raw_quote r = c) df) with
    | Some r => Some (raw_rate r)
    | None => if decide (c = "EUR") then Some f_one else None
    end in
  let avail :=
    filter (λ c, c = "EUR" ∨ Exists (λ r, raw_date r = d ∧ raw_quote r = c) df)
      CURRENCIES in
  let k := length avail in
  (∀ c, c ∈ avail ↔
        c ∈ CURRENCIES ∧ (c = "EUR" ∨ ∃ r, r ∈ df ∧ raw_date r = d ∧ raw_quote r = c)) ∧
  (k ≤ length CURRENCIES)%nat ∧
  (∀ out, calculate_cross_pairs df = Ret out →
     let rows := filter (λ row, rate_date row = d) out in
     pair_key <$> rows = ordered_pairs avail ∧
     (∀ b q, (b, q) ∈ pair_key <$> rows ↔ b ∈ avail ∧ q ∈ avail ∧ b ≠ q) ∧
     NoDup (pair_key <$> rows) ∧
     length rows = k * (k - 1) ∧
     (∀ row, row ∈ out → base_currency row ≠ quote_currency row)) ∧
  (∀ e, calculate_cross_pairs df = Raise e →
     (∀ d' b q rb rq, d' ∈ raw_date <$> df → b ∈ CURRENCIES → q ∈ CURRENCIES → b ≠ q →
        rate_on d' b = Some rb → rate_on d' q = Some rq →
        ∃ x, py_div rq rb = Ret x) →
     k * (k - 1) = 0).
Proof.
  intros Hd rate_on avail k.
  assert (NoDup avail) as Hnd by apply NoDup_filter, NoDup_CURRENCIES.
  assert (avail = available CURRENCIES df d) as Havail
    by (symmetry; apply available_of_date).
  split_and!.
  - intros c. unfold avail. rewrite list_elem_of_filter, Exists_exists. tauto.
  - apply length_filter.
  - intros out Hout rows.
    pose proof (calculate_cross_pairs_in_rows_of_date _ _ _ _ Hout Hd) as Hblk.
    pose proof (cross_pairs_block_keys _ _ _ _ Hblk) as Hkeys.
    fold rows in Hkeys. rewrite <-Havail in Hkeys.
    split_and!.
    + done.
    + intros b q. rewrite Hkeys. apply elem_of_ordered_pairs.
    + rewrite Hkeys. by apply NoDup_ordered_pairs.
    + rewrite <-(length_fmap pair_key), Hkeys. by apply length_ordered_pairs.
    + intros row Hrow.
      apply (calculate_cross_pairs_in_elem_of _ _ _ _ Hout) in Hrow
        as (b & q & rb & rq & x & _ & _ & _ & Hne & _ & _ & _ & ->). done.
  - intros e Hraise Hdiv.
    unfold k. rewrite <-(length_ordered_pairs avail Hnd).
    destruct (ordered_pairs avail) as [|[b q] l] eqn:Hpairs; [done|].
    assert ((b, q) ∈ ordered_pairs avail) as Hin by (rewrite Hpairs; left).
    apply elem_of_ordered_pairs in Hin as (Hb & Hq & Hne).
    rewrite Havail, available_table in Hb, Hq.
    apply list_elem_of_filter in Hb as [Hsb Hb].
    apply list_elem_of_filter in Hq as [Hsq Hq].
    destruct (calculate_cross_pairs_in_returns CURRENCIES df) as [out Hout].
    + intros d' b' q' rb rq Hd' Hb' Hq' Hne' Htb Htq.
      rewrite rates_dict_of_date in Htb, Htq. by apply (Hdiv d' b' q').
    + by exists d, b, q.
    + unfold calculate_cross_pairs in Hraise. congruence.
Qed.

End CrossPairsCount.

(** ** Sorted lists *)

Lemma StronglySorted_filter {A : Type} (R : relation A) (P : A → Prop)
    `{!∀ x, Decision (P x)} (l : list A) :
  StronglySorted R l → StronglySorted R (filter P l).
Proof.
  induction 1 as [|x l Hl IH Hx]; [constructor|].
  rewrite filter_cons. destruct (decide (P x)); [|done].
  constructor; [done|]. rewrite Forall_forall in Hx |- *.
  intros y [_ Hy]%list_elem_of_filter. by apply Hx.
Qed.

(** ** A raw row whose currency is outside the universe *)

Section ForeignRow.

Context {F : Type} {num : PyNum F}.
Implicit Types (df group : list (RawRow F)) (d : Date) (C : list string).

Lemma cross_pair_cell_ext d (t t' : gmap string F) b q :
  t !! b = t' !! b → t !! q = t' !! q →
  cross_pair_cell d t b q = cross_pair_cell d t' b q.
Proof. unfold cross_pair_cell. by intros -> ->. Qed.

Lemma cross_pairs_block_ext C df df' d :
  (∀ c, c ∈ C →
     build_rates_dict (date_group df d) !! c = build_rates_dict (date_group df' d) !! c) →
  cross_pairs_block C df d = cross_pairs_block C df' d.
Proof.
  intros Ht. unfold cross_pairs_block.
  apply gather_ext. intros b Hb. apply gather_ext. intros q Hq.
  apply cross_pair_cell_ext; by apply Ht.
Qed.

Lemma gather_nil {A R : Type} (g : A → outcome (list R)) (l : list A) :
  (∀ x, x ∈ l → g x = Ret []) → gather g l = Ret [].
Proof.
  induction l as [|x l IH]; intros Hg; simpl; [done|].
  rewrite Hg by left. simpl. rewrite IH; [done|]. intros y Hy. apply Hg. by right.
Qed.

(** A date without rows has only EUR in its table, and yields no pair. *)
Lemma cross_pairs_block_no_rows C df d :
  d ∉ raw_date <$> df → cross_pairs_block C df d = Ret [].
Proof.
  intros Hd. unfold cross_pairs_block.
  assert (date_group df d = []) as ->.
  { unfold date_group. apply filter_none, Forall_forall. intros r Hr <-.
    apply Hd. by apply list_elem_of_fmap_2. }
  apply gather_nil. intros b _. apply gather_nil. intros q _.
  unfold cross_pair_cell. destruct (decide (b ≠ q)) as [Hne|]; [|done].
  rewrite !build_rates_dict_lookup. simpl.
  destruct (decide (b = "EUR")) as [->|]; [|done].
  destruct (decide (q = "EUR")) as [->|]; done.
Qed.

Lemma foreign_row_table C df1 df2 (r : RawRow F) d c :
  raw_quote r ∉ C → c ∈ C →
  build_rates_dict (date_group (df1 ++ r :: df2) d) !! c =
  build_rates_dict (date_group (df1 ++ df2) d) !! c.
Proof.
  intros Hr Hc. rewrite !build_rates_dict_lookup. unfold date_group.
  rewrite !filter_app, (filter_cons _ r). destruct (decide (raw_date r = d)); [|done].
  rewrite filter_cons_False; [done|]. intros Heq. by rewrite Heq in Hr.
Qed.

Lemma foreign_row_dates df1 df2 (r : RawRow F) :
  group_dates (df1 ++ df2) =
    filter (λ d, d ∈ raw_date <$> df1 ++ df2) (group_dates (df1 ++ r :: df2)).
Proof.
  apply (Sorted_unique date_le).
  - apply Sorted_group_dates.
  - apply StronglySorted_Sorted, StronglySorted_filter.
    apply (Sorted_StronglySorted _), Sorted_group_dates.
  - apply NoDup_Permutation.
    + apply NoDup_group_dates.
    + apply NoDup_filter, NoDup_group_dates.
    + intros d. rewrite list_elem_of_filter, !elem_of_group_dates.
      rewrite !fmap_app, fmap_cons, !elem_of_app, elem_of_cons. tauto.
Qed.

Lemma foreign_row_removed C df1 df2 (r : RawRow F) :
  raw_quote r ∉ C →
  calculate_cross_pairs_in C (df1 ++ r :: df2) = calculate_cross_pairs_in C (df1 ++ df2).
Proof.
  intros Hr. rewrite !calculate_cross_pairs_in_gather. f_equal.
  rewrite (foreign_row_dates df1 df2 r).
  rewrite gather_filter by (intros d _; apply cross_pairs_block_no_rows).
  apply gather_ext. intros d _. apply cross_pairs_block_ext.
  intros c Hc. by apply (foreign_row_table C).
Qed.

(** C10. A raw row whose quote currency is not in [CURRENCIES] changes
    nothing: with the row or without it the function gives the same result
    (the same rows in the same order, or the same exception), and no row of
    the output has that currency as base or quote. *)
Theorem foreign_currency_ignored df1 df2 (r : RawRow F) :
  raw_quote r ∉ CURRENCIES →
  calculate_cross_pairs (df1 ++ r :: df2) = calculate_cross_pairs (df1 ++ df2) ∧
  ∀ out row, calculate_cross_pairs (df1 ++ r :: df2) = Ret out → row ∈ out →
    base_currency row ≠ raw_quote r ∧ quote_currency row ≠ raw_quote r.
Proof.
  intros Hr. split; [by apply foreign_row_removed|].
  intros out row Hout Hrow.
  apply (calculate_cross_pairs_in_elem_of _ _ _ _ Hout) in Hrow
    as (b & q & rb & rq & x & _ & Hb & Hq & _ & _ & _ & _ & ->). simpl.
  split; intros Heq; apply Hr; by rewrite <-Heq.
Qed.

End ForeignRow.

(** ** Round trip of the EUR-based rates *)

Section RoundTrip.

Context {F : Type} {num : PyNum F}.
Implicit Types (df : list (RawRow F)) (r : RawRow F).

Lemma table_of_raw_row df r :
  r ∈ df →
  (∀ r', r' ∈ df → raw_date r' = raw_date r → raw_quote r' = raw_quote r →
         raw_rate r' = raw_rate r) →
  build_rates_dict (date_group df (raw_date r)) !! raw_quote r = Some (raw_rate r).
Proof.
  intros Hr Huniq. rewrite build_rates_dict_lookup.
  destruct (last _) as [r'|] eqn:Hlast.
  - apply last_Some_elem_of, list_elem_of_filter in Hlast as [Hq Hr'].
    apply list_elem_of_filter in Hr' as [Hd Hr']. f_equal. by apply Huniq.
  - apply last_None in Hlast.
    apply (filter_nil_not_elem_of _ _ r) in Hlast; [|done].
    destruct Hlast. by apply list_elem_of_filter.
Qed.

Lemma table_EUR df d :
  Forall (λ r, raw_quote r ≠ "EUR") df →
  build_rates_dict (date_group df d) !! "EUR" = Some f_one.
Proof.
  intros Hvalid. rewrite build_rates_dict_lookup.
  destruct (last _) as [r|] eqn:Hlast; [|done].
  apply last_Some_elem_of, list_elem_of_filter in Hlast as [Hq Hr].
  apply list_elem_of_filter in Hr as [_ Hr].
  rewrite Forall_forall in Hvalid. by destruct (Hvalid r Hr).
Qed.

(** C7. For a raw record [r] of a valid input (no raw row quotes EUR, one
    rate per date and quote currency), when the function returns: every
    emitted row for [r]'s date with base EUR and quote [r]'s currency has
    the raw rate of [r] rounded to 8 digits, dividing by 1.0 being exact;
    and that row is emitted when the currency is in [CURRENCIES]. *)
Theorem eur_round_trip df out r :
  calculate_cross_pairs df = Ret out →
  r ∈ df →
  Forall (λ r', raw_quote r' ≠ "EUR") df →
  (∀ r', r' ∈ df → raw_date r' = raw_date r → raw_quote r' = raw_quote r →
         raw_rate r' = raw_rate r) →
  py_div (raw_rate r) f_one = Ret (raw_rate r) →
  (∀ row, row ∈ out → rate_date row = raw_date r → base_currency row = "EUR" →
          quote_currency row = raw_quote r →
          exchange_rate row = py_round 8 (raw_rate r)) ∧
  (raw_quote r ∈ CURRENCIES →
   mkCross (raw_date r) "EUR" (raw_quote r) (py_round 8 (raw_rate r)) ∈ out).
Proof.
  intros Hout Hr Hvalid Huniq Hdiv.
  pose proof (table_of_raw_row df r Hr Huniq) as Hq.
  pose proof (table_EUR df (raw_date r) Hvalid) as He.
  split.
  - intros row Hrow Hdate Hbase Hquote.
    apply (calculate_cross_pairs_in_elem_of _ _ _ _ Hout) in Hrow
      as (b & q & rb & rq & x & _ & _ & _ & _ & Htb & Htq & Hx & Hrow).
    rewrite Hrow in Hbase, Hquote. simpl in Hbase, Hquote. subst b q.
    rewrite Hdate in Htb, Htq. rewrite Hrow. simpl. congruence.
  - intros HC. apply (calculate_cross_pairs_in_elem_of _ _ _ _ Hout).
    exists "EUR", (raw_quote r), f_one, (raw_rate r), (raw_rate r). simpl.
    split_and!; try done.
    + by apply list_elem_of_fmap_2.
    + apply (bool_decide_unpack _). by vm_compute.
    + rewrite Forall_forall in Hvalid. intros Heq. by apply (Hvalid r Hr).
Qed.

End RoundTrip.

(** ** The YTD aggregator *)

Section Ytd.

Context {F : Type} {num : PyNum F}.
Implicit Types (df group window : list (CrossRow F)) (row r : CrossRow F).
Implicit Types (k : string * string) (D : Date) (y : YtdRow F).

#[global] Instance row_date_le_trans : Transitive (@row_date_le F).
Proof. intros a b c. unfold row_date_le. apply date_le_trans. Qed.

#[global] Instance row_date_le_total : Total (@row_date_le F).
Proof. intros a b. unfold row_date_le. apply date_le_total. Qed.

Lemma sort_values_Permutation df : sort_values df ≡ₚ df.
Proof. apply merge_sort_Permutation. Qed.


Lemma elem_of_group_pairs df k : k ∈ group_pairs df ↔ k ∈ pair_key <$> df.
Proof. unfold group_pairs. by rewrite merge_sort_Permutation, elem_of_remove_dups. Qed.

Lemma NoDup_group_pairs df : NoDup (group_pairs df).
Proof. unfold group_pairs. rewrite merge_sort_Permutation. apply NoDup_remove_dups. Qed.

(** The window holds the rows of the pair dated from January 1 of the year
    of [D] to [D], in ascending order of date. *)
Lemma ytd_window_of_Permutation df k D :
  ytd_window_of df k D ≡ₚ
    filter (λ r, pair_key r = k ∧
                 date_le (year_start D) (rate_date r) ∧ date_le (rate_date r) D) df.
Proof.
  unfold ytd_window_of, ytd_window, pair_group.
  rewrite sort_values_Permutation, sort_values_Permutation, list_filter_filter.
  apply reflexive_eq, list_filter_iff. intros r. tauto.
Qed.


Lemma elem_of_ytd_window_of df k D r :
  r ∈ ytd_window_of df k D ↔
  r ∈ df ∧ pair_key r = k ∧ date_le (year_start D) (rate_date r) ∧ date_le (rate_date r) D.
Proof. rewrite ytd_window_of_Permutation, list_elem_of_filter. tauto. Qed.

Lemma row_in_own_window df row :
  row ∈ df → row ∈ ytd_window_of df (pair_key row) (rate_date row).
Proof.
  intros Hrow. apply elem_of_ytd_window_of.
  split_and!; [done..|apply year_start_le|reflexivity].
Qed.

(** The records of the output: one for each row of the input, computed from
    the window of the row's pair and date. *)
Lemma elem_of_calculate_ytd_metrics df y :
  y ∈ calculate_ytd_metrics df ↔
  ∃ row, row ∈ df ∧
    y ∈ ytd_record (base_currency row) (quote_currency row) (rate_date row)
          (ytd_window_of df (pair_key row) (rate_date row)).
Proof.
  unfold calculate_ytd_metrics, ytd_of_group. rewrite list_elem_of_bind. split.
  - intros (k & Hy & Hk). apply list_elem_of_bind in Hy as (row & Hy & Hrow).
    rewrite sort_values_Permutation in Hrow.
    apply list_elem_of_filter in Hrow as [<- Hrow].
    rewrite sort_values_Permutation in Hrow. by exists row.
  - intros (row & Hrow & Hy). exists (pair_key row). split.
    + apply list_elem_of_bind. exists row. split; [done|].
      rewrite sort_values_Permutation. apply list_elem_of_filter.
      by rewrite sort_values_Permutation.
    + apply elem_of_group_pairs, list_elem_of_fmap_2. by rewrite sort_values_Permutation.
Qed.

Lemma ytd_record_nonempty b q D window :
  window ≠ [] → ∃ y, ytd_record b q D window = [y].
Proof.
  intros Hne. unfold ytd_record. rewrite decide_True; [by eexists|].
  destruct window; [done|simpl; lia].
Qed.

Lemma ytd_record_key b q D window y :
  y ∈ ytd_record b q D window → ytd_date y = D ∧ ytd_base y = b ∧ ytd_quote y = q.
Proof.
  unfold ytd_record. destruct (decide _); [|by intros ?%elem_of_nil].
  by intros ->%list_elem_of_singleton.
Qed.

(** A record of the output is the record of its own pair, date and window. *)
Lemma calculate_ytd_metrics_record df y :
  y ∈ calculate_ytd_metrics df →
  ytd_record (ytd_base y) (ytd_quote y) (ytd_date y)
    (ytd_window_of df (ytd_base y, ytd_quote y) (ytd_date y)) = [y] ∧
  ytd_window_of df (ytd_base y, ytd_quote y) (ytd_date y) ≠ [].
Proof.
  intros (row & Hrow & Hy)%elem_of_calculate_ytd_metrics.
  destruct (ytd_record_key _ _ _ _ _ Hy) as (-> & -> & ->).
  change (base_currency row, quote_currency row) with (pair_key row).
  pose proof (row_in_own_window df row Hrow) as Hin.
  assert (ytd_window_of df (pair_key row) (rate_date row) ≠ []) as Hne.
  { intros Hnil. rewrite Hnil in Hin. by apply elem_of_nil in Hin. }
  split; [|done].
  destruct (ytd_record_nonempty (base_currency row) (quote_currency row)
              (rate_date row) _ Hne) as [y' Hy'].
  rewrite Hy' in Hy |- *. by apply list_elem_of_singleton in Hy as ->.
Qed.

End Ytd.

Section YtdClaims.

Context {F : Type} {num : PyNum F}.
Implicit Types (df group window : list (CrossRow F)) (row r : CrossRow F).
Implicit Types (k : string * string) (D : Date) (y : YtdRow F).

Lemma np_var_divisor (rates : list F) :
  np_var rates = np_div (sum_sq_dev rates) (f_of_nat (length rates)).
Proof. unfold np_var, sum_sq_dev, np_mean at 1. by rewrite length_fmap. Qed.

(** C1, as the program has it. For a record of the output, with [rates] the
    rates of its window: the day count is the size of the window; when the
    window has more than one record and the variance is not zero,
    [ytd_variance] is the variance with divisor [N] (not [N - 1]) rounded to
    8 digits, and [ytd_std_dev] is its square root rounded to 8 digits; both
    are null when the day count is at most 1. *)
Theorem ytd_variance_population df y :
  y ∈ calculate_ytd_metrics df →
  let rates := exchange_rate <$> ytd_window_of df (ytd_base y, ytd_quote y) (ytd_date y) in
  let var := np_div (sum_sq_dev rates) (f_of_nat (length rates)) in
  ytd_days_count y = length rates ∧
  (1 < length rates → f_truthy var = true →
     ytd_variance y = Some (np_round 8 var)) ∧
  (1 < length rates → f_truthy (np_sqrt var) = true →
     ytd_std_dev y = Some (np_round 8 (np_sqrt var))) ∧
  ((ytd_days_count y ≤ 1)%nat → ytd_variance y = None ∧ ytd_std_dev y = None).
Proof.
  intros [Hrec Hne]%calculate_ytd_metrics_record rates var.
  unfold ytd_record in Hrec. destruct (decide _) as [Hlen|]; [|done].
  fold rates in Hrec. injection Hrec as Hy. subst var.
  rewrite <-np_var_divisor. rewrite <-Hy. simpl.
  split_and!.
  - done.
  - intros Hgt Hvar. rewrite decide_True by done. simpl. by rewrite Hvar.
  - intros Hgt Hstd. rewrite decide_True by done. simpl.
    unfold np_std. by rewrite Hstd.
  - intros Hle. by rewrite !decide_False by lia.
Qed.

(** C5, as the program has it. For a record of the output, with [first_rate]
    and [last_rate] the first and last rates of its window: [ytd_change_pct] is
    [(last_rate - first_rate) / first_rate * 100] rounded to 4 digits when
    [first_rate] is not zero, and 0 when it is. *)
Theorem ytd_change_pct_rounded df y :
  y ∈ calculate_ytd_metrics df →
  let rates := exchange_rate <$> ytd_window_of df (ytd_base y, ytd_quote y) (ytd_date y) in
  ∃ first_rate last_rate, head rates = Some first_rate ∧ last rates = Some last_rate ∧
    (f_truthy first_rate = true →
       ytd_change_pct y = np_round 4 (spec_change_pct first_rate last_rate)) ∧
    (f_truthy first_rate = false → ytd_change_pct y = f_zero).
Proof.
  intros [Hrec Hne]%calculate_ytd_metrics_record rates.
  unfold ytd_record in Hrec. destruct (decide _) as [Hlen|]; [|done].
  fold rates in Hrec. injection Hrec as Hy.
  assert (rates ≠ []) as Hrates.
  { unfold rates. intros Hnil%fmap_nil_inv. done. }
  destruct (proj2 (head_is_Some rates) Hrates) as [first_rate Hfirst].
  destruct (proj2 (last_is_Some rates) Hrates) as [last_rate Hlast].
  exists first_rate, last_rate. rewrite Hfirst, Hlast in Hy. simpl in Hy.
  rewrite <-Hy. simpl. split_and!; [done..| |]; by intros ->.
Qed.






End YtdClaims.

(** ** The stage: audit logging and exit status *)

Section StageFacts.

Context {F : Type} {num : PyNum F}.
Implicit Types (w : World F) (env : Env).

Lemma alike_ret {A} (a : A) : alike (F:=F) (ret (F:=F) a) (ret a).
Proof. by intros w1 w2 Hw. Qed.

Lemma alike_seq {A B} (m1 m2 : M F A) (k1 k2 : A → M F B) :
  alike m1 m2 → (∀ a, alike (F:=F) (k1 a) (k2 a)) → alike (F:=F) (seq m1 k1) (seq m2 k2).
Proof.
  intros Hm Hk w1 w2 Hw. unfold seq.
  destruct (Hm w1 w2 Hw) as [Hr Hw'].
  destruct (m1 w1) as [[a1|e1] w1'], (m2 w2) as [[a2|e2] w2'];
    simpl in Hr, Hw'; simplify_eq; [by apply Hk|done].
Qed.

Lemma alike_try_except {A} (m1 m2 : M F A) (h1 h2 : string → M F A) :
  alike m1 m2 → (∀ e, alike (F:=F) (h1 e) (h2 e)) → alike (F:=F) (try_except m1 h1) (try_except m2 h2).
Proof.
  intros Hm Hh w1 w2 Hw. unfold try_except.
  destruct (Hm w1 w2 Hw) as [Hr Hw'].
  destruct (m1 w1) as [[a1|e1] w1'], (m2 w2) as [[a2|e2] w2'];
    simpl in Hr, Hw'; simplify_eq; [done|by apply Hh].
Qed.

Lemma alike_try_finally {A} (m1 m2 : M F A) (f1 f2 : M F unit) :
  alike m1 m2 → alike f1 f2 → alike (F:=F) (try_finally m1 f1) (try_finally m2 f2).
Proof.
  intros Hm Hf w1 w2 Hw. unfold try_finally.
  destruct (Hm w1 w2 Hw) as [Hr Hw'].
  destruct (m1 w1) as [r1 w1'], (m2 w2) as [r2 w2']. simpl in Hr, Hw'. subst r2.
  destruct (Hf w1' w2' Hw') as [Hr Hw''].
  destruct (f1 w1') as [[[]|e1] w1''], (f2 w2') as [[[]|e2] w2''];
    simpl in Hr, Hw''; simplify_eq; done.
Qed.

Lemma alike_when_connection (m1 m2 : M F unit) :
  alike m1 m2 →
  alike (F:=F) (λ w, when (connection w) m1 w) (λ w, when (connection w) m2 w).
Proof.
  intros Hm w1 w2 Hw. pose proof Hw as (_ & Hc & _). rewrite Hc.
  destruct (connection w2); simpl; [by apply Hm|done].
Qed.

(** [log_execution] returns, whatever the insert does. *)
Lemma log_execution_returns env step st rows error duration w :
  ∃ w', log_execution env step st rows error duration w = (Ret (), w') ∧
    files w' = files w ∧ connection w' = connection w ∧ closed w' = closed w ∧
    match db_insert env (execution_log w) (mkAudit step st rows error duration) with
    | Ret log' => execution_log w' = log' ∧ warnings w' = warnings w
    | Raise e =>
        execution_log w' = execution_log w ∧
        warnings w' = "Impossible de logger dans la DB" :: warnings w
    end.
Proof.
  unfold log_execution, try_except, insert_audit, logger_warning.
  destruct (db_insert env _ _) as [log'|e]; by eexists.
Qed.

Lemma alike_log_execution env f step st rows error duration :
  alike (F:=F) (log_execution env step st rows error duration)
        (log_execution (with_db_insert env f) step st rows error duration).
Proof.
  intros w1 w2 (Hf & Hc & Hcl).
  destruct (log_execution_returns env step st rows error duration w1)
    as (w1' & -> & Hf1 & Hc1 & Hcl1 & _).
  destruct (log_execution_returns (with_db_insert env f) step st rows error duration w2)
    as (w2' & -> & Hf2 & Hc2 & Hcl2 & _).
  simpl. unfold same_data. by rewrite Hf1, Hf2, Hc1, Hc2, Hcl1, Hcl2.
Qed.

(** Programs that neither read nor write the audit table or the warnings. *)
Lemma alike_validate_config env f :
  alike (F:=F) (validate_config (F:=F) env) (validate_config (with_db_insert env f)).
Proof.
  intros w1 w2 Hw. unfold validate_config, raise, seq, lift, ret. simpl.
  repeat case_decide; try done. by destruct (makedirs env).
Qed.

Lemma alike_get_db_connection env f :
  alike (F:=F) (get_db_connection (F:=F) env) (get_db_connection (with_db_insert env f)).
Proof.
  intros w1 w2 (Hf & Hc & Hcl). unfold get_db_connection, seq, lift. simpl.
  destruct (db_connect env); simpl; [|done]. by split.
Qed.

Lemma alike_logger_warning msg : alike (F:=F) (logger_warning (F:=F) msg) (logger_warning msg).
Proof. by intros w1 w2 Hw. Qed.

Lemma alike_load_extracted_data path :
  alike (F:=F) (load_extracted_data (F:=F) path) (load_extracted_data path).
Proof.
  intros w1 w2 Hw. unfold load_extracted_data. simpl.
  pose proof Hw as (Hf & _). rewrite Hf. by split.
Qed.

Lemma alike_lift {A} (o : outcome A) : alike (F:=F) (lift (F:=F) o) (lift o).
Proof. by intros w1 w2 Hw. Qed.

Lemma alike_save_to_csv env f content path :
  alike (F:=F) (save_to_csv env content path) (save_to_csv (with_db_insert env f) content path).
Proof.
  intros w1 w2 (Hf & Hc & Hcl). unfold save_to_csv. simpl.
  destruct (writable env path); simpl; [|done]. unfold same_data. simpl. by rewrite Hf.
Qed.

Lemma alike_connection_close : alike (F:=F) (connection_close (F:=F)) connection_close.
Proof. intros w1 w2 (Hf & Hc & Hcl). by split. Qed.

Lemma alike_main_body env f ip oc oy :
  alike (F:=F) (main_body env ip oc oy) (main_body (F:=F) (with_db_insert env f) ip oc oy).
Proof.
  unfold main_body.
  apply alike_seq; [apply alike_validate_config|intros _].
  apply alike_seq.
  { apply alike_try_except; [|intros e; apply alike_logger_warning].
    apply alike_seq; [apply alike_get_db_connection|intros _].
    apply alike_log_execution. }
  intros _. apply alike_seq; [apply alike_load_extracted_data|intros df_raw].
  apply alike_seq; [apply alike_lift|intros df_cross].
  apply alike_seq; [apply alike_save_to_csv|intros _].
  apply alike_seq; [apply alike_save_to_csv|intros _].
  apply alike_seq; [|intros _; apply alike_ret].
  apply alike_when_connection, alike_log_execution.
Qed.

Lemma alike_main env f ip oc oy :
  alike (F:=F) (main env ip oc oy) (main (F:=F) (with_db_insert env f) ip oc oy).
Proof.
  intros w1 w2 (Hf & Hc & Hcl). unfold main.
  apply alike_try_finally.
  - apply alike_try_except; [apply alike_main_body|intros e].
    apply alike_seq; [|intros _; apply alike_ret].
    apply alike_when_connection, alike_log_execution.
  - apply alike_when_connection, alike_connection_close.
  - unfold same_data. simpl. by rewrite Hf, Hcl.
Qed.

End StageFacts.

Section StageStatus.

Context {F : Type} {num : PyNum F}.
Implicit Types (w : World F) (env : Env).

Lemma connect_phase env w :
  ∃ w', try_except
          (seq (get_db_connection env) (λ _,
           log_execution env "transform" "running" 0 None None))
          (λ e, logger_warning "Impossible de se connecter a la DB pour les logs") w
        = (Ret (), w') ∧ files w' = files w.
Proof.
  unfold try_except, seq, get_db_connection, lift, logger_warning.
  destruct (db_connect env) as [[]|e]; simpl; [|by eexists].
  match goal with |- context [log_execution ?e ?a ?b ?c ?d ?f ?w0] =>
    destruct (log_execution_returns e a b c d f w0) as (w' & -> & Hf & _) end.
  by exists w'.
Qed.

Lemma when_log env (c : bool) step st rows error duration w :
  ∃ w', when c (log_execution env step st rows error duration) w = (Ret (), w') ∧
    files w' = files w.
Proof.
  destruct c; simpl; [|by eexists].
  destruct (log_execution_returns env step st rows error duration w) as (w' & -> & Hf & _).
  by exists w'.
Qed.

Lemma failure_handler env e w :
  ∃ w', seq (λ w, when (connection w)
                    (log_execution env "transform" "failed" 0 (Some e) None) w)
            (λ _, ret 1%Z) w = (Ret 1%Z, w') ∧ files w' = files w.
Proof.
  unfold seq.
  destruct (when_log env (connection w) "transform" "failed" 0 (Some e) None w)
    as (w' & -> & Hf).
  by exists w'.
Qed.

Lemma main_of_body env ip oc oy w r w1 :
  main_body env ip oc oy
    (mkWorld (files w) (execution_log w) (warnings w) false (closed w)) = (r, w1) →
  ∃ w',
    main env ip oc oy w = (Ret (match r with Ret code => code | Raise _ => 1%Z end), w') ∧
    files w' = files w1.
Proof.
  intros Hbody. unfold main, try_finally, try_except. rewrite Hbody.
  destruct r as [code|e].
  - destruct (connection w1); simpl; by eexists.
  - destruct (failure_handler env e w1) as (w2 & -> & Hf).
    destruct (connection w2); simpl; by eexists.
Qed.

(** C8, as the program has it. An exception raised before the cross pairs
    are saved (configuration not valid, input file missing or without the
    expected columns, a division that raises, no pair at all) makes [main]
    return 1 and leaves the files as they were. Otherwise the cross pairs
    are saved if their path can be written, the YTD records likewise after
    them, and [main] returns 0 when both are saved and 1 when not. *)
Theorem transform_failure_status env ip oc oy w :
  let input_path := default (extract_output (config env)) ip in
  let output_cross_path := default (transform_output (config env)) oc in
  let output_ytd_path := default (ytd_output (config env)) oy in
  let result := main env ip oc oy w in
  ((∃ e, (validate_config env w).1 = Raise e) ∨
   (∃ e, read_csv (files w) input_path = Raise e) ∨
   (∃ df_raw e, read_csv (files w) input_path = Ret df_raw ∧
                calculate_cross_pairs df_raw = Raise e) →
   result.1 = Ret 1%Z ∧ files result.2 = files w) ∧
  (∀ df_raw df_cross,
     (validate_config env w).1 = Ret true →
     read_csv (files w) input_path = Ret df_raw →
     calculate_cross_pairs df_raw = Ret df_cross →
     if writable env output_cross_path then
       if writable env output_ytd_path then
         result.1 = Ret 0%Z ∧
         files result.2 =
           <[output_ytd_path := YtdCsv (calculate_ytd_metrics df_cross)]>
             (<[output_cross_path := CrossCsv df_cross]> (files w))
       else
         result.1 = Ret 1%Z ∧
         files result.2 = <[output_cross_path := CrossCsv df_cross]> (files w)
     else result.1 = Ret 1%Z ∧ files result.2 = files w).
Proof.
  intros input_path output_cross_path output_ytd_path result.
  set (w0 := mkWorld (files w) (execution_log w) (warnings w) false (closed w)).
  assert (∀ v : World F, (validate_config env v).1 = (validate_config env w).1 ∧
                         (validate_config env v).2 = v) as Hval.
  { intros v. unfold validate_config, raise, seq, lift, ret.
    repeat case_decide; try done. by destruct (makedirs env). }
  destruct (main_body env ip oc oy w0) as [r w1] eqn:Hbody.
  destruct (main_of_body env ip oc oy w r w1 Hbody) as (w' & Hmain & Hfiles).
  unfold result. rewrite Hmain. simpl. rewrite Hfiles. clear result Hmain Hfiles w'.
  unfold main_body in Hbody. fold input_path output_cross_path output_ytd_path in Hbody.
  unfold seq at 1 in Hbody.
  destruct (Hval w0) as [Hv1 Hv2].
  destruct (validate_config env w0) as [rv wv]. simpl in Hv1, Hv2. subst wv.
  destruct rv as [b|e].
  2:{ injection Hbody as <- <-. split; [done|]. intros df_raw df_cross Hok. congruence. }
  unfold seq at 1 in Hbody.
  destruct (connect_phase env w0) as (wc & Hconn & Hfc). rewrite Hconn in Hbody.
  unfold seq at 1, load_extracted_data in Hbody. rewrite Hfc in Hbody. simpl in Hbody.
  destruct (read_csv (files w) input_path) as [df_raw|e] eqn:Hread.
  2:{ injection Hbody as <- <-. split; [by rewrite Hfc|]. intros ? ? ? [=]. }
  unfold seq at 1, lift in Hbody.
  destruct (calculate_cross_pairs df_raw) as [df_cross|e] eqn:Hcross.
  2:{ injection Hbody as <- <-. split; [by rewrite Hfc|].
      intros df1 dc1 _ Heq Hc. congruence. }
  split.
  { intros [[e He]|[[e He]|(df & e & [= <-] & He)]]; congruence. }
  intros ? ? _ [= <-] Hc. rewrite Hcross in Hc. injection Hc as <-.
  unfold seq at 1, save_to_csv at 1 in Hbody.
  destruct (writable env output_cross_path).
  2:{ injection Hbody as <- <-. by rewrite Hfc. }
  unfold seq at 1, save_to_csv at 1 in Hbody. simpl in Hbody.
  destruct (writable env output_ytd_path).
  2:{ injection Hbody as <- <-. simpl. by rewrite Hfc. }
  unfold seq at 1 in Hbody.
  match type of Hbody with context [when ?c0 (log_execution ?e ?a ?b ?c ?d ?f) ?v] =>
    destruct (when_log e c0 a b c d f v) as (w2 & Hlog & Hf2) end.
  rewrite Hlog in Hbody. injection Hbody as <- <-.
  rewrite Hf2. simpl. by rewrite Hfc.
Qed.

End StageStatus.

(** ** Rounding of exact rationals *)

Section Rounding.

Local Open Scope Q_scope.

Lemma round_half_even_error (t : Q) :
  inject_Z (round_half_even t) - t <= 1 # 2 ∧ t - inject_Z (round_half_even t) <= 1 # 2.
Proof.
  unfold round_half_even.
  pose proof (Qfloor_le t) as Hlo. pose proof (Qlt_floor t) as Hhi.
  rewrite inject_Z_plus in Hhi. change (inject_Z 1) with 1 in Hhi.
  destruct (t - inject_Z (Qfloor t) ?= 1 # 2) eqn:Hcmp.
  - apply Qeq_alt in Hcmp. destruct (Z.even (Qfloor t)).
    + generalize dependent (inject_Z (Qfloor t)). intros f; split; lra.
    + rewrite inject_Z_plus. change (inject_Z 1) with 1.
      generalize dependent (inject_Z (Qfloor t)). intros; split; lra.
  - apply Qlt_alt in Hcmp.
    generalize dependent (inject_Z (Qfloor t)). intros; split; lra.
  - apply Qgt_alt in Hcmp. rewrite inject_Z_plus. change (inject_Z 1) with 1.
    generalize dependent (inject_Z (Qfloor t)). intros; split; lra.
Qed.

Lemma Qround_digits_8 (x : Q) :
  Qround_digits 8 x == inject_Z (round_half_even (x * 100000000)) * (1 # 100000000).
Proof.
  unfold Qround_digits. rewrite Qred_correct.
  change (inject_Z (10 ^ Z.of_nat 8)) with (100000000 : Q).
  change (Z.to_pos (10 ^ Z.of_nat 8)) with 100000000%positive.
  unfold Qeq. simpl. lia.
Qed.

(** Rounding to 8 digits moves a number by at most half of 1e-8. *)
Lemma Qround_digits_8_error (x : Q) :
  Qround_digits 8 x - x <= 1 # 200000000 ∧ x - Qround_digits 8 x <= 1 # 200000000.
Proof.
  rewrite Qround_digits_8.
  destruct (round_half_even_error (x * 100000000)) as [H1 H2]. split; lra.
Qed.

(** Between a number and within [eps] of it. *)
Lemma Qabs_bounds (x : Q) : 0 <= Qabs x ∧ x <= Qabs x ∧ - x <= Qabs x.
Proof.
  split; [apply Qabs_nonneg|]. split; [apply Qle_Qabs|].
  rewrite <-Qabs_opp. apply Qle_Qabs.
Qed.

(** Two numbers within [eps] of a quotient and of its inverse: their product
    is within [eps * (|x| + |y| + eps)] of 1. *)
Lemma product_near_one (x y p q eps : Q) :
  0 < p → 0 < q →
  Qabs (x - q / p) <= eps → Qabs (y - p / q) <= eps →
  Qabs (x * y - 1) <= eps * (Qabs x + Qabs y + eps).
Proof.
  intros Hp Hq Hx Hy.
  assert ((q / p) * (p / q) == 1) as Huv.
  { field. split; intros H0; [rewrite H0 in Hq|rewrite H0 in Hp];
      by apply (Qlt_irrefl 0). }
  apply Qabs_Qle_condition in Hx as [Hx1 Hx2].
  apply Qabs_Qle_condition in Hy as [Hy1 Hy2].
  destruct (Qabs_bounds x) as (HX0 & HX1 & HX2).
  destruct (Qabs_bounds y) as (HY0 & HY1 & HY2).
  set (X := Qabs x) in *. set (Y := Qabs y) in *.
  set (u := q / p) in *. set (v := p / q) in *.
  apply Qabs_Qle_condition. split; nra.
Qed.

(** In exact arithmetic the rounded quotient of two numbers, the divisor
    positive, is within half of 1e-8 of their quotient. *)
Lemma pyfloat_quotient_rounded (x y : Q) z :
  0 < y → py_div (Fin x) (Fin y) = Ret z →
  Qabs (pyfloat_value (py_round 8 z) - x / y) <= 1 # 200000000.
Proof.
  intros Hy. cbn [py_div pyfloat_num]. unfold pyfloat_div, Qis_zero.
  destruct (Qeq_bool y 0) eqn:Hz.
  { apply Qeq_bool_iff in Hz. rewrite Hz in Hy. by apply Qlt_irrefl in Hy. }
  intros [= <-]. cbn [py_round pyfloat_num lift1 lift2 pyfloat_value].
  destruct (Qround_digits_8_error (x / y)) as [H1 H2].
  apply Qabs_Qle_condition. split; lra.
Qed.

End Rounding.

(** ** The product of a rate and its reciprocal *)

Section Reciprocal.

Context {F : Type} {num : PyNum F}.
Implicit Types (df : list (RawRow F)) (out : list (CrossRow F)).

(** C6, as the program has it. When [(a, b)] and [(b, a)] are emitted for
    the same date, their rates are [round(t_b / t_a, 8)] and
    [round(t_a / t_b, 8)], for the rates [t_a] and [t_b] that the raw rows
    of that date give the two currencies: each quotient is computed and
    rounded on its own, and nothing ties the product to 1. Whatever the
    arithmetic of the numbers, read through a valuation [val]: when [t_a]
    and [t_b] are positive and each emitted rate is within [eps] of the
    exact quotient, the product of the two rates [x] and [y] differs from 1
    by at most [eps * (|x| + |y| + eps)], a bound that grows with the
    rates. *)
Theorem reciprocal_product_bound df out (ra rb : CrossRow F) :
  calculate_cross_pairs df = Ret out →
  ra ∈ out → rb ∈ out →
  rate_date ra = rate_date rb →
  base_currency ra = quote_currency rb →
  quote_currency ra = base_currency rb →
  let rate_on (c : string) : option F :=
    match last (filter (λ r, raw_date r = rate_date ra ∧ raw_quote r = c) df) with
    | Some r => Some (raw_rate r)
    | None => if decide (c = "EUR") then Some f_one else None
    end in
  ∃ ta tb za zb,
    rate_on (base_currency ra) = Some ta ∧ rate_on (quote_currency ra) = Some tb ∧
    py_div tb ta = Ret za ∧ exchange_rate ra = py_round 8 za ∧
    py_div ta tb = Ret zb ∧ exchange_rate rb = py_round 8 zb ∧
    ∀ (val : F → Q) (eps : Q),
      (0 < val ta)%Q → (0 < val tb)%Q →
      (Qabs (val (exchange_rate ra) - val tb / val ta) <= eps)%Q →
      (Qabs (val (exchange_rate rb) - val ta / val tb) <= eps)%Q →
      (Qabs (val (exchange_rate ra) * val (exchange_rate rb) - 1)
       <= eps * (Qabs (val (exchange_rate ra)) + Qabs (val (exchange_rate rb)) + eps))%Q.
Proof.
  intros Hout Ha Hb Hdate Hbq Hqb rate_on.
  apply (calculate_cross_pairs_in_elem_of _ _ _ _ Hout) in Ha
    as (b1 & q1 & tb1 & tq1 & x1 & _ & _ & _ & _ & Htb1 & Htq1 & Hx1 & Hra).
  apply (calculate_cross_pairs_in_elem_of _ _ _ _ Hout) in Hb
    as (b2 & q2 & tb2 & tq2 & x2 & _ & _ & _ & _ & Htb2 & Htq2 & Hx2 & Hrb).
  assert (base_currency ra = b1 ∧ quote_currency ra = q1 ∧ exchange_rate ra = py_round 8 x1)
    as (Hb1 & Hq1 & Hr1) by (by rewrite Hra).
  assert (base_currency rb = b2 ∧ quote_currency rb = q2 ∧ exchange_rate rb = py_round 8 x2)
    as (Hb2 & Hq2 & Hr2) by (by rewrite Hrb).
  rewrite <-Hdate in Htb2, Htq2.
  assert (tb2 = tq1) as -> by congruence. assert (tq2 = tb1) as -> by congruence.
  rewrite rates_dict_of_date in Htb1, Htq1.
  exists tb1, tq1, x1, x2. unfold rate_on. rewrite Hb1, Hq1.
  split_and!; [done..|].
  intros val eps Hp Hq Hx Hy. by apply (product_near_one _ _ (val tb1) (val tq1)).
Qed.

End Reciprocal.

(** ** The frame handed to the aggregator

    [main] passes the output of [calculate_cross_pairs] to
    [calculate_ytd_metrics]: it has one row per pair and date, and, in exact
    arithmetic, rates that are 8-digit values. *)

Section Handover.

Context {F : Type} {num : PyNum F}.

Lemma calculate_cross_pairs_NoDup_keys (df : list (RawRow F)) out :
  calculate_cross_pairs df = Ret out → NoDup (row_key <$> out).
Proof.
  intros Hout.
  destruct (calculate_cross_pairs_in_Ret _ _ _ Hout) as [Hg _].
  rewrite (gather_Ret_bind _ _ _ Hg), fmap_bind_list.
  destruct (gather_Ret _ _ _ Hg) as (rss & HF & _).
  assert (∀ d, d ∈ group_dates df →
            ∃ blk, cross_pairs_block CURRENCIES df d = Ret blk) as Hblk.
  { intros d Hd. destruct (proj1 (list_elem_of_lookup _ _) Hd) as [i Hi].
    destruct (Forall2_lookup_l _ _ _ _ _ HF Hi) as (blk & _ & Hblk). by exists blk. }
  apply NoDup_bind; [| |apply NoDup_group_dates].
  - intros d1 d2 key Hd1 Hd2.
    destruct (Hblk d1 Hd1) as [blk1 Hb1]. destruct (Hblk d2 Hd2) as [blk2 Hb2].
    rewrite Hb1, Hb2.
    intros (r1 & -> & Hr1)%list_elem_of_fmap (r2 & Hk & Hr2)%list_elem_of_fmap.
    injection Hk as _ Hd.
    rewrite <-(cross_pairs_block_date _ _ _ _ _ Hb1 Hr1).
    by rewrite <-(cross_pairs_block_date _ _ _ _ _ Hb2 Hr2).
  - intros d Hd. destruct (Hblk d Hd) as [blk Hb]. rewrite Hb.
    apply (NoDup_fmap_1 fst). rewrite <-list_fmap_compose.
    change (fst ∘ row_key) with (@pair_key F).
    rewrite (cross_pairs_block_keys _ _ _ _ Hb).
    apply NoDup_ordered_pairs, NoDup_filter, NoDup_CURRENCIES.
Qed.

End Handover.

#[global] Instance round_half_even_proper : Proper (Qeq ==> eq) round_half_even.
Proof.
  intros x y Hxy. unfold round_half_even.
  rewrite (Qfloor_comp _ _ Hxy).
  assert (x - inject_Z (Qfloor y) == y - inject_Z (Qfloor y))%Q as Heq by (by rewrite Hxy).
  by rewrite (Qcompare_comp _ _ Heq _ _ (Qeq_refl (1 # 2))).
Qed.

Lemma round_half_even_inject_Z (z : Z) : round_half_even (inject_Z z) = z.
Proof.
  unfold round_half_even. rewrite Qfloor_Z.
  assert ((inject_Z z - inject_Z z ?= 1 # 2)%Q = Lt) as ->; [|done].
  apply (proj1 (Qlt_alt _ _)). generalize (inject_Z z). intros q. lra.
Qed.

(** Rounding a rounded number leaves it as it is. *)
Lemma Qround_digits_idempotent (n : nat) (x : Q) :
  Qround_digits n (Qround_digits n x) = Qround_digits n x.
Proof.
  unfold Qround_digits.
  set (r := round_half_even (x * inject_Z (10 ^ Z.of_nat n))).
  assert (0 < 10 ^ Z.of_nat n)%Z as Hpos by (apply Z.pow_pos_nonneg; lia).
  assert (Qred (r # Z.to_pos (10 ^ Z.of_nat n)) * inject_Z (10 ^ Z.of_nat n) == inject_Z r)%Q
    as Hscaled.
  { rewrite Qred_correct. unfold Qeq, Qmult, inject_Z. cbn [Qnum Qden].
    rewrite Pos.mul_1_r, Z2Pos.id by done. ring. }
  by rewrite (round_half_even_proper _ _ Hscaled), round_half_even_inject_Z.
Qed.

Lemma cross_pairs_output_rounded (df : list (RawRow pyfloat)) out :
  calculate_cross_pairs df = Ret out →
  Forall (λ r, np_round 8 (exchange_rate r) = exchange_rate r) out.
Proof.
  intros Hout. apply Forall_forall. intros row Hrow.
  apply (calculate_cross_pairs_in_elem_of _ _ _ _ Hout) in Hrow
    as (b & q & rb & rq & x & _ & _ & _ & _ & _ & _ & _ & ->). simpl.
  destruct x as [v|]; simpl; [|done]. by rewrite Qround_digits_idempotent.
Qed.

(** * Runs on the sample data *)

Ltac elem_of_list :=
  repeat first [apply list_elem_of_here | apply list_elem_of_further].

Ltac by_computation := apply (bool_decide_unpack _); vm_compute; exact I.

Lemma ex_raw_cross_pairs : calculate_cross_pairs ex_raw = Ret ex_raw_out.
Proof. by vm_compute. Qed.

Lemma ex_mixed_cross_pairs : calculate_cross_pairs ex_raw_mixed = Ret ex_cross_mixed.
Proof. by vm_compute. Qed.

(** C2 on two days that do not quote the same currencies: the table of the
    first day has NOK at its rate of that day, 4, not at 5; the row of
    NOK/SEK is emitted with 2 / 4; and PLN, quoted on the second day only, is
    in no row of the first. *)
Lemma cross_pairs_rate_table_witness :
  Forall (λ r, raw_quote r ≠ "EUR") ex_raw_mixed ∧
  d_2024_01_01 ∈ raw_date <$> ex_raw_mixed ∧
  build_rates_dict (date_group ex_raw_mixed d_2024_01_01) !! "EUR" = Some (Fin 1) ∧
  build_rates_dict (date_group ex_raw_mixed d_2024_01_01) !! "NOK" = Some (Fin 4) ∧
  build_rates_dict (date_group ex_raw_mixed d_2024_01_01) !! "PLN" = None ∧
  (∃ x, py_div (Fin 2) (Fin 4) = Ret x ∧
        mkCross d_2024_01_01 "NOK" "SEK" (py_round 8 x) ∈ ex_cross_mixed) ∧
  (∀ row, row ∈ ex_cross_mixed → rate_date row = d_2024_01_01 →
          base_currency row ≠ "PLN" ∧ quote_currency row ≠ "PLN").
Proof.
  assert (Forall (λ r : RawRow pyfloat, raw_quote r ≠ "EUR") ex_raw_mixed) as H1
    by by_computation.
  assert (d_2024_01_01 ∈ raw_date <$> ex_raw_mixed) as H2 by (vm_compute; elem_of_list).
  destruct (cross_pairs_rate_table ex_raw_mixed d_2024_01_01 H1 H2) as (Htable & Hout & _).
  destruct (Hout ex_cross_mixed ex_mixed_cross_pairs) as (Hpairs & _ & Habsent).
  split_and!; [done|done|by rewrite Htable..| |].
  - apply (Hpairs "NOK" "SEK"); [vm_compute; elem_of_list..|by vm_compute| |];
      by vm_compute.
  - intros row Hrow Hdate. apply (Habsent "PLN" row); [done| |done..].
    apply (proj1 (Forall_forall
             (λ r : RawRow pyfloat, raw_date r = d_2024_01_01 → raw_quote r ≠ "PLN")
             ex_raw_mixed)).
    by_computation.
Defined.

(** C4 on the same two days: on the first, three currencies are available,
    PLN is not, and six rows are emitted. *)
Lemma cross_pairs_count_witness :
  d_2024_01_01 ∈ raw_date <$> ex_raw_mixed ∧
  calculate_cross_pairs ex_raw_mixed = Ret ex_cross_mixed ∧
  pair_key <$> filter (λ row, rate_date row = d_2024_01_01) ex_cross_mixed
    = ordered_pairs ["NOK"; "EUR"; "SEK"] ∧
  length (filter (λ row, rate_date row = d_2024_01_01) ex_cross_mixed) = 3 * (3 - 1).
Proof.
  assert (d_2024_01_01 ∈ raw_date <$> ex_raw_mixed) as H2 by (vm_compute; elem_of_list).
  destruct (cross_pairs_count ex_raw_mixed d_2024_01_01 H2) as (_ & _ & Hret & _).
  destruct (Hret ex_cross_mixed ex_mixed_cross_pairs) as (Hkeys & _ & _ & Hlen & _).
  split_and!; [done|exact ex_mixed_cross_pairs|exact Hkeys|exact Hlen].
Defined.

(** C10 on the scenario with a row for USD added. *)
Lemma foreign_currency_ignored_witness :
  ("USD" ∉ CURRENCIES) ∧
  calculate_cross_pairs (ex_raw ++ [mkRaw d_2024_01_02 "USD" (Fin (11 # 10))]) =
    calculate_cross_pairs (ex_raw ++ []).
Proof.
  assert ("USD" ∉ CURRENCIES) as H by by_computation.
  split; [done|].
  apply (foreign_currency_ignored ex_raw [] (mkRaw d_2024_01_02 "USD" (Fin (11 # 10))) H).
Defined.

(** C7 on the scenario: the raw rate of NOK comes back in the row EUR/NOK. *)
Lemma eur_round_trip_witness :
  mkCross d_2024_01_01 "EUR" "NOK" (Fin (23 # 2)) ∈ ex_raw_out.
Proof.
  pose (r := mkRaw d_2024_01_01 "NOK" (Fin (115 # 10)) : RawRow pyfloat).
  assert (r ∈ ex_raw) as Hr by (vm_compute; elem_of_list).
  assert (Forall (λ r' : RawRow pyfloat, raw_quote r' ≠ "EUR") ex_raw) as Hvalid
    by by_computation.
  assert (∀ r', r' ∈ ex_raw → raw_date r' = raw_date r → raw_quote r' = raw_quote r →
                raw_rate r' = raw_rate r) as Huniq.
  { intros r' Hr' _ Hq. unfold ex_raw in Hr'.
    apply elem_of_cons in Hr' as [->|Hr']; [done|].
    apply list_elem_of_singleton in Hr' as ->. by vm_compute in Hq. }
  assert (py_div (raw_rate r) f_one = Ret (raw_rate r)) as Hdiv by (by vm_compute).
  destruct (eur_round_trip ex_raw ex_raw_out r ex_raw_cross_pairs Hr Hvalid Huniq Hdiv)
    as [_ Hin].
  apply Hin. vm_compute. elem_of_list.
Defined.

(** C6 does not hold on the scenario: the reciprocal pair is 11.5 and 0.08695652,
    whose product is 0.99999998, off by 2e-8. *)
Lemma reciprocal_product_exceeds_tolerance :
  let ra := mkCross d_2024_01_01 "EUR" "NOK" (Fin (23 # 2)) in
  let rb := mkCross d_2024_01_01 "NOK" "EUR" (Fin (2173913 # 25000000)) in
  Forall (λ r, is_positive (raw_rate r) = true) ex_raw ∧
  Forall (λ r, raw_quote r ≠ "EUR") ex_raw ∧
  calculate_cross_pairs ex_raw = Ret ex_raw_out ∧
  ra ∈ ex_raw_out ∧ rb ∈ ex_raw_out ∧
  ((23 # 2) * (2173913 # 25000000) - 1 == - (2 # 100000000))%Q ∧
  ¬ (Qabs ((23 # 2) * (2173913 # 25000000) - 1) <= 1 # 100000000)%Q.
Proof.
  split_and!.
  - by_computation.
  - by_computation.
  - exact ex_raw_cross_pairs.
  - unfold ex_raw_out. elem_of_list.
  - unfold ex_raw_out. elem_of_list.
  - by vm_compute.
  - intros H. vm_compute in H. by apply H.
Qed.

(** C6, as the program has it, on the same pair: the two rates are within
    half of 1e-8 of 11.5 and of its inverse, and the product is within
    [0.5e-8 * (11.5 + 0.08695652 + 0.5e-8)] of 1. *)
Lemma reciprocal_product_bound_witness :
  (Qabs ((23 # 2) * (2173913 # 25000000) - 1)
   <= (1 # 200000000) *
      (Qabs (23 # 2) + Qabs (2173913 # 25000000) + (1 # 200000000)))%Q.
Proof.
  destruct (reciprocal_product_bound ex_raw ex_raw_out
              (mkCross d_2024_01_01 "EUR" "NOK" (Fin (23 # 2)))
              (mkCross d_2024_01_01 "NOK" "EUR" (Fin (2173913 # 25000000)))
              ex_raw_cross_pairs)
    as (ta & tb & za & zb & Hta & Htb & Hza & Hra & Hzb & Hrb & Hbound);
    [unfold ex_raw_out; elem_of_list..|done|done|done|].
  vm_compute in Hta. vm_compute in Htb.
  injection Hta as <-. injection Htb as <-.
  apply (Hbound pyfloat_value (1 # 200000000)%Q); [done|done| |];
    cbn [pyfloat_value].
  - rewrite Hra. by apply (pyfloat_quotient_rounded _ _ za).
  - rewrite Hrb. by apply (pyfloat_quotient_rounded _ _ zb).
Defined.

Lemma ex_two_days_cross_pairs :
  calculate_cross_pairs ex_raw_two_days = Ret ex_cross_two_days.
Proof. by vm_compute. Qed.

(** C1 does not hold: for EUR/SEK, with rates 1 and 3, the variance reported is 1 and
    the sample variance is 2; for EUR/PLN, with rates 2 and 2, the variance
    is null though the window has two records. *)
Lemma ytd_variance_not_sample_variance :
  calculate_cross_pairs ex_raw_two_days = Ret ex_cross_two_days ∧
  (ex_ytd_sek ∈ calculate_ytd_metrics ex_cross_two_days ∧
   exchange_rate <$> ytd_window_of ex_cross_two_days ("EUR", "SEK") d_2024_01_02
     = [Fin 1; Fin 3] ∧
   ytd_days_count ex_ytd_sek = 2 ∧
   ytd_variance ex_ytd_sek = Some (Fin 1) ∧
   np_round 8 (spec_sample_variance [Fin 1; Fin 3]) = Fin 2 ∧
   ytd_variance ex_ytd_sek ≠ Some (np_round 8 (spec_sample_variance [Fin 1; Fin 3]))) ∧
  (ex_ytd_pln ∈ calculate_ytd_metrics ex_cross_two_days ∧
   exchange_rate <$> ytd_window_of ex_cross_two_days ("EUR", "PLN") d_2024_01_02
     = [Fin 2; Fin 2] ∧
   ytd_days_count ex_ytd_pln = 2 ∧
   ytd_variance ex_ytd_pln = None ∧ ytd_std_dev ex_ytd_pln = None).
Proof.
  split; [exact ex_two_days_cross_pairs|].
  split; split_and!; try (by vm_compute).
  - vm_compute. elem_of_list.
  - vm_compute. elem_of_list.
Qed.

(** C1, as the program has it, on EUR/SEK. *)
Lemma ytd_variance_population_witness :
  ex_ytd_sek ∈ calculate_ytd_metrics ex_cross_two_days ∧
  ytd_days_count ex_ytd_sek = 2 ∧
  ytd_variance ex_ytd_sek = Some (Fin 1).
Proof.
  assert (ex_ytd_sek ∈ calculate_ytd_metrics ex_cross_two_days) as Hy
    by (vm_compute; elem_of_list).
  destruct (ytd_variance_population ex_cross_two_days ex_ytd_sek Hy)
    as (Hcount & Hvar & _ & _).
  split_and!; [done|by vm_compute|].
  rewrite Hvar; by vm_compute.
Defined.

(** C5 does not hold: for EUR/NOK, with rates 3 and 4, the change reported is
    33.3333, the quotient is 100/3. *)
Lemma ytd_change_pct_not_exact :
  calculate_cross_pairs ex_raw_two_days = Ret ex_cross_two_days ∧
  ex_ytd_nok ∈ calculate_ytd_metrics ex_cross_two_days ∧
  exchange_rate <$> ytd_window_of ex_cross_two_days ("EUR", "NOK") d_2024_01_02
    = [Fin 3; Fin 4] ∧
  f_truthy (Fin 3) = true ∧
  ytd_change_pct ex_ytd_nok = Fin (333333 # 10000) ∧
  spec_change_pct (Fin 3) (Fin 4) = Fin (100 # 3) ∧
  ¬ (333333 # 10000 == 100 # 3)%Q.
Proof.
  split; [exact ex_two_days_cross_pairs|].
  split_and!; try (by vm_compute).
  vm_compute. elem_of_list.
Qed.

(** C5, as the program has it, on EUR/NOK. *)
Lemma ytd_change_pct_rounded_witness :
  ex_ytd_nok ∈ calculate_ytd_metrics ex_cross_two_days ∧
  ∃ first_rate last_rate,
    head [Fin 3; Fin 4] = Some first_rate ∧ last [Fin 3; Fin 4] = Some last_rate ∧
    ytd_change_pct ex_ytd_nok = np_round 4 (spec_change_pct first_rate last_rate).
Proof.
  assert (ex_ytd_nok ∈ calculate_ytd_metrics ex_cross_two_days) as Hy
    by (vm_compute; elem_of_list).
  split; [done|].
  destruct (ytd_change_pct_rounded ex_cross_two_days ex_ytd_nok Hy)
    as (first_rate & last_rate & Hhead & Hlast & Hnz & _).
  assert (exchange_rate <$>
            ytd_window_of ex_cross_two_days (ytd_base ex_ytd_nok, ytd_quote ex_ytd_nok)
              (ytd_date ex_ytd_nok) = [Fin 3; Fin 4]) as Hrates by (by vm_compute).
  rewrite Hrates in Hhead, Hlast.
  exists first_rate, last_rate. split_and!; [done..|].
  apply Hnz. injection Hhead as <-. by vm_compute.
Defined.


(** C8 does not hold: with a rate missing in a row, the stage returns 0 and writes
    both files, with not-a-number rates in them. *)
Lemma missing_rate_not_fatal :
  let result := main ex_env None None None (ex_world ex_raw_missing) in
  (∃ r, r ∈ ex_raw_missing ∧ raw_rate r = NaN) ∧
  result.1 = Ret 0%Z ∧
  (∃ rows, files result.2 !! "cross.csv" = Some (CrossCsv rows) ∧
           mkCross d_2024_01_01 "EUR" "NOK" NaN ∈ rows) ∧
  is_Some (files result.2 !! "ytd.csv").
Proof.
  split_and!.
  - eexists. split; [apply list_elem_of_here|done].
  - by vm_compute.
  - eexists. split; [by vm_compute|]. elem_of_list.
  - vm_compute. by eexists.
Qed.

(** C8, as the program has it, with no input file: the stage returns 1 and
    writes nothing. *)
Lemma transform_failure_status_witness :
  let w := mkWorld (∅ : gmap string (FileContent pyfloat)) [] [] false false in
  (∃ e, read_csv (files w) "raw.csv" = Raise e) ∧
  (main ex_env None None None w).1 = Ret 1%Z ∧
  files (main ex_env None None None w).2 = ∅.
Proof.
  intros w.
  assert (∃ e, read_csv (files w) "raw.csv" = Raise e) as Hread.
  { exists "FileNotFoundError". by vm_compute. }
  split; [done|].
  destruct (transform_failure_status ex_env None None None w) as [Hfail _].
  apply Hfail. right. left. exact Hread.
Defined.

(** * More on the transformation stage *)

(** ** More on the cross-pair engine *)

Lemma StronglySorted_same_key {A R : Type} (RA : relation A) (key : R → A) (x : A)
    (l : list R) :
  Reflexive RA → (∀ r, r ∈ l → key r = x) →
  StronglySorted (λ a b, RA (key a) (key b)) l.
Proof.
  intros Hrefl. induction l as [|a l IH]; intros Hkey; constructor.
  - apply IH. intros r Hr. apply Hkey. by right.
  - apply Forall_forall. intros b Hb.
    rewrite (Hkey a) by left. rewrite (Hkey b) by (by right). done.
Qed.

(** The result of a loop over keys in ascending order, whose iterations
    append rows of their own key, is in ascending order of key. *)
Lemma gather_StronglySorted {A R : Type} (RA : relation A) (key : R → A)
    (g : A → outcome (list R)) (l : list A) rows :
  Reflexive RA →
  StronglySorted RA l →
  (∀ x rs r, g x = Ret rs → r ∈ rs → key r = x) →
  gather g l = Ret rows →
  StronglySorted (λ a b, RA (key a) (key b)) rows.
Proof.
  intros Hrefl Hsorted Hkey. revert rows.
  induction Hsorted as [|x l Hl IH Hx]; intros rows; simpl.
  - intros [= <-]. constructor.
  - destruct (g x) as [r0|e] eqn:Hgx; simpl; [|done].
    destruct (gather g l) as [rs|e] eqn:Hgl; simpl; [|done].
    intros [= <-]. apply StronglySorted_app_2.
    + intros a b Ha Hb. rewrite (Hkey x r0 a Hgx Ha).
      apply (gather_elem_of _ _ _ _ Hgl) in Hb as (y & rs' & Hy & Hgy & Hb).
      rewrite (Hkey y rs' b Hgy Hb). rewrite Forall_forall in Hx. by apply Hx.
    + apply (StronglySorted_same_key RA key x); [done|].
      intros r Hr. by apply (Hkey x r0).
    + by apply IH.
Qed.

Lemma gather_Raise {A R : Type} (g : A → outcome (list R)) (l : list A) e :
  gather g l = Raise e → ∃ x, x ∈ l ∧ g x = Raise e.
Proof.
  induction l as [|x l IH]; simpl; [done|].
  destruct (g x) as [r|e'] eqn:Hgx; simpl.
  - destruct (gather g l) as [rs|e'']; simpl; [done|].
    intros [= <-]. destruct IH as (y & Hy & Hgy); [done|].
    exists y. split; [by right|done].
  - intros [= <-]. exists x. split; [left|done].
Qed.

Lemma gather_length_const {A R : Type} (g : A → outcome (list R)) (l : list A) rows n :
  (∀ x rs, x ∈ l → g x = Ret rs → length rs = n) →
  gather g l = Ret rows → length rows = length l * n.
Proof.
  revert rows. induction l as [|x l IH]; intros rows Hlen; simpl.
  - by intros [= <-].
  - destruct (g x) as [r0|e] eqn:Hgx; simpl; [|done].
    destruct (gather g l) as [rs|e] eqn:Hgl; simpl; [|done].
    intros [= <-]. rewrite length_app, (Hlen x r0) by (done || left).
    rewrite (IH rs); [lia| |done]. intros y rs' Hy. apply Hlen. by right.
Qed.

Section CrossPairsMore.

Context {F : Type} {num : PyNum F}.
Implicit Types (df : list (RawRow F)) (d : Date) (out : list (CrossRow F)).

(** X1. The rows of the output are in ascending order of date. *)
Theorem cross_pairs_sorted_by_date df out :
  calculate_cross_pairs df = Ret out → StronglySorted row_date_le out.
Proof.
  intros [Hout _]%calculate_cross_pairs_in_Ret.
  apply (gather_StronglySorted date_le rate_date
           (cross_pairs_block CURRENCIES df) (group_dates df)).
  - apply _.
  - apply (StronglySorted_merge_sort _).
  - intros d' rs r. apply cross_pairs_block_date.
  - done.
Qed.

(** X2. When no date of the input has two currencies of [CURRENCIES]
    available, the empty input included, the function raises [KeyError]: it
    does not return an empty frame. *)
Theorem cross_pairs_no_pair_raises df :
  (∀ d, d ∈ raw_date <$> df → (length (available CURRENCIES df d) ≤ 1)%nat) →
  calculate_cross_pairs df = Raise "KeyError".
Proof.
  intros Hfew. unfold calculate_cross_pairs.
  rewrite calculate_cross_pairs_in_gather.
  rewrite (gather_nil (cross_pairs_block CURRENCIES df)); [done|].
  intros d Hd%elem_of_group_dates. unfold cross_pairs_block.
  apply gather_nil. intros b Hb. apply gather_nil. intros q Hq.
  unfold cross_pair_cell. destruct (decide (b ≠ q)) as [Hne|]; [|done].
  destruct (_ !! b) as [rb|] eqn:Htb; [|done].
  destruct (_ !! q) as [rq|] eqn:Htq; [|done].
  exfalso. specialize (Hfew d Hd). rewrite available_table in Hfew.
  assert (b ∈ filter (λ c, is_Some (build_rates_dict (date_group df d) !! c)) CURRENCIES)
    as Hb' by (apply list_elem_of_filter; eauto).
  assert (q ∈ filter (λ c, is_Some (build_rates_dict (date_group df d) !! c)) CURRENCIES)
    as Hq' by (apply list_elem_of_filter; eauto).
  destruct (filter _ CURRENCIES) as [|c [|c' l]]; simpl in Hfew.
  - by apply elem_of_nil in Hb'.
  - apply list_elem_of_singleton in Hb', Hq'. congruence.
  - lia.
Qed.

(** X3. The pairs come both ways: when a row for [(base, quote)] is emitted
    for a date, a row for [(quote, base)] is emitted for that date. *)
Theorem cross_pairs_both_ways df out row :
  calculate_cross_pairs df = Ret out → row ∈ out →
  ∃ row', row' ∈ out ∧ rate_date row' = rate_date row ∧
    base_currency row' = quote_currency row ∧ quote_currency row' = base_currency row.
Proof.
  intros Hout Hrow.
  pose proof Hrow as Hrow'.
  apply (calculate_cross_pairs_in_elem_of _ _ _ _ Hout) in Hrow'
    as (b & q & rb & rq & x & Hd & Hb & Hq & Hne & Htb & Htq & Hx & Heq).
  destruct (calculate_cross_pairs_in_block _ _ _ _ Hout Hd) as [blk Hblk].
  destruct (cross_pairs_block_div_returns _ _ _ _ q b rq rb Hblk Hq Hb) as [x' Hx'];
    [done..|].
  exists (mkCross (rate_date row) q b (py_round 8 x')). rewrite Heq. simpl.
  split_and!; [|done..].
  apply (calculate_cross_pairs_in_elem_of _ _ _ _ Hout).
  exists q, b, rq, rb, x'. simpl. by split_and!.
Qed.

(** X4. When every date of the input has a raw row for each of the six
    currencies of [CURRENCIES] other than EUR, the output has 42 rows for
    each date. *)
Theorem cross_pairs_full_count df out :
  calculate_cross_pairs df = Ret out →
  (∀ d c, d ∈ raw_date <$> df → c ∈ CURRENCIES → c ≠ "EUR" →
          c ∈ raw_quote <$> date_group df d) →
  length out = length (group_dates df) * 42.
Proof.
  intros [Hout _]%calculate_cross_pairs_in_Ret Hfull.
  apply (gather_length_const (cross_pairs_block CURRENCIES df)); [|done].
  intros d blk Hd%elem_of_group_dates Hblk.
  rewrite <-(length_fmap pair_key), (cross_pairs_block_keys _ _ _ _ Hblk).
  assert (available CURRENCIES df d = CURRENCIES) as ->.
  { unfold available. apply filter_all, Forall_forall. intros c Hc.
    destruct (decide (c = "EUR")); [by left|right]. by apply Hfull. }
  rewrite length_ordered_pairs by apply NoDup_CURRENCIES. done.
Qed.

End CrossPairsMore.

(** ** Grouping *)

Lemma bind_app_Permutation {A B : Type} (f g : A → list B) (l : list A) :
  l ≫= (λ x, f x ++ g x) ≡ₚ (l ≫= f) ++ (l ≫= g).
Proof.
  induction l as [|x l IH]; [done|].
  rewrite !bind_cons, IH, <-!app_assoc. f_equiv. apply Permutation_app_swap_app.
Qed.

Lemma bind_Permutation_ext {A B : Type} (f g : A → list B) (l : list A) :
  (∀ x, f x ≡ₚ g x) → l ≫= f ≡ₚ l ≫= g.
Proof.
  intros Hfg. induction l as [|x l IH]; [done|].
  by rewrite !bind_cons, IH, Hfg.
Qed.

Lemma bind_one_key {A K : Type} `{!EqDecision K} (ks : list K) (k0 : K) (x : A) :
  NoDup ks → k0 ∈ ks →
  ks ≫= (λ k, if decide (k0 = k) then [x] else []) = [x].
Proof.
  induction 1 as [|k ks Hk Hnd IH]; [by intros ?%elem_of_nil|].
  rewrite bind_cons. intros [->|Hin]%elem_of_cons.
  - rewrite decide_True by done.
    rewrite (bind_ext_in _ (λ _, [])), bind_nil_const; [done|].
    intros k' Hk'. rewrite decide_False; [done|]. by intros ->.
  - rewrite decide_False by (by intros ->). by rewrite IH.
Qed.

(** The groups of [groupby] hold every row once. *)
Lemma group_partition {A K : Type} `{!EqDecision K} (key : A → K) (ks : list K)
    (l : list A) :
  NoDup ks → (∀ x, x ∈ l → key x ∈ ks) →
  ks ≫= (λ k, filter (λ x, key x = k) l) ≡ₚ l.
Proof.
  intros Hnd. induction l as [|x l IH]; intros Hks.
  - by rewrite (bind_ext_in _ (λ _, [])), bind_nil_const.
  - rewrite (bind_ext_in _ (λ k, (if decide (key x = k) then [x] else []) ++
                                 filter (λ x, key x = k) l)).
    + rewrite bind_app_Permutation, bind_one_key by (done || apply Hks; left).
      simpl. f_equiv. apply IH. intros y Hy. apply Hks. by right.
    + intros k _. rewrite filter_cons. by destruct (decide (key x = k)).
Qed.

Lemma length_filter_impl {A : Type} (P Q : A → Prop) `{!∀ x, Decision (P x)}
    `{!∀ x, Decision (Q x)} (l : list A) :
  (∀ x, P x → Q x) → (length (filter P l) ≤ length (filter Q l))%nat.
Proof.
  intros HPQ. induction l as [|x l IH]; [done|].
  rewrite !filter_cons. destruct (decide (P x)) as [HP|HP].
  - rewrite decide_True by auto. simpl. lia.
  - destruct (decide (Q x)); simpl; lia.
Qed.

Section YtdMore.

Context {F : Type} {num : PyNum F}.
Implicit Types (df group : list (CrossRow F)) (row r : CrossRow F).
Implicit Types (k : string * string) (D : Date) (y : YtdRow F).

Lemma ytd_of_group_keys k (G rows : list (CrossRow F)) :
  (∀ row, row ∈ rows → row ∈ G ∧ pair_key row = k) →
  ytd_key <$> (rows ≫= λ row,
     ytd_record k.1 k.2 (rate_date row) (ytd_window G (rate_date row)))
  = row_key <$> rows.
Proof.
  induction rows as [|row rows IH]; intros Hrows; [done|].
  rewrite bind_cons, fmap_app, IH by (intros r Hr; apply Hrows; by right).
  destruct (Hrows row) as [HG Hk]; [left|].
  assert (ytd_window G (rate_date row) ≠ []) as Hne.
  { intros Hnil. apply (filter_nil_not_elem_of _ _ row) in Hnil; [done|].
    split; [apply year_start_le|reflexivity]. }
  destruct (ytd_record_nonempty k.1 k.2 (rate_date row) _ Hne) as [y Hy].
  rewrite Hy. simpl. f_equal.
  assert (y ∈ ytd_record k.1 k.2 (rate_date row) (ytd_window G (rate_date row))) as Hin
    by (rewrite Hy; left).
  destruct (ytd_record_key _ _ _ _ _ Hin) as (Hd & Hb & Hq).
  unfold ytd_key, row_key. rewrite Hd, Hb, Hq, Hk. by destruct k.
Qed.

Lemma calculate_ytd_metrics_keys df :
  ytd_key <$> calculate_ytd_metrics df ≡ₚ row_key <$> df.
Proof.
  unfold calculate_ytd_metrics. rewrite fmap_bind_list.
  rewrite (bind_ext_in _ (λ k, row_key <$> sort_values (pair_group (sort_values df) k))).
  - rewrite (bind_Permutation_ext _
               (λ k, row_key <$> filter (λ r, pair_key r = k) (sort_values df))).
    + rewrite <-fmap_bind_list, group_partition.
      * by rewrite sort_values_Permutation.
      * apply NoDup_group_pairs.
      * intros r Hr. apply elem_of_group_pairs. by apply list_elem_of_fmap_2.
    + intros k. by rewrite sort_values_Permutation.
  - intros k _. unfold ytd_of_group. apply ytd_of_group_keys.
    intros row Hrow. split; [done|].
    rewrite sort_values_Permutation in Hrow.
    by apply list_elem_of_filter in Hrow as [? _].
Qed.

(** X5. The aggregator gives one record for each row of its input, with the
    row's pair and date: it drops no row and adds none. *)
Theorem ytd_one_record_per_row df :
  ytd_key <$> calculate_ytd_metrics df ≡ₚ row_key <$> df ∧
  length (calculate_ytd_metrics df) = length df.
Proof.
  pose proof (calculate_ytd_metrics_keys df) as Hperm.
  split; [done|].
  by rewrite <-(length_fmap ytd_key), Hperm, length_fmap.
Qed.

(** X6. The day count of a record is the number of rows of its pair in its
    calendar year dated no later than it; it is at least 1, and within a year
    it does not decrease with the date. *)
Theorem ytd_days_count_in_year df y :
  y ∈ calculate_ytd_metrics df →
  ytd_days_count y =
    length (filter (λ r, pair_key r = (ytd_base y, ytd_quote y) ∧
                         year (rate_date r) = year (ytd_date y) ∧
                         date_le (rate_date r) (ytd_date y)) df) ∧
  (1 ≤ ytd_days_count y)%nat ∧
  ∀ y', y' ∈ calculate_ytd_metrics df →
    ytd_base y' = ytd_base y → ytd_quote y' = ytd_quote y →
    year (ytd_date y') = year (ytd_date y) → date_le (ytd_date y') (ytd_date y) →
    (ytd_days_count y' ≤ ytd_days_count y)%nat.
Proof.
  assert (∀ z, z ∈ calculate_ytd_metrics df →
    ytd_days_count z =
      length (filter (λ r, pair_key r = (ytd_base z, ytd_quote z) ∧
                           year (rate_date r) = year (ytd_date z) ∧
                           date_le (rate_date r) (ytd_date z)) df) ∧
    (1 ≤ ytd_days_count z)%nat) as Hcount.
  { intros z [Hrec Hne]%calculate_ytd_metrics_record.
    unfold ytd_record in Hrec. destruct (decide _) as [Hlen|]; [|done].
    injection Hrec as Hz.
    assert (ytd_days_count z = length (ytd_window_of df (ytd_base z, ytd_quote z) (ytd_date z)))
      as -> by (rewrite <-Hz at 1; simpl; by rewrite length_fmap).
    split; [|lia].
    rewrite ytd_window_of_Permutation. f_equal.
    apply list_filter_iff. intros r. by rewrite year_window_iff. }
  intros Hy. destruct (Hcount y Hy) as [Heq Hpos]. split_and!; [done..|].
  intros y' Hy' Hb Hq Hyear Hle. destruct (Hcount y' Hy') as [Heq' _].
  rewrite Heq, Heq', Hb, Hq. apply length_filter_impl.
  intros r (Hk & Hyr & Hd). split_and!; [done|congruence|by etrans].
Qed.

End YtdMore.

(** ** Exact arithmetic: more on rounding *)

Lemma Qround_digits_proper (n : nat) (x y : Q) :
  (x == y)%Q → Qround_digits n x = Qround_digits n y.
Proof.
  intros Hxy. unfold Qround_digits.
  assert (x * inject_Z (10 ^ Z.of_nat n) == y * inject_Z (10 ^ Z.of_nat n))%Q as Heq
    by (by rewrite Hxy).
  by rewrite (round_half_even_proper _ _ Heq).
Qed.

Lemma Qround_digits_zero (n : nat) : Qround_digits n 0 = 0%Q.
Proof.
  unfold Qround_digits.
  assert (0 * inject_Z (10 ^ Z.of_nat n) == inject_Z 0)%Q as Heq by ring.
  rewrite (round_half_even_proper _ _ Heq), round_half_even_inject_Z. done.
Qed.

(** ** The first record of a year *)

(** X7. In exact arithmetic, for a row with a finite rate that is the only
    row of its pair in its calendar year up to its date (the first record of
    the year, or a frame of a single date): the record has day count 1, the
    row's rate rounded to 8 digits as average, minimum, maximum, first and
    last rate, null variance and standard deviation, and a change of 0. *)
Theorem ytd_first_record_of_year (df : list (CrossRow pyfloat)) row q :
  exchange_rate row = Fin q →
  filter (λ r, pair_key r = pair_key row ∧
               year (rate_date r) = year (rate_date row) ∧
               date_le (rate_date r) (rate_date row)) df = [row] →
  let q8 := Fin (Qround_digits 8 q) in
  mkYtd (rate_date row) (base_currency row) (quote_currency row)
    q8 q8 q8 q8 q8 1 None None (Fin 0) ∈ calculate_ytd_metrics df.
Proof.
  intros Hq Hfilter q8.
  assert (row ∈ df) as Hrow.
  { assert (row ∈ [row]) as Hin by left. rewrite <-Hfilter in Hin.
    by apply list_elem_of_filter in Hin as [_ ?]. }
  apply elem_of_calculate_ytd_metrics. exists row. split; [done|].
  assert (ytd_window_of df (pair_key row) (rate_date row) = [row]) as ->.
  { apply Permutation_singleton_r. rewrite ytd_window_of_Permutation, <-Hfilter.
    apply reflexive_eq, list_filter_iff. intros r. by rewrite year_window_iff. }
  unfold ytd_record. simpl. rewrite Hq. simpl.
  apply list_elem_of_singleton. unfold q8.
  assert (Qround_digits 8 ((0 + q) / inject_Z (Z.of_nat 1)) = Qround_digits 8 q) as ->.
  { apply Qround_digits_proper. unfold Qdiv.
    change (/ inject_Z (Z.of_nat 1))%Q with 1%Q. ring. }
  f_equal. destruct (Qis_zero q) eqn:Hz; simpl; [done|].
  f_equal. rewrite <-(Qround_digits_zero 4). apply Qround_digits_proper.
  unfold Qdiv. ring.
Qed.

(** ** A rate of zero *)

Lemma pyfloat_cell_raise d (t : gmap string pyfloat) b q e :
  cross_pair_cell d t b q = Raise e → e = "ZeroDivisionError".
Proof.
  unfold cross_pair_cell. destruct (decide _); [|done].
  destruct (t !! b) as [rb|]; [|done]. destruct (t !! q) as [rq|]; [|done].
  unfold mbind, outcome_bind. simpl. unfold pyfloat_div.
  destruct rb as [v|]; [|done]. destruct (Qis_zero v); [|done].
  by intros [= <-].
Qed.

(** X8. In exact arithmetic with Python's division, a rate of zero for a
    currency of [CURRENCIES] makes the function raise [ZeroDivisionError]:
    no infinite or not-a-number rate is produced. *)
Theorem zero_rate_raises (df : list (RawRow pyfloat)) r :
  r ∈ df → raw_quote r ∈ CURRENCIES → raw_quote r ≠ "EUR" →
  (∀ r', r' ∈ df → raw_date r' = raw_date r → raw_quote r' = raw_quote r →
         raw_rate r' = raw_rate r) →
  f_truthy (raw_rate r) = false →
  calculate_cross_pairs df = Raise "ZeroDivisionError".
Proof.
  intros Hr HC Hne Huniq Hzero.
  unfold calculate_cross_pairs. rewrite calculate_cross_pairs_in_gather.
  destruct (gather _ _) as [rows|e] eqn:Hg; simpl.
  - exfalso.
    destruct (gather_Ret _ _ _ Hg) as (rss & HF & _).
    assert (raw_date r ∈ group_dates df) as Hd
      by (apply elem_of_group_dates; by apply list_elem_of_fmap_2).
    destruct (proj1 (list_elem_of_lookup _ _) Hd) as [i Hi].
    destruct (Forall2_lookup_l _ _ _ _ _ HF Hi) as (blk & _ & Hblk).
    assert (is_Some (build_rates_dict (date_group df (raw_date r)) !! "EUR")) as [one He]
      by (apply build_rates_dict_is_Some; by left).
    assert ("EUR" ∈ CURRENCIES) as HE by by_computation.
    destruct (cross_pairs_block_div_returns CURRENCIES df (raw_date r) blk
                (raw_quote r) "EUR" (raw_rate r) one Hblk HC HE Hne
                (table_of_raw_row df r Hr Huniq) He) as [x Hx].
    simpl in Hx. unfold pyfloat_div in Hx.
    destruct (raw_rate r) as [v|]; [|done]. simpl in Hzero.
    apply negb_false_iff in Hzero. by rewrite Hzero in Hx.
  - apply gather_Raise in Hg as (d & _ & Hblk). unfold cross_pairs_block in Hblk.
    apply gather_Raise in Hblk as (b & _ & Hrow).
    apply gather_Raise in Hrow as (q & _ & Hcell).
    by apply pyfloat_cell_raise in Hcell as ->.
Qed.

(** ** The order of the statistics *)

Section RoundingOrder.

Local Open Scope Q_scope.

Lemma round_half_even_mono (x y : Q) :
  x <= y → (round_half_even x <= round_half_even y)%Z.
Proof.
  intros Hxy.
  pose proof (Qfloor_resp_le x y Hxy) as Hf.
  destruct (decide (Qfloor x = Qfloor y)) as [Heq|Hne].
  - unfold round_half_even. rewrite <-Heq.
    destruct (x - inject_Z (Qfloor x) ?= 1 # 2) eqn:Hx;
      destruct (y - inject_Z (Qfloor x) ?= 1 # 2) eqn:Hy;
      try (destruct (Z.even (Qfloor x)); lia); try lia; exfalso.
    + apply Qeq_alt in Hx. apply Qlt_alt in Hy.
      generalize dependent (inject_Z (Qfloor x)). intros; lra.
    + apply Qgt_alt in Hx. apply Qeq_alt in Hy.
      generalize dependent (inject_Z (Qfloor x)). intros; lra.
    + apply Qgt_alt in Hx. apply Qlt_alt in Hy.
      generalize dependent (inject_Z (Qfloor x)). intros; lra.
  - assert (round_half_even x <= Qfloor x + 1)%Z as Hx.
    { unfold round_half_even. destruct (_ ?= _); [destruct (Z.even _)|..]; lia. }
    assert (Qfloor y <= round_half_even y)%Z as Hy.
    { unfold round_half_even. destruct (_ ?= _); [destruct (Z.even _)|..]; lia. }
    lia.
Qed.

Lemma Qround_digits_mono (n : nat) (x y : Q) :
  x <= y → Qround_digits n x <= Qround_digits n y.
Proof.
  intros Hxy. unfold Qround_digits. rewrite !Qred_correct.
  assert (0 < 10 ^ Z.of_nat n)%Z as Hpos by (apply Z.pow_pos_nonneg; lia).
  assert (round_half_even (x * inject_Z (10 ^ Z.of_nat n))
          <= round_half_even (y * inject_Z (10 ^ Z.of_nat n)))%Z as Hr.
  { apply round_half_even_mono. apply Qmult_le_compat_r; [done|].
    change 0 with (inject_Z 0). rewrite <-Zle_Qle. lia. }
  unfold Qle. simpl. nia.
Qed.

End RoundingOrder.

(** The order of the exact instance on the numbers that are not missing. *)
Lemma pyfloat_le_refl (a : pyfloat) : (∃ q, a = Fin q) → pyfloat_le a a.
Proof. intros [q ->]. simpl. apply Qle_refl. Qed.

Lemma pyfloat_le_trans (a b c : pyfloat) :
  pyfloat_le a b → pyfloat_le b c → pyfloat_le a c.
Proof.
  destruct a as [x|], b as [y|], c as [z|]; simpl; try done. apply Qle_trans.
Qed.

Lemma pyfloat_minimum_below (a b : pyfloat) :
  (∃ q, a = Fin q) → (∃ q, b = Fin q) →
  (∃ q, np_minimum a b = Fin q) ∧
  pyfloat_le (np_minimum a b) a ∧ pyfloat_le (np_minimum a b) b.
Proof.
  intros [x ->] [y ->]. simpl. split; [by eexists|].
  destruct (Qle_bool x y) eqn:Hxy.
  - apply Qle_bool_iff in Hxy. split; [apply Qle_refl|done].
  - split; [|apply Qle_refl].
    destruct (Qlt_le_dec y x) as [Hlt|Hle]; [by apply Qlt_le_weak|].
    apply Qle_bool_iff in Hle. congruence.
Qed.

Lemma pyfloat_maximum_above (a b : pyfloat) :
  (∃ q, a = Fin q) → (∃ q, b = Fin q) →
  (∃ q, np_maximum a b = Fin q) ∧
  pyfloat_le a (np_maximum a b) ∧ pyfloat_le b (np_maximum a b).
Proof.
  intros [x ->] [y ->]. simpl. split; [by eexists|].
  destruct (Qle_bool x y) eqn:Hxy.
  - apply Qle_bool_iff in Hxy. split; [done|apply Qle_refl].
  - split; [apply Qle_refl|].
    destruct (Qlt_le_dec y x) as [Hlt|Hle]; [by apply Qlt_le_weak|].
    apply Qle_bool_iff in Hle. congruence.
Qed.

Lemma pyfloat_round_mono (n : nat) (a b : pyfloat) :
  pyfloat_le a b → pyfloat_le (np_round n a) (np_round n b).
Proof.
  destruct a as [x|], b as [y|]; simpl; try done. apply Qround_digits_mono.
Qed.

Lemma ytd_record_rates {F} {num : PyNum F} b q D (window : list (CrossRow F)) y :
  y ∈ ytd_record b q D window →
  let rates := exchange_rate <$> window in
  ytd_min_rate y = np_round 8 (np_min rates) ∧
  ytd_max_rate y = np_round 8 (np_max rates) ∧
  ytd_first_rate y = np_round 8 (default f_zero (head rates)) ∧
  ytd_last_rate y = np_round 8 (default f_zero (last rates)).
Proof.
  unfold ytd_record. destruct (decide _); [|by intros ?%elem_of_nil].
  by intros ->%list_elem_of_singleton.
Qed.

Section YtdOrder.

Context {F : Type} {num : PyNum F}.

(** What the interface of the numbers leaves out: which numbers can be
    compared (those that are not missing) and their order. The minimum of two
    such numbers is below both and the maximum above both, and rounding to 8
    digits keeps the order. *)
Variable comparable : F → Prop.
Variable le : F → F → Prop.
Hypothesis le_refl : ∀ a, comparable a → le a a.
Hypothesis le_trans : ∀ a b c, le a b → le b c → le a c.
Hypothesis minimum_below : ∀ a b, comparable a → comparable b →
  comparable (np_minimum a b) ∧ le (np_minimum a b) a ∧ le (np_minimum a b) b.
Hypothesis maximum_above : ∀ a b, comparable a → comparable b →
  comparable (np_maximum a b) ∧ le a (np_maximum a b) ∧ le b (np_maximum a b).
Hypothesis round_mono : ∀ a b, le a b → le (np_round 8 a) (np_round 8 b).

Lemma foldl_minimum_below (x : F) (l : list F) (z : F) :
  comparable x → Forall comparable l → z ∈ x :: l →
  comparable (foldl np_minimum x l) ∧ le (foldl np_minimum x l) z.
Proof.
  revert x z. induction l as [|a l IH]; intros x z Hx Hl Hz; simpl.
  - apply list_elem_of_singleton in Hz as ->. split; [done|by apply le_refl].
  - apply Forall_cons in Hl as [Ha Hl].
    destruct (minimum_below x a Hx Ha) as (Hc & Hcx & Hca).
    destruct (IH (np_minimum x a) (np_minimum x a) Hc Hl) as [Hok Hle]; [left|].
    split; [done|].
    apply elem_of_cons in Hz as [->|Hz]; [by apply (le_trans _ (np_minimum x a))|].
    apply elem_of_cons in Hz as [->|Hz]; [by apply (le_trans _ (np_minimum x a))|].
    apply IH; [done..|by right].
Qed.

Lemma foldl_maximum_above (x : F) (l : list F) (z : F) :
  comparable x → Forall comparable l → z ∈ x :: l →
  comparable (foldl np_maximum x l) ∧ le z (foldl np_maximum x l).
Proof.
  revert x z. induction l as [|a l IH]; intros x z Hx Hl Hz; simpl.
  - apply list_elem_of_singleton in Hz as ->. split; [done|by apply le_refl].
  - apply Forall_cons in Hl as [Ha Hl].
    destruct (maximum_above x a Hx Ha) as (Hc & Hcx & Hca).
    destruct (IH (np_maximum x a) (np_maximum x a) Hc Hl) as [Hok Hle]; [left|].
    split; [done|].
    apply elem_of_cons in Hz as [->|Hz]; [by apply (le_trans _ (np_maximum x a))|].
    apply elem_of_cons in Hz as [->|Hz]; [by apply (le_trans _ (np_maximum x a))|].
    apply IH; [done..|by right].
Qed.

(** X9. When no rate of the input is missing, every YTD record has its
    minimum below its first and its last rate, and these below its maximum:
    the minimum and the maximum are taken among the rates of the window, and
    rounding to 8 digits keeps the order. The average is left out: it is a
    rounded sum, and nothing keeps it between the two. *)
Theorem ytd_min_max_bounds (df : list (CrossRow F)) y :
  (∀ r, r ∈ df → comparable (exchange_rate r)) →
  y ∈ calculate_ytd_metrics df →
  le (ytd_min_rate y) (ytd_first_rate y) ∧
  le (ytd_first_rate y) (ytd_max_rate y) ∧
  le (ytd_min_rate y) (ytd_last_rate y) ∧
  le (ytd_last_rate y) (ytd_max_rate y) ∧
  le (ytd_min_rate y) (ytd_max_rate y).
Proof.
  intros Hfin (row & Hrow & Hy)%elem_of_calculate_ytd_metrics.
  pose proof (row_in_own_window df row Hrow) as Hin.
  apply ytd_record_rates in Hy as (-> & -> & -> & ->).
  set (window := ytd_window_of df (pair_key row) (rate_date row)) in *.
  assert (Forall comparable (exchange_rate <$> window)) as Hok.
  { apply Forall_forall. intros x (r & -> & Hr)%list_elem_of_fmap. apply Hfin.
    by apply elem_of_ytd_window_of in Hr as [? _]. }
  destruct (exchange_rate <$> window) as [|a l] eqn:Hrates.
  { destruct window; [by apply elem_of_nil in Hin|discriminate]. }
  apply Forall_cons in Hok as [Ha Hl].
  assert (∃ z, last (a :: l) = Some z ∧ z ∈ a :: l) as (z & Hlast & Hz).
  { destruct (last (a :: l)) as [z|] eqn:Hlast.
    - exists z. split; [done|]. rewrite last_lookup in Hlast.
      by apply list_elem_of_lookup_2 in Hlast.
    - by apply last_None in Hlast. }
  rewrite Hlast. cbn [head default np_min np_max].
  destruct (foldl_minimum_below a l a Ha Hl) as [_ Hmin_a]; [left|].
  destruct (foldl_minimum_below a l z Ha Hl Hz) as [_ Hmin_z].
  destruct (foldl_maximum_above a l a Ha Hl) as [_ Hmax_a]; [left|].
  destruct (foldl_maximum_above a l z Ha Hl Hz) as [_ Hmax_z].
  split_and!; apply round_mono; try done.
  by apply (le_trans _ a).
Qed.

End YtdOrder.

(** ** The stage without the database *)

Section StageWithoutDatabase.

Context {F : Type} {num : PyNum F}.
Implicit Types (w : World F) (env : Env).

Lemma files_alike_ret {A} (a : A) : files_alike (F:=F) (ret a) (ret a).
Proof. by intros w1 w2 Hw. Qed.

Lemma files_alike_seq {A B} (m1 m2 : M F A) (k1 k2 : A → M F B) :
  files_alike m1 m2 → (∀ a, files_alike (k1 a) (k2 a)) →
  files_alike (seq m1 k1) (seq m2 k2).
Proof.
  intros Hm Hk w1 w2 Hw. unfold seq.
  destruct (Hm w1 w2 Hw) as [Hr Hw'].
  destruct (m1 w1) as [[a1|e1] w1'], (m2 w2) as [[a2|e2] w2'];
    simpl in Hr, Hw'; simplify_eq; [by apply Hk|done].
Qed.

Lemma files_alike_try_except {A} (m1 m2 : M F A) (h1 h2 : string → M F A) :
  files_alike m1 m2 → (∀ e, files_alike (h1 e) (h2 e)) →
  files_alike (try_except m1 h1) (try_except m2 h2).
Proof.
  intros Hm Hh w1 w2 Hw. unfold try_except.
  destruct (Hm w1 w2 Hw) as [Hr Hw'].
  destruct (m1 w1) as [[a1|e1] w1'], (m2 w2) as [[a2|e2] w2'];
    simpl in Hr, Hw'; simplify_eq; [done|by apply Hh].
Qed.

Lemma files_alike_try_finally {A} (m1 m2 : M F A) (f1 f2 : M F unit) :
  files_alike m1 m2 → files_kept f1 → files_kept f2 →
  files_alike (try_finally m1 f1) (try_finally m2 f2).
Proof.
  intros Hm Hf1 Hf2 w1 w2 Hw. unfold try_finally.
  destruct (Hm w1 w2 Hw) as [Hr Hw'].
  destruct (m1 w1) as [r1 w1'], (m2 w2) as [r2 w2']. simpl in Hr, Hw'. subst r2.
  destruct (Hf1 w1') as [Hr1 Hk1], (Hf2 w2') as [Hr2 Hk2].
  destruct (f1 w1') as [[[]|e1] w1''], (f2 w2') as [[[]|e2] w2''];
    simpl in *; simplify_eq. by rewrite Hk1, Hk2.
Qed.

Lemma files_alike_kept (m1 m2 : M F unit) :
  files_kept m1 → files_kept m2 → files_alike m1 m2.
Proof.
  intros H1 H2 w1 w2 Hw. destruct (H1 w1) as [-> ->], (H2 w2) as [-> ->]. done.
Qed.

Lemma files_kept_log_execution env step st rows error duration :
  files_kept (F:=F) (log_execution env step st rows error duration).
Proof.
  intros w.
  destruct (log_execution_returns env step st rows error duration w)
    as (w' & -> & Hf & _). done.
Qed.

Lemma files_kept_when_connection (m : M F unit) :
  files_kept m → files_kept (λ w, when (connection w) m w).
Proof. intros Hm w. destruct (connection w); simpl; [apply Hm|done]. Qed.

Lemma files_kept_connect env (msg : string) step st :
  files_kept (F:=F)
    (try_except
       (seq (get_db_connection env) (λ _, log_execution env step st 0 None None))
       (λ e, logger_warning msg)).
Proof.
  intros w. unfold try_except, seq, get_db_connection, lift, logger_warning.
  destruct (db_connect env) as [[]|e]; simpl; [|done].
  match goal with |- context [log_execution ?e ?a ?b ?c ?d ?f ?w0] =>
    destruct (log_execution_returns e a b c d f w0) as (w' & -> & Hf & _) end.
  done.
Qed.

Lemma files_kept_close :
  files_kept (F:=F) (λ w, when (connection w) connection_close w).
Proof. intros w. by destruct (connection w). Qed.

Lemma files_alike_validate_config env c f :
  files_alike (F:=F) (validate_config env) (validate_config (with_database env c f)).
Proof.
  intros w1 w2 Hw. unfold validate_config, raise, seq, lift, ret. simpl.
  repeat case_decide; try done. by destruct (makedirs env).
Qed.

Lemma files_alike_load_extracted_data path :
  files_alike (F:=F) (load_extracted_data path) (load_extracted_data path).
Proof. intros w1 w2 Hw. unfold load_extracted_data. simpl. by rewrite Hw. Qed.

Lemma files_alike_lift {A} (o : outcome A) : files_alike (F:=F) (lift o) (lift o).
Proof. by intros w1 w2 Hw. Qed.

Lemma files_alike_save_to_csv env c f content path :
  files_alike (F:=F) (save_to_csv env content path)
    (save_to_csv (with_database env c f) content path).
Proof.
  intros w1 w2 Hw. unfold save_to_csv. simpl.
  destruct (writable env path); simpl; [|done]. by rewrite Hw.
Qed.

Lemma files_alike_main_body env c f ip oc oy :
  files_alike (F:=F) (main_body env ip oc oy) (main_body (with_database env c f) ip oc oy).
Proof.
  unfold main_body.
  apply files_alike_seq; [apply files_alike_validate_config|intros _].
  apply files_alike_seq; [apply files_alike_kept; apply files_kept_connect|intros _].
  apply files_alike_seq; [apply files_alike_load_extracted_data|intros df_raw].
  apply files_alike_seq; [apply files_alike_lift|intros df_cross].
  apply files_alike_seq; [apply files_alike_save_to_csv|intros _].
  apply files_alike_seq; [apply files_alike_save_to_csv|intros _].
  apply files_alike_seq; [|intros _; apply files_alike_ret].
  apply files_alike_kept; apply files_kept_when_connection, files_kept_log_execution.
Qed.

(** X10. The transformation does not need the database: its exit status
    and the files it leaves are the same whether the database can be
    reached or not, whatever the audit table does, and whatever the audit
    log and the connection were before. *)
Theorem transform_main_without_database env c f ip oc oy w1 w2 :
  files w1 = files w2 →
  (main env ip oc oy w1).1 = (main (with_database env c f) ip oc oy w2).1 ∧
  files (main env ip oc oy w1).2 = files (main (with_database env c f) ip oc oy w2).2.
Proof.
  intros Hw. unfold main.
  apply files_alike_try_finally; [|apply files_kept_close..|done].
  apply files_alike_try_except; [apply files_alike_main_body|intros e].
  apply files_alike_seq; [|intros _; apply files_alike_ret].
  apply files_alike_kept; apply files_kept_when_connection, files_kept_log_execution.
Qed.

(** ** The exit status and the connection *)

Lemma main_body_connection env ip oc oy w r w1 :
  main_body env ip oc oy w = (r, w1) →
  connection w = false →
  closed w1 = closed w ∧
  (connection w1 = true → db_connect env = Ret ()) ∧
  (∀ code, r = Ret code → code = 0%Z).
Proof.
  unfold main_body, seq at 1. intros Hbody Hc.
  assert ((validate_config env w).2 = w) as Hv.
  { unfold validate_config, raise, seq, lift, ret.
    repeat case_decide; try done. by destruct (makedirs env). }
  destruct (validate_config env w) as [[b|e] wv]; simpl in Hv; subst wv.
  2:{ injection Hbody as <- <-. split_and!; [done|by rewrite Hc|done]. }
  revert Hbody. unfold seq at 1.
  set (connect := try_except _ _).
  assert (∃ wc, connect w = (Ret (), wc) ∧ files wc = files w ∧ closed wc = closed w ∧
                (connection wc = true → db_connect env = Ret ())) as (wc & -> & Hfc & Hcc & Hconn).
  { unfold connect, try_except, seq, get_db_connection, lift, logger_warning.
    destruct (db_connect env) as [[]|e]; simpl.
    - match goal with |- context [log_execution ?e ?a ?b ?c ?d ?f ?w0] =>
        destruct (log_execution_returns e a b c d f w0)
          as (w' & -> & Hf & Hc' & Hcl & _) end.
      by exists w'.
    - eexists. split; [done|]. simpl. by rewrite Hc. }
  unfold seq at 1, load_extracted_data.
  destruct (read_csv (files wc) _) as [df_raw|e].
  2:{ intros [= <- <-]. done. }
  unfold seq at 1, lift.
  destruct (calculate_cross_pairs df_raw) as [df_cross|e].
  2:{ intros [= <- <-]. done. }
  unfold seq at 1, save_to_csv at 1.
  destruct (writable env _).
  2:{ intros [= <- <-]. done. }
  unfold seq at 1, save_to_csv at 1. simpl.
  destruct (writable env _).
  2:{ intros [= <- <-]. done. }
  unfold seq at 1.
  match goal with |- context [when ?c0 (log_execution ?e ?a ?b ?c ?d ?f) ?v] =>
    assert (∃ w2, when c0 (log_execution e a b c d f) v = (Ret (), w2) ∧
                  connection w2 = connection v ∧ closed w2 = closed v)
      as (w2 & -> & Hc2 & Hcl2) end.
  { simpl. destruct (connection wc); simpl; [|by eexists].
    match goal with |- context [log_execution ?e ?a ?b ?c ?d ?f ?w0] =>
      destruct (log_execution_returns e a b c d f w0)
        as (w' & -> & Hf & Hc' & Hcl & _) end.
    by exists w'. }
  intros [= <- <-]. simpl in *. rewrite Hc2, Hcl2.
  split_and!; [done..|]. by intros code [= <-].
Qed.

(** X11. [main] never raises: it returns 0 or 1, and a connection it has
    opened is closed when it returns. It opens one only when the database
    can be reached. *)
Theorem transform_main_returns_and_closes env ip oc oy w :
  ∃ code w', main env ip oc oy w = (Ret code, w') ∧
    (code = 0 ∨ code = 1)%Z ∧
    (connection w' = true → closed w' = true ∧ db_connect env = Ret ()) ∧
    (connection w' = false → closed w' = closed w).
Proof.
  set (w0 := mkWorld (files w) (execution_log w) (warnings w) false (closed w)).
  destruct (main_body env ip oc oy w0) as [r w1] eqn:Hbody.
  destruct (main_body_connection env ip oc oy w0 r w1 Hbody eq_refl)
    as (Hcl & Hconn & Hcode).
  unfold main, try_finally, try_except. fold w0. rewrite Hbody.
  destruct r as [code|e].
  - rewrite (Hcode code eq_refl).
    destruct (connection w1) eqn:Hc1; simpl.
    + eexists _, _. split; [done|]. simpl.
      split_and!; [by left|intros _; split; [done|by apply Hconn]|by rewrite Hc1].
    + exists 0%Z, w1. split; [done|].
      split_and!; [by left|by rewrite Hc1|intros _; exact Hcl].
  - unfold seq.
    assert (∃ w2, when (connection w1)
                    (log_execution env "transform" "failed" 0 (Some e) None) w1
                  = (Ret (), w2) ∧ connection w2 = connection w1 ∧ closed w2 = closed w1)
      as (w2 & -> & Hc2 & Hcl2).
    { destruct (connection w1) eqn:Hc1; simpl; [|by exists w1].
      match goal with |- context [log_execution ?e ?a ?b ?c ?d ?f ?w0] =>
        destruct (log_execution_returns e a b c d f w0)
          as (w' & -> & Hf & Hc' & Hcl' & _) end.
      exists w'. split_and!; [done|congruence|done]. }
    unfold ret.
    destruct (connection w2) eqn:Hc; simpl.
    + eexists _, _. split; [done|]. simpl.
      split_and!; [by right|intros _; split; [done|apply Hconn; congruence]|by rewrite Hc].
    + exists 1%Z, w2. split; [done|].
      split_and!; [by right|by rewrite Hc|intros _; rewrite Hcl2; exact Hcl].
Qed.

End StageWithoutDatabase.

(** ** The audit trail *)

Section AuditTrail.

Context {F : Type} {num : PyNum F}.
Implicit Types (w : World F) (env : Env).

Lemma main_body_audit env ip oc oy w r w1 :
  db_connect env = Ret () →
  (∀ log rec, db_insert env log rec = Ret (log ++ [rec])) →
  main_body env ip oc oy w = (r, w1) →
  let input_path := default (extract_output (config env)) ip in
  match (validate_config env w).1 with
  | Raise _ => (∃ e, r = Raise e) ∧ w1 = w
  | Ret _ =>
      connection w1 = true ∧
      ((∃ e, r = Raise e ∧
         execution_log w1
         = execution_log w ++ [mkAudit "transform" "running" 0 None None]) ∨
       (∃ df_raw df_cross,
          r = Ret 0%Z ∧
          read_csv (files w) input_path = Ret df_raw ∧
          calculate_cross_pairs df_raw = Ret df_cross ∧
          execution_log w1
          = execution_log w ++
              [mkAudit "transform" "running" 0 None None;
               mkAudit "transform" "success"
                 (length df_cross + length (calculate_ytd_metrics df_cross)) None
                 (Some (duration_cross env + duration_ytd env))]))
  end.
Proof.
  intros Hc Hi Hbody input_path. revert Hbody.
  unfold main_body. fold input_path. unfold seq at 1.
  assert ((validate_config env w).2 = w) as Hv.
  { unfold validate_config, raise, seq, lift, ret.
    repeat case_decide; try done. by destruct (makedirs env). }
  destruct (validate_config env w) as [[b|e] wv]; simpl in Hv; subst wv; simpl.
  2:{ intros [= <- <-]. split; [by eexists|done]. }
  unfold seq at 1, try_except, seq at 1, get_db_connection, seq at 1, lift.
  rewrite Hc. simpl. unfold log_execution at 1, try_except, insert_audit. rewrite Hi. simpl.
  unfold seq at 1, load_extracted_data. simpl.
  destruct (read_csv (files w) input_path) as [df_raw|e] eqn:Hread.
  2:{ intros [= <- <-]. split; [done|]. left. by eexists. }
  unfold seq at 1, lift.
  destruct (calculate_cross_pairs df_raw) as [df_cross|e] eqn:Hcross.
  2:{ intros [= <- <-]. split; [done|]. left. by eexists. }
  unfold seq at 1, save_to_csv at 1.
  destruct (writable env _).
  2:{ intros [= <- <-]. split; [done|]. left. by eexists. }
  unfold seq at 1, save_to_csv at 1. simpl.
  destruct (writable env _).
  2:{ intros [= <- <-]. split; [done|]. left. by eexists. }
  unfold seq, when, log_execution, try_except, insert_audit, ret; simpl. rewrite Hi.
  intros [= <- <-]. split; [done|]. right. exists df_raw, df_cross.
  split_and!; [done..|]. simpl. by rewrite <-(assoc_L (++)).
Qed.

(** X12. With a database that works, a run leaves two records in the audit
    table, [running] and then [success] or [failed], unless the
    configuration is not valid: then it leaves none, the connection being
    opened after the check. The [success] record counts twice the number of
    cross pairs: one YTD record is made for each of them. *)
Theorem transform_main_audit_trail env ip oc oy w :
  db_connect env = Ret () →
  (∀ log rec, db_insert env log rec = Ret (log ++ [rec])) →
  let result := main env ip oc oy w in
  let input_path := default (extract_output (config env)) ip in
  match (validate_config env w).1 with
  | Raise _ => result.1 = Ret 1%Z ∧ execution_log result.2 = execution_log w
  | Ret _ =>
      ∃ final,
        execution_log result.2
        = execution_log w ++ [mkAudit "transform" "running" 0 None None; final] ∧
        pipeline_step final = "transform" ∧
        ((result.1 = Ret 0%Z ∧ status final = "success" ∧ error_message final = None ∧
          duration_seconds final = Some (duration_cross env + duration_ytd env) ∧
          ∃ df_raw df_cross, read_csv (files w) input_path = Ret df_raw ∧
            calculate_cross_pairs df_raw = Ret df_cross ∧
            rows_processed final = 2 * length df_cross) ∨
         (result.1 = Ret 1%Z ∧ status final = "failed" ∧ rows_processed final = 0 ∧
          is_Some (error_message final) ∧ duration_seconds final = None))
  end.
Proof.
  intros Hc Hi result input_path.
  set (w0 := mkWorld (files w) (execution_log w) (warnings w) false (closed w)).
  assert ((validate_config env w0).1 = (validate_config env w).1) as Hv.
  { unfold validate_config, raise, seq, lift, ret.
    repeat case_decide; try done. by destruct (makedirs env). }
  destruct (main_body env ip oc oy w0) as [r w1] eqn:Hbody.
  pose proof (main_body_audit env ip oc oy w0 r w1 Hc Hi Hbody) as Haudit.
  simpl in Haudit. rewrite Hv in Haudit.
  unfold result, main, try_finally, try_except. fold w0. rewrite Hbody.
  destruct ((validate_config env w).1) as [b|e0].
  - destruct Haudit as [Hconn [(e & -> & Hlog)|(df_raw & df_cross & -> & Hread & Hcross & Hlog)]].
    + unfold seq, when, log_execution, try_except, insert_audit, ret. rewrite Hconn, Hi.
      simpl. rewrite Hlog, <-(assoc_L (++)). simpl.
      rewrite Hconn. simpl.
      eexists. split; [done|]. split; [done|]. right. split_and!; [done..|by eexists|done].
    + rewrite Hconn. simpl. rewrite Hlog.
      eexists. split; [done|]. split; [done|]. left. split_and!; [done..|].
      exists df_raw, df_cross. split_and!; [done..|]. simpl.
      pose proof (calculate_ytd_metrics_keys df_cross) as Hk.
      apply Permutation_length in Hk. rewrite !length_fmap in Hk. lia.
  - destruct Haudit as [[e ->] ->].
    unfold seq, when, ret. simpl. done.
Qed.

End AuditTrail.

(** * The extraction stage *)

Lemma Forall2_impl_elem_of {A B} (P Q : A → B → Prop) (l : list A) (k : list B) :
  Forall2 P l k → (∀ x y, x ∈ l → P x y → Q x y) → Forall2 Q l k.
Proof.
  induction 1 as [|x y l k Hxy Hlk IH]; intros HPQ; constructor.
  - apply HPQ; [left|done].
  - apply IH. intros x' y' Hx'. apply HPQ. by right.
Qed.

Section ExtractFacts.

Context {F : Type} {num : PyNum F}.
Implicit Types (w : World F) (env : Env) (api : Extract.Api F).

Lemma elem_of_build_records (rates : list (string * list (string * F))) r :
  r ∈ Extract.build_records rates ↔
  ∃ date_str rs currency rate,
    (date_str, rs) ∈ rates ∧ (currency, rate) ∈ rs ∧
    r = Extract.mkRecord date_str "EUR" currency rate.
Proof.
  unfold Extract.build_records. rewrite list_elem_of_bind. split.
  - intros ([date_str rs] & Hr & Hentry). apply list_elem_of_bind in Hr as ([c x] & Hr & Hitem).
    apply list_elem_of_singleton in Hr. by exists date_str, rs, c, x.
  - intros (date_str & rs & c & x & Hentry & Hitem & ->).
    exists (date_str, rs). split; [|done]. apply list_elem_of_bind.
    exists (c, x). split; [|done]. by apply list_elem_of_singleton.
Qed.

Lemma length_build_records (rates : list (string * list (string * F))) :
  length (Extract.build_records rates) = sum_list (length ∘ snd <$> rates).
Proof.
  unfold Extract.build_records. induction rates as [|[d rs] rates IH]; [done|].
  rewrite bind_cons, length_app, IH. simpl. f_equal.
  induction rs as [|x rs IHrs]; [done|]. by rewrite bind_cons, length_app, IHrs.
Qed.

Lemma to_frame_Ret api records df :
  Extract.to_frame api records = Ret df →
  records ≠ [] ∧
  Forall2 (λ r row, Extract.to_datetime api (Extract.rec_rate_date r) = Ret (rate_date row) ∧
                    base_currency row = Extract.rec_base_currency r ∧
                    quote_currency row = Extract.rec_quote_currency r ∧
                    exchange_rate row = Extract.rec_exchange_rate r) records df.
Proof.
  unfold Extract.to_frame. intros Hdf.
  assert (gather (Extract.row_of_record api) records = Ret df ∧ records ≠ []) as [Hg Hne]
    by (by destruct records).
  split; [done|]. clear Hdf Hne. revert df Hg.
  induction records as [|r records IH]; intros df Hg; simpl in Hg.
  - injection Hg as <-. constructor.
  - unfold Extract.row_of_record in Hg at 1.
    destruct (Extract.to_datetime api _) as [d|e] eqn:Hd; [|done]. simpl in Hg.
    destruct (gather _ records) as [rows|e]; [|done]. simpl in Hg.
    injection Hg as <-. constructor; [done|]. by apply IH.
Qed.

Lemma extract_fx_data_Ret api start_date end_date df duration :
  Extract.extract_fx_data api start_date end_date = Ret (df, duration) →
  ∃ url symbols response rates,
    Extract.requests_get api url symbols = Ret response ∧
    ¬ (400 ≤ Extract.status_code response < 600)%nat ∧
    Extract.json response = Ret (Some rates) ∧
    Extract.to_frame api (Extract.build_records rates) = Ret df ∧
    duration = Extract.duration_extract api.
Proof.
  unfold Extract.extract_fx_data, Extract.raise_for_status.
  destruct (Extract.requests_get api _ _) as [response|e] eqn:Hget; [|done]. simpl.
  destruct (decide _) as [|Hok]; [done|]. simpl.
  destruct (Extract.json response) as [[rates|]|e] eqn:Hjson; [|done..]. simpl.
  destruct (Extract.to_frame api _) as [df'|e] eqn:Hframe; [|done]. simpl.
  intros [= <- <-]. by eexists _, _, response, rates.
Qed.

(** X13. When the extraction returns, the answer was not an error and its
    frame holds one row for each rate of the answer, in the order of the
    answer, with base EUR, the currency and the rate as they came and the
    date read by pandas. No rate is dropped: the currencies are not
    compared to [CURRENCIES], and the frame is not empty. *)
Theorem extract_one_row_per_rate api start_date end_date df duration :
  Extract.extract_fx_data api start_date end_date = Ret (df, duration) →
  ∃ url symbols response rates,
    Extract.requests_get api url symbols = Ret response ∧
    (Extract.status_code response < 400 ∨ 600 ≤ Extract.status_code response)%nat ∧
    Extract.json response = Ret (Some rates) ∧
    Forall2 (λ r row, Extract.to_datetime api (Extract.rec_rate_date r) = Ret (rate_date row) ∧
                      base_currency row = "EUR" ∧
                      quote_currency row = Extract.rec_quote_currency r ∧
                      exchange_rate row = Extract.rec_exchange_rate r)
      (Extract.build_records rates) df ∧
    length df = sum_list (length ∘ snd <$> rates) ∧
    (0 < length df)%nat.
Proof.
  intros (url & symbols & response & rates & Hget & Hok & Hjson & Hframe & _)%extract_fx_data_Ret.
  exists url, symbols, response, rates.
  apply to_frame_Ret in Hframe as [Hne Hrows].
  assert (length df = length (Extract.build_records rates)) as Hlen
    by (symmetry; by eapply Forall2_length).
  split_and!.
  - done.
  - lia.
  - done.
  - eapply Forall2_impl_elem_of; [exact Hrows|].
    intros r row Hr (Hd & Hb & Hq & Hx). split_and!; [done| |done..].
    apply elem_of_build_records in Hr as (? & ? & ? & ? & _ & _ & ->). done.
  - by rewrite Hlen, length_build_records.
  - rewrite Hlen. destruct (Extract.build_records rates); [done|simpl; lia].
Qed.

(** X14. An answer without a rate makes the extraction raise [KeyError],
    whether the object [rates] is missing, empty, or holds dates that have
    no currency: the frame of no record has no column [rate_date]. *)
Theorem extract_no_rate_raises api start_date end_date :
  (∀ url symbols, ∃ response,
     Extract.requests_get api url symbols = Ret response ∧
     (Extract.status_code response < 400)%nat ∧
     ∃ data, Extract.json response = Ret data ∧
       ∀ rates, data = Some rates → ∀ entry, entry ∈ rates → entry.2 = []) →
  Extract.extract_fx_data api start_date end_date = Raise "KeyError".
Proof.
  intros Hapi. unfold Extract.extract_fx_data, Extract.raise_for_status.
  match goal with |- context [Extract.requests_get api ?u ?s] =>
    destruct (Hapi u s) as (response & -> & Hok & data & Hjson & Hempty) end.
  simpl. rewrite decide_False by lia. simpl. rewrite Hjson. simpl.
  destruct data as [rates|]; [|done]. simpl.
  assert (Extract.build_records rates = []) as ->; [|done].
  specialize (Hempty rates eq_refl). clear -Hempty. unfold Extract.build_records.
  induction rates as [|entry rates IH]; [done|].
  rewrite bind_cons, (Hempty entry) by left. simpl. apply IH.
  intros e He. apply Hempty. by right.
Qed.

Lemma extract_main_body_result env api sd ed op w r w1 :
  Extract.main_body env api sd ed op w = (r, w1) →
  let start_date := default (START_DATE (config env)) sd in
  let output_path := default (extract_output (config env)) op in
  match (validate_config env w).1 with
  | Raise e => r = Raise e ∧ files w1 = files w
  | Ret _ =>
      match Extract.extract_fx_data api start_date ed with
      | Raise e => r = Raise e ∧ files w1 = files w
      | Ret (df, _) =>
          if writable env output_path
          then r = Ret 0%Z ∧
               files w1 = <[output_path := ExtractedCsv (Extract.raw_row <$> df)]> (files w)
          else r = Raise "OSError" ∧ files w1 = files w
      end
  end.
Proof.
  intros Hbody start_date output_path. revert Hbody.
  unfold Extract.main_body. fold start_date output_path. unfold seq at 1.
  assert ((validate_config env w).2 = w) as Hv.
  { unfold validate_config, raise, seq, lift, ret.
    repeat case_decide; try done. by destruct (makedirs env). }
  destruct (validate_config env w) as [[b|e] wv]; simpl in Hv; subst wv; simpl.
  2:{ by intros [= <- <-]. }
  unfold seq at 1.
  match goal with |- context [try_except ?a ?h w] =>
    destruct (files_kept_connect env "Impossible de se connecter a la DB pour les logs"
                "extract" "running" w) as [Hr Hf];
    destruct (try_except a h w) as [rc wc] end.
  simpl in Hr, Hf. subst rc.
  unfold seq at 1, lift.
  destruct (Extract.extract_fx_data api start_date ed) as [[df duration]|e].
  2:{ by intros [= <- <-]. }
  unfold seq at 1, Extract.save_to_csv, save_to_csv. simpl.
  destruct (writable env output_path).
  2:{ by intros [= <- <-]. }
  unfold seq at 1.
  match goal with |- context [when ?c0 (log_execution ?e ?a ?b ?c ?d ?f) ?v] =>
    destruct (files_kept_when_connection _
                (files_kept_log_execution e a b c d f) v) as [Hr2 Hf2];
    cbv beta in Hr2, Hf2;
    destruct (when c0 (log_execution e a b c d f) v) as [r2 w2] end.
  simpl in Hr2, Hf2. subst r2.
  intros [= <- <-]. by rewrite Hf2, Hf.
Qed.

Lemma extract_main_of_body env api sd ed op w r w1 :
  Extract.main_body env api sd ed op
    (mkWorld (files w) (execution_log w) (warnings w) false (closed w)) = (r, w1) →
  (Extract.main env api sd ed op w).1
    = Ret (match r with Ret code => code | Raise _ => 1%Z end) ∧
  files (Extract.main env api sd ed op w).2 = files w1.
Proof.
  intros Hbody. unfold Extract.main, try_finally, try_except. rewrite Hbody.
  destruct r as [code|e].
  - destruct (files_kept_close (F:=F) w1) as [Hr Hf].
    destruct (when (connection w1) connection_close w1) as [rc wc].
    simpl in Hr, Hf. by subst rc.
  - unfold seq.
    match goal with |- context [when ?c0 (log_execution ?e ?a ?b ?c ?d ?f) ?v] =>
      destruct (files_kept_when_connection _
                  (files_kept_log_execution e a b c d f) v) as [Hr2 Hf2];
      cbv beta in Hr2, Hf2;
      destruct (when c0 (log_execution e a b c d f) v) as [r2 w2] end.
    simpl in Hr2, Hf2. subst r2. unfold ret.
    destruct (files_kept_close (F:=F) w2) as [Hr Hf].
    destruct (when (connection w2) connection_close w2) as [rc wc].
    simpl in Hr, Hf. subst rc. simpl. by rewrite Hf.
Qed.

Lemma extract_main_result env api sd ed op w :
  let start_date := default (START_DATE (config env)) sd in
  let output_path := default (extract_output (config env)) op in
  let result := Extract.main env api sd ed op w in
  match (validate_config env w).1 with
  | Raise e => result.1 = Ret 1%Z ∧ files result.2 = files w
  | Ret _ =>
      match Extract.extract_fx_data api start_date ed with
      | Raise e => result.1 = Ret 1%Z ∧ files result.2 = files w
      | Ret (df, _) =>
          if writable env output_path
          then result.1 = Ret 0%Z ∧
               files result.2
               = <[output_path := ExtractedCsv (Extract.raw_row <$> df)]> (files w)
          else result.1 = Ret 1%Z ∧ files result.2 = files w
      end
  end.
Proof.
  intros start_date output_path result.
  set (w0 := mkWorld (files w) (execution_log w) (warnings w) false (closed w)).
  assert ((validate_config env w0).1 = (validate_config env w).1) as Hv.
  { unfold validate_config, raise, seq, lift, ret.
    repeat case_decide; try done. by destruct (makedirs env). }
  destruct (Extract.main_body env api sd ed op w0) as [r w1] eqn:Hbody.
  destruct (extract_main_of_body env api sd ed op w r w1 Hbody) as [Hr Hf].
  apply extract_main_body_result in Hbody. simpl in Hbody. rewrite Hv in Hbody.
  fold start_date output_path in Hbody.
  unfold result. rewrite Hr, Hf.
  destruct ((validate_config env w).1) as [b|e0].
  - destruct (Extract.extract_fx_data api start_date ed) as [[df duration]|e].
    + destruct (writable env output_path); by destruct Hbody as [-> ->].
    + by destruct Hbody as [-> ->].
  - by destruct Hbody as [-> ->].
Qed.

Lemma extract_main_zero env api sd ed op w :
  (Extract.main env api sd ed op w).1 = Ret 0%Z →
  ∃ df duration,
    Extract.extract_fx_data api (default (START_DATE (config env)) sd) ed
      = Ret (df, duration) ∧
    files (Extract.main env api sd ed op w).2
    = <[default (extract_output (config env)) op
          := ExtractedCsv (Extract.raw_row <$> df)]> (files w).
Proof.
  pose proof (extract_main_result env api sd ed op w) as Hres. simpl in Hres.
  intros Hzero. rewrite Hzero in Hres.
  destruct ((validate_config env w).1) as [b|e0]; [|by destruct Hres].
  destruct (Extract.extract_fx_data api _ ed) as [[df duration]|e]; [|by destruct Hres].
  destruct (writable env _); [|by destruct Hres].
  destruct Hres as [_ Hf]. by exists df, duration.
Qed.

(** X15. The extraction stage returns 1 and leaves the files as they are
    when the configuration is not valid, when the request or the reading of
    its answer raises, and when the output cannot be written; otherwise it
    returns 0 and the output holds the rows extracted. No case raises. *)
Theorem extract_main_status env api sd ed op w :
  let start_date := default (START_DATE (config env)) sd in
  let output_path := default (extract_output (config env)) op in
  let result := Extract.main env api sd ed op w in
  match (validate_config env w).1, Extract.extract_fx_data api start_date ed with
  | Ret _, Ret (df, _) =>
      if writable env output_path
      then result.1 = Ret 0%Z ∧
           files result.2 = <[output_path := ExtractedCsv (Extract.raw_row <$> df)]> (files w)
      else result.1 = Ret 1%Z ∧ files result.2 = files w
  | _, _ => result.1 = Ret 1%Z ∧ files result.2 = files w
  end.
Proof.
  intros start_date output_path result.
  pose proof (extract_main_result env api sd ed op w) as Hres. simpl in Hres.
  fold start_date output_path result in Hres.
  destruct ((validate_config env w).1) as [b|e0]; [done|].
  by destruct (Extract.extract_fx_data api start_date ed) as [[df duration]|e].
Qed.

(** X16. What the extraction writes is what the transformation reads: when
    the extraction stage has returned 0 with its default output, the
    transformation stage finds at its default input the rows extracted, a
    frame that is not empty. *)
Theorem extract_then_load_extracted env api sd ed w :
  (Extract.main env api sd ed None w).1 = Ret 0%Z →
  ∃ df duration,
    Extract.extract_fx_data api (default (START_DATE (config env)) sd) ed
      = Ret (df, duration) ∧
    (load_extracted_data (default (extract_output (config env)) None)
       (Extract.main env api sd ed None w).2).1 = Ret (Extract.raw_row <$> df) ∧
    df ≠ [].
Proof.
  intros (df & duration & Hx & Hf)%extract_main_zero.
  exists df, duration. split; [done|]. split.
  - unfold load_extracted_data, read_csv. simpl. by rewrite Hf, lookup_insert_eq.
  - apply extract_fx_data_Ret in Hx as (_ & _ & _ & rates & _ & _ & _ & Hframe & _).
    apply to_frame_Ret in Hframe as [Hne Hrows]. intros ->.
    apply Forall2_nil_inv_r in Hrows. done.
Qed.

End ExtractFacts.

(** * The orchestration *)

Section RunPipelineFacts.

Context {S : Type}.
Implicit Types (host : RunPipeline.Host S) (st : RunPipeline.Run S).

Import RunPipeline.

(** X17. The loop runs the commands of the steps in order and stops at the
    first that does not exit with 0: the commands run are the commands of a
    prefix of the steps, every one but the last has exited with 0, and the
    exit status is 0 exactly when every step was run and exited with 0. When
    the status is 1 the last command run exited with another code, and the
    loop raises only when a command could not be started. *)
Theorem run_steps_stops_at_first_failure host (steps : list Step) st :
  ∃ ran last_run,
    history (run_steps host steps st).2 = history st ++ ran ++ last_run ∧
    (ran ++ last_run).*1 `prefix_of` step_command host <$> steps ∧
    Forall (λ c, c.2 = Exited 0) ran ∧
    match (run_steps host steps st).1 with
    | Ret code =>
        (code = 0%Z ∧ last_run = [] ∧ length ran = length steps) ∨
        (code = 1%Z ∧ ∃ cmd rc, last_run = [(cmd, Exited rc)] ∧ rc ≠ 0%Z)
    | Raise e => ∃ cmd, last_run = [(cmd, NotStarted e)]
    end.
Proof.
  revert st. induction steps as [|[[[script n] name] args] steps' IH]; intros st.
  - exists [], []. simpl. rewrite app_nil_r. split_and!; [done..|by left].
  - simpl. unfold run_step.
    destruct (subprocess_run host _ (world st)) as [[code|e] s] eqn:Hrun.
    + destruct (bool_decide_reflect (code = 0%Z)) as [->|Hne].
      * destruct (IH (mkRun s (history st ++ [(command host script args, Exited 0)])))
          as (ran & last_run & Hh & Hp & Hz & Hr).
        exists ((command host script args, Exited 0) :: ran), last_run.
        split_and!.
        -- rewrite Hh. simpl. by rewrite <-(assoc_L (++)).
        -- simpl. by apply prefix_cons.
        -- by constructor.
        -- destruct (run_steps host steps' _).1 as [c|e]; [|done].
           destruct Hr as [(-> & -> & Hlen)|Hr]; [left|by right].
           split_and!; [done..|]. simpl. by rewrite Hlen.
      * exists [], [(command host script args, Exited code)]. simpl.
        split_and!; [done|by apply prefix_cons, prefix_nil|done|].
        right. split; [done|]. by eexists _, _.
    + exists [], [(command host script args, NotStarted e)]. simpl.
      split_and!; [done|by apply prefix_cons, prefix_nil|done|]. by eexists.
Qed.

Lemma run_pipeline_main_zero host st :
  let python script := [sys_executable host; path_join "scripts" script] in
  (main host st).1 = Ret 0%Z ↔
  ∃ s1 s2 s3,
    subprocess_run host (python "extract.py") (world st) = (Exited 0, s1) ∧
    subprocess_run host (python "transform.py") s1 = (Exited 0, s2) ∧
    subprocess_run host (python "load.py") s2 = (Exited 0, s3) ∧
    (main host st).2
    = mkRun s3 (history st ++ [(python "extract.py", Exited 0)] ++
                  [(python "transform.py", Exited 0)] ++ [(python "load.py", Exited 0)]).
Proof.
  intros python. unfold main, steps, run_steps, run_step, command.
  fold (python "extract.py") (python "transform.py") (python "load.py").
  split.
  - destruct (subprocess_run host (python "extract.py") (world st)) as [[c1|e1] s1] eqn:H1;
      [|done].
    destruct (bool_decide_reflect (c1 = 0%Z)) as [->|Hne]; [|done]. cbn [world history].
    destruct (subprocess_run host (python "transform.py") s1) as [[c2|e2] s2] eqn:H2; [|done].
    destruct (bool_decide_reflect (c2 = 0%Z)) as [->|Hne]; [|done]. cbn [world history].
    destruct (subprocess_run host (python "load.py") s2) as [[c3|e3] s3] eqn:H3; [|done].
    destruct (bool_decide_reflect (c3 = 0%Z)) as [->|Hne]; [|done]. cbn [world history].
    intros _. exists s1, s2, s3. split_and!; [done..|].
    cbn [snd]. by rewrite <-!(assoc_L (++)).
  - intros (s1 & s2 & s3 & H1 & H2 & H3 & _).
    rewrite H1. rewrite bool_decide_true by done. cbn [world history].
    rewrite H2. rewrite bool_decide_true by done. cbn [world history].
    rewrite H3. by rewrite bool_decide_true by done.
Qed.

(** X18. The pipeline exits with 0 exactly when the extraction, the
    transformation and the loading were run, in that order, each on the
    world the one before has left, and each has exited with 0. *)
Theorem pipeline_main_exit_status host st :
  let python script := [sys_executable host; path_join "scripts" script] in
  (main host st).1 = Ret 0%Z ↔
  ∃ s1 s2 s3,
    subprocess_run host (python "extract.py") (world st) = (Exited 0, s1) ∧
    subprocess_run host (python "transform.py") s1 = (Exited 0, s2) ∧
    subprocess_run host (python "load.py") s2 = (Exited 0, s3) ∧
    world (main host st).2 = s3 ∧
    (history (main host st).2).*1
    = (history st).*1 ++ [python "extract.py"; python "transform.py"; python "load.py"].
Proof.
  intros python. split.
  - intros (s1 & s2 & s3 & H1 & H2 & H3 & ->)%run_pipeline_main_zero. exists s1, s2, s3.
    split_and!; [done..|]. cbn [history]. by rewrite fmap_app.
  - intros (s1 & s2 & s3 & H1 & H2 & H3 & _).
    unfold main, steps, run_steps, run_step, command.
    fold (python "extract.py") (python "transform.py") (python "load.py").
    rewrite H1. rewrite bool_decide_true by done. cbn [world history].
    rewrite H2. rewrite bool_decide_true by done. cbn [world history].
    rewrite H3. by rewrite bool_decide_true by done.
Qed.

End RunPipelineFacts.

(** * The loading stage *)

Section LoadFacts.

Context {F : Type} {num : PyNum F}.
Implicit Types (s : Load.State F) (db : Load.Database F) (env : Env).

Import Load.

Lemma upsert_rows_sent db rows counts s r s' :
  upsert_rows db rows counts s = (r, s') →
  stage s' = stage s ∧ engine s' = engine s ∧ disposed s' = disposed s ∧
  ∃ tried, tried `prefix_of` rows ∧
    sent s' = sent s ++ (UpsertDaily <$> tried) ∧
    ∀ counts', r = Ret counts' →
      tried = rows ∧ counts'.1 + counts'.2 = counts.1 + counts.2 + length rows.
Proof.
  revert counts s. induction rows as [|row rows IH]; intros counts s; simpl.
  - intros [= <- <-]. split_and!; [done..|]. exists []. rewrite app_nil_r.
    split_and!; [done..|]. intros counts' [= <-]. split; [done|simpl; lia].
  - unfold lseq at 1, execute at 1.
    destruct (db_execute db (sent s) (UpsertDaily row)) as [rowcount|e].
    + intros Hrest. apply IH in Hrest as (Hst & He & Hd & tried & Hp & Hs & Hr).
      simpl in *. split_and!; [done..|]. exists (row :: tried).
      split_and!; [by apply prefix_cons| |].
      * rewrite Hs. simpl. by rewrite <-(assoc_L (++)).
      * intros counts' Hc. destruct (Hr counts' Hc) as [-> Hsum].
        split; [done|]. destruct (decide (rowcount = 1%Z)); simpl in Hsum; lia.
    + intros [= <- <-]. simpl. split_and!; [done..|]. exists [row].
      split_and!; [by apply prefix_cons, prefix_nil|done..].
Qed.

Lemma stage_kept_refl s : stage_kept s s.
Proof. by repeat split. Qed.

Lemma stage_kept_trans s1 s2 s3 : stage_kept s1 s2 → stage_kept s2 s3 → stage_kept s1 s3.
Proof.
  intros (?&?&?&?&?&?) (?&?&?&?&?&?). repeat split; congruence.
Qed.

Lemma stage_kept_stage s s' : stage s' = stage s → engine s' = engine s →
  disposed s' = disposed s → stage_kept s s'.
Proof. intros H1 H2 H3. unfold stage_kept. by rewrite H1, H2, H3. Qed.

Lemma load_daily_rates_inv db content s r s' :
  load_daily_rates db content s = (r, s') →
  stage_kept s s' ∧
  ∃ tried, sent s' = sent s ++ tried ∧
    (tried ≠ [] → ∃ df, daily_frame content = Ret df ∧ head tried = Some (ToSqlDaily df)) ∧
    ∀ n duration, r = Ret (n, duration) →
      ∃ df, daily_frame content = Ret df ∧ n = length df ∧ duration = duration_daily db ∧
        (tried = [ToSqlDaily df] ∨
         tried = ToSqlDaily df :: (UpsertDaily <$> df) ++ [Commit]).
Proof.
  unfold load_daily_rates, lseq at 1, llift.
  destruct (daily_frame content) as [df|e].
  2:{ intros [= <- <-]. split; [apply stage_kept_refl|]. exists [].
      rewrite app_nil_r. split_and!; done. }
  unfold lseq at 1, ltry_except, lseq at 1, execute at 1, lret.
  destruct (db_execute db (sent s) (ToSqlDaily df)) as [k|e].
  - intros [= <- <-]. split; [by apply stage_kept_stage|].
    exists [ToSqlDaily df]. simpl. split_and!; [done|by eexists|].
    intros n d [= <- <-]. exists df. split_and!; [done|lia|done|by left].
  - unfold lseq at 1, on_stage, logger_warning. simpl. unfold lseq at 1.
    match goal with |- context [upsert_rows db df ?c ?s0] =>
      destruct (upsert_rows db df c s0) as [[counts|e'] s1] eqn:Hup end;
      apply upsert_rows_sent in Hup as (Hst & He & Hd & tried & _ & Hs & Hr); simpl in *.
    + destruct (Hr counts eq_refl) as [-> Hsum].
      unfold lseq at 1, execute.
      destruct (db_execute db (sent s1) Commit) as [k|e'].
      * intros [= <- <-]. split.
        { unfold stage_kept. simpl. by rewrite Hst, He, Hd. }
        exists (ToSqlDaily df :: (UpsertDaily <$> df) ++ [Commit]). simpl.
        split_and!; [by rewrite Hs, <-!(assoc_L (++))|by eexists|].
        intros n d [= <- <-]. exists df. split_and!; [done|lia|done|by right].
      * intros [= <- <-]. split.
        { unfold stage_kept. simpl. by rewrite Hst, He, Hd. }
        exists (ToSqlDaily df :: (UpsertDaily <$> df) ++ [Commit]). simpl.
        split_and!; [by rewrite Hs, <-!(assoc_L (++))|by eexists|done].
    + intros [= <- <-]. split.
      { unfold stage_kept. by rewrite Hst, He, Hd. }
      exists (ToSqlDaily df :: (UpsertDaily <$> tried)).
      split_and!; [by rewrite Hs, <-!(assoc_L (++))|by eexists|done].
Qed.

(** X19. Whenever [load_daily_rates] returns, the count it returns is the
    number of rows of the frame, inserted or not: the direct insertion
    counts them all, and the fallback counts each row once, as inserted or
    as updated. The statements sent are the insertion of the frame or, when
    it has failed, that insertion, one upsert for each row in the order of
    the frame, and a commit. *)
Theorem load_daily_rates_count db content s n duration s' :
  load_daily_rates db content s = (Ret (n, duration), s') →
  ∃ df, daily_frame content = Ret df ∧
    n = length df ∧
    (sent s' = sent s ++ [ToSqlDaily df] ∨
     sent s' = sent s ++ ToSqlDaily df :: (UpsertDaily <$> df) ++ [Commit]) ∧
    files (stage s') = files (stage s).
Proof.
  intros Hload. apply load_daily_rates_inv in Hload as ((Hf & _) & tried & Hs & _ & Hr).
  destruct (Hr n duration eq_refl) as (df & Hdf & -> & _ & Htried).
  exists df. split_and!; [done..| |done]. rewrite Hs. by destruct Htried as [->| ->]; [left|right].
Qed.

Lemma unique_spec (dates : list Date) :
  NoDup (unique dates) ∧ ∀ d, d ∈ unique dates ↔ d ∈ dates.
Proof.
  unfold unique.
  assert (∀ seen, NoDup seen →
            NoDup (foldl (λ seen d, if decide (d ∈ seen) then seen else seen ++ [d])
                     seen dates) ∧
            ∀ d, d ∈ foldl (λ seen d, if decide (d ∈ seen) then seen else seen ++ [d])
                       seen dates ↔ d ∈ seen ∨ d ∈ dates) as Hgen.
  { induction dates as [|x dates IH]; intros seen Hnd; simpl.
    - split; [done|]. intros d. rewrite elem_of_nil. tauto.
    - destruct (decide (x ∈ seen)) as [Hin|Hnin].
      + destruct (IH seen Hnd) as [H1 H2]. split; [done|].
        intros d. rewrite H2, elem_of_cons. split; [tauto|].
        intros [?|[->|?]]; tauto.
      + destruct (IH (seen ++ [x])) as [H1 H2].
        { apply NoDup_app. split_and!; [done| |apply NoDup_singleton].
          intros y Hy ->%list_elem_of_singleton. done. }
        split; [done|]. intros d.
        rewrite H2, elem_of_app, list_elem_of_singleton, elem_of_cons. tauto. }
  destruct (Hgen [] (NoDup_nil_2)) as [H1 H2]. split; [done|].
  intros d. rewrite H2, elem_of_nil. tauto.
Qed.

Lemma delete_dates_sent db dates s r s' :
  delete_dates db dates s = (r, s') →
  stage s' = stage s ∧ engine s' = engine s ∧ disposed s' = disposed s ∧
  ∃ tried, tried `prefix_of` dates ∧
    sent s' = sent s ++ (DeleteYtd <$> tried) ∧
    (r = Ret () → tried = dates) ∧ (tried ≠ dates → ∃ e, r = Raise e).
Proof.
  revert s. induction dates as [|d dates IH]; intros s; simpl.
  - intros [= <- <-]. split_and!; [done..|]. exists []. rewrite app_nil_r.
    split_and!; done.
  - unfold lseq at 1, execute at 1.
    destruct (db_execute db (sent s) (DeleteYtd d)) as [k|e].
    + intros Hrest. apply IH in Hrest as (Hst & He & Hd & tried & Hp & Hs & Hr & Hf).
      simpl in *. split_and!; [done..|]. exists (d :: tried).
      split_and!; [by apply prefix_cons| | |].
      * rewrite Hs. simpl. by rewrite <-(assoc_L (++)).
      * intros Hret. by rewrite Hr.
      * intros Hne. apply Hf. congruence.
    + intros [= <- <-]. simpl. split_and!; [done..|]. exists [d].
      split_and!; [by apply prefix_cons, prefix_nil|done|done|by eexists].
Qed.

(** X20. [load_ytd_metrics] sends one [DELETE] for each distinct date of
    the frame, never for another date and never twice for one, then a
    commit, then the insertion of the frame, and stops at the first
    statement that raises. The deletions are committed before the insertion
    is tried: when the insertion raises, the function raises with the rows
    of these dates deleted. It returns only when every statement was sent,
    with the number of rows of the frame. *)
Theorem load_ytd_metrics_statements db (df : list (YtdRow F)) s r s' :
  load_ytd_metrics db (YtdCsv df) s = (r, s') →
  ∃ deleted rest,
    sent s' = sent s ++ (DeleteYtd <$> deleted) ++ rest ∧
    deleted `prefix_of` unique (ytd_date <$> df) ∧
    NoDup deleted ∧
    (∀ d, d ∈ deleted → d ∈ ytd_date <$> df) ∧
    (rest = [] ∨
     deleted = unique (ytd_date <$> df) ∧
     (rest = [Commit] ∧ (∃ e, r = Raise e) ∨
      rest = [Commit; ToSqlYtd df] ∧
      r = match db_execute db (sent s ++ (DeleteYtd <$> deleted) ++ [Commit]) (ToSqlYtd df) with
          | Ret _ => Ret (length df, duration_ytd_load db)
          | Raise e => Raise e
          end)) ∧
    (∀ res, r = Ret res →
       rest = [Commit; ToSqlYtd df] ∧ (∀ d, d ∈ ytd_date <$> df → d ∈ deleted) ∧
       res = (length df, duration_ytd_load db)) ∧
    stage s' = stage s.
Proof.
  unfold load_ytd_metrics, lseq at 1, llift. simpl.
  destruct (unique_spec (ytd_date <$> df)) as [Hnd Hin].
  set (dates := unique (ytd_date <$> df)) in *.
  unfold lseq at 1.
  destruct (delete_dates db dates s) as [[[]|e] s1] eqn:Hdel;
    apply delete_dates_sent in Hdel as (Hst & _ & _ & tried & Hp & Hs & Hr & Hf).
  2:{ intros [= <- <-]. exists tried, []. rewrite app_nil_r.
      split_and!; [done|done| | |by left|done|done].
      - destruct Hp as [k ->]. by apply NoDup_app in Hnd as [? _].
      - intros d Hd. apply Hin. destruct Hp as [k ->]. apply elem_of_app. by left. }
  rewrite (Hr eq_refl) in Hs. clear Hr Hf Hp tried.
  unfold lseq at 1, execute at 1.
  destruct (db_execute db (sent s1) Commit) as [k|e].
  2:{ intros [= <- <-]. exists dates, [Commit]. simpl. rewrite Hs, <-(assoc_L (++)).
      split_and!; [done|done|done|by intros d ?%Hin| |done|done].
      right. split; [done|]. left. split; [done|by eexists]. }
  unfold lseq at 1, execute at 1, lret. simpl.
  assert (sent s1 ++ [Commit] = sent s ++ (DeleteYtd <$> dates) ++ [Commit]) as Hs'
    by (by rewrite Hs, <-(assoc_L (++))).
  rewrite Hs'.
  destruct (db_execute db _ (ToSqlYtd df)) as [k'|e] eqn:Hins.
  - intros [= <- <-]. exists dates, [Commit; ToSqlYtd df]. simpl.
    split_and!; [|done|done|by intros d ?%Hin| | |done].
    + by rewrite <-!(assoc_L (++)).
    + right. split; [done|]. right. split; [done|]. by rewrite Hins.
    + intros res [= <-]. split_and!; [done| |done]. by intros d ?%Hin.
  - intros [= <- <-]. exists dates, [Commit; ToSqlYtd df]. simpl.
    split_and!; [|done|done|by intros d ?%Hin| |done|done].
    + by rewrite <-!(assoc_L (++)).
    + right. split; [done|]. right. split; [done|]. by rewrite Hins.
Qed.

End LoadFacts.

(** ** The stage as a whole *)

Ltac lstep H a s' Hm :=
  match type of H with
  | Load.lseq ?m ?k ?s = _ =>
      unfold Load.lseq at 1 in H;
      destruct (m s) as [[a|?e] s'] eqn:Hm
  end.

Section LoadMain.

Context {F : Type} {num : PyNum F}.
Implicit Types (s : Load.State F) (db : Load.Database F) (env : Env).

Import Load.

Lemma load_ytd_metrics_inv db content s r s' :
  load_ytd_metrics db content s = (r, s') →
  stage_kept s s' ∧
  ∃ tried, sent s' = sent s ++ tried ∧
    ∀ res, r = Ret res →
      ∃ df, ytd_frame content = Ret df ∧ res = (length df, duration_ytd_load db) ∧
        tried = (DeleteYtd <$> unique (ytd_date <$> df)) ++ [Commit; ToSqlYtd df].
Proof.
  unfold load_ytd_metrics, lseq at 1, llift.
  destruct (ytd_frame content) as [df|e].
  2:{ intros [= <- <-]. split; [apply stage_kept_refl|]. exists [].
      rewrite app_nil_r. split_and!; done. }
  cbv zeta. unfold lseq at 1.
  destruct (delete_dates db _ s) as [[[]|e] s1] eqn:Hdel;
    apply delete_dates_sent in Hdel as (Hst & He & Hd & tried & Hp & Hs & Hr & Hf).
  2:{ intros [= <- <-]. split; [by apply stage_kept_stage|]. by exists (DeleteYtd <$> tried). }
  rewrite (Hr eq_refl) in Hs. clear Hr Hf Hp tried.
  unfold lseq at 1, execute at 1.
  destruct (db_execute db (sent s1) Commit) as [k|e].
  2:{ intros [= <- <-]. split; [by apply stage_kept_stage|].
      exists ((DeleteYtd <$> unique (ytd_date <$> df)) ++ [Commit]). simpl.
      split; [by rewrite Hs, <-(assoc_L (++))|done]. }
  unfold lseq at 1, execute at 1, lret. simpl.
  destruct (db_execute db _ (ToSqlYtd df)) as [k'|e]; intros [= <- <-];
    (split; [by apply stage_kept_stage|]);
    exists ((DeleteYtd <$> unique (ytd_date <$> df)) ++ [Commit; ToSqlYtd df]); simpl;
    (split; [by rewrite Hs, <-!(assoc_L (++))|]); [|done].
  intros res [= <-]. by exists df.
Qed.

Lemma verify_load_inv db s r s' :
  verify_load db s = (r, s') →
  stage_kept s s' ∧
  ∃ tried, sent s' = sent s ++ tried ∧ (r = Ret () → tried = verify_queries).
Proof.
  unfold verify_load, lseq, execute, lret, verify_queries.
  repeat (match goal with |- context [db_execute db ?h ?q] =>
            destruct (db_execute db h q) end; simpl);
    intros [= <- <-]; (split; [by apply stage_kept_stage|]); simpl;
    eexists; (split; [by rewrite <-?(assoc_L (++))|done]).
Qed.

Lemma validate_config_stage env (w : World F) : (validate_config env w).2 = w.
Proof.
  unfold validate_config, raise, seq, lift, ret.
  repeat case_decide; try done. by destruct (makedirs env).
Qed.

Lemma validate_config_result env (w w' : World F) :
  (validate_config env w).1 = (validate_config env w').1.
Proof.
  unfold validate_config, raise, seq, lift, ret.
  repeat case_decide; try done. by destruct (makedirs env).
Qed.

Lemma on_stage_inv {A} (m : M F A) s r s' :
  on_stage m s = (r, s') →
  m (stage s) = (r, stage s') ∧ sent s' = sent s ∧
  engine s' = engine s ∧ disposed s' = disposed s.
Proof.
  unfold on_stage. destruct (m (stage s)) as [r0 w]. by intros [= <- <-].
Qed.

Lemma load_csv_data_inv path s r s' :
  load_csv_data path s = (r, s') →
  s' = s ∧
  match r with
  | Ret content => files (stage s) !! path = Some content
  | Raise _ => files (stage s) !! path = None
  end.
Proof.
  unfold load_csv_data. destruct (files (stage s) !! path) as [c|];
    by intros [= <- <-].
Qed.

(** [log_execution] of the loading stage returns, whatever the insert does:
    the record is written and what was pending is committed, or a warning is
    logged and nothing is committed. *)
Lemma load_log_execution_returns env step st rows error duration s :
  ∃ s', log_execution env step st rows error duration s = (Ret (), s') ∧
    files (stage s') = files (stage s) ∧ connection (stage s') = connection (stage s) ∧
    closed (stage s') = closed (stage s) ∧
    sent s' = sent s ∧ engine s' = engine s ∧ disposed s' = disposed s ∧
    match db_insert env (execution_log (stage s)) (mkAudit step st rows error duration) with
    | Ret log' =>
        execution_log (stage s') = log' ∧ warnings (stage s') = warnings (stage s) ∧
        committed s' = sent s
    | Raise e =>
        execution_log (stage s') = execution_log (stage s) ∧
        warnings (stage s') = "Impossible de logger dans la DB" :: warnings (stage s) ∧
        committed s' = committed s
    end.
Proof.
  unfold log_execution, ltry_except, lseq, on_stage, insert_audit, commit_pending,
    logger_warning.
  destruct (db_insert env _ _) as [log'|e]; by eexists.
Qed.

(** What a run of the body that returns has done. *)
Lemma load_main_body_Ret env db ic iy s code s1 :
  main_body env db ic iy s = (Ret code, s1) →
  let input_cross_path := default (transform_output (config env)) ic in
  let input_ytd_path := default (ytd_output (config env)) iy in
  code = 0%Z ∧
  files (stage s1) = files (stage s) ∧
  connection (stage s1) = true ∧ engine s1 = true ∧
  ∃ content_cross content_ytd df_cross df_ytd daily,
    files (stage s) !! input_cross_path = Some content_cross ∧
    daily_frame content_cross = Ret df_cross ∧
    files (stage s) !! input_ytd_path = Some content_ytd ∧
    ytd_frame content_ytd = Ret df_ytd ∧
    (daily = [ToSqlDaily df_cross] ∨
     daily = ToSqlDaily df_cross :: (UpsertDaily <$> df_cross) ++ [Commit]) ∧
    sent s1
    = sent s ++ daily ++ (DeleteYtd <$> unique (ytd_date <$> df_ytd)) ++
        [Commit; ToSqlYtd df_ytd] ++ verify_queries.
Proof.
  intros Hbody input_cross_path input_ytd_path. unfold main_body in Hbody.
  fold input_cross_path input_ytd_path in Hbody.
  lstep Hbody v s2 Hv; [|done].
  apply on_stage_inv in Hv as (Hv & S2 & E2 & _).
  assert (stage s2 = stage s) as W2.
  { pose proof (validate_config_stage env (stage s)) as Hw. by rewrite Hv in Hw. }
  lstep Hbody u3 s3 H3; [|done].
  assert (stage s3 = stage s2 ∧ sent s3 = sent s2 ∧ engine s3 = true) as (W3 & S3 & E3)
    by (unfold get_db_engine in H3; by injection H3 as _ <-).
  lstep Hbody u4 s4 H4; [|done].
  apply on_stage_inv in H4 as (H4 & S4 & E4 & _).
  assert (files (stage s4) = files (stage s3) ∧ connection (stage s4) = true) as [F4 C4].
  { unfold get_db_connection, seq, lift in H4.
    destruct (db_connect env) as [[]|e]; simpl in H4; [|done]. by injection H4 as _ <-. }
  lstep Hbody u5 s5 H5; [|done].
  destruct (load_log_execution_returns env "load" "running" 0 None None s4)
    as (s5' & Hlog & F5 & C5 & _ & S5 & E5 & _).
  assert (s5' = s5) as -> by congruence.
  lstep Hbody content_cross s6 H6; [|done].
  apply load_csv_data_inv in H6 as [-> Hc].
  lstep Hbody daily_result s7 H7; [|done].
  destruct daily_result as [n1 d1].
  apply load_daily_rates_inv in H7 as ((F7 & _ & C7 & _ & E7 & _) & daily & S7 & _ & Hd).
  destruct (Hd n1 d1 eq_refl) as (df_cross & Hdfc & -> & -> & Hdaily).
  cbv zeta in Hbody.
  lstep Hbody content_ytd s8 H8; [|done].
  apply load_csv_data_inv in H8 as [-> Hy].
  lstep Hbody ytd_result s9 H9; [|done].
  apply load_ytd_metrics_inv in H9 as ((F9 & _ & C9 & _ & E9 & _) & ytd & S9 & Hyr).
  destruct (Hyr ytd_result eq_refl) as (df_ytd & Hdfy & -> & ->).
  cbv zeta in Hbody.
  lstep Hbody u10 s10 H10; [|done]. destruct u10.
  apply verify_load_inv in H10 as ((F10 & _ & C10 & _ & E10 & _) & checks & S10 & Hchecks).
  rewrite (Hchecks eq_refl) in S10.
  lstep Hbody u11 s11 H11; [|done].
  match type of H11 with log_execution ?e ?a ?b ?c ?d ?f ?s0 = _ =>
    destruct (load_log_execution_returns e a b c d f s0)
      as (s11' & Hlog' & F11 & C11 & _ & S11 & E11 & _) end.
  assert (s11' = s11) as -> by congruence.
  unfold lret in Hbody. injection Hbody as <- <-.
  split; [done|]. split; [congruence|]. split; [congruence|]. split; [congruence|].
  exists content_cross, content_ytd, df_cross, df_ytd, daily.
  split_and!; [congruence|done|congruence|done|done|].
  rewrite S11, S10, S9, S7, S5, S4, S3, S2. by rewrite <-!(assoc_L (++)).
Qed.

(** What [main] makes of the end of its body. *)
Lemma load_main_of_body env db ic iy s r s1 :
  main_body env db ic iy
    (mkState (mkWorld (files (stage s)) (execution_log (stage s)) (warnings (stage s))
                false (closed (stage s)))
       (sent s) false (disposed s) (committed s)) = (r, s1) →
  ∃ s2,
    main env db ic iy s = (Ret (match r with Ret code => code | Raise _ => 1%Z end), s2) ∧
    files (stage s2) = files (stage s1) ∧ sent s2 = sent s1 ∧
    connection (stage s2) = connection (stage s1) ∧
    engine s2 = engine s1 ∧
    (connection (stage s2) = true → closed (stage s2) = true) ∧
    (engine s2 = true → disposed s2 = true).
Proof.
  intros Hbody. unfold main, ltry_finally, ltry_except. cbv zeta. rewrite Hbody.
  assert (∀ (code : Z) s3, ∃ s2,
            (match lseq (λ s, if connection (stage s) then on_stage connection_close s
                              else lret () s)
                     (λ _ s, if engine s then engine_dispose s else lret () s) s3 with
             | (Ret _, s'') => (Ret code, s'')
             | (Raise e, s'') => (Raise e, s'')
             end) = (Ret code, s2) ∧
            files (stage s2) = files (stage s3) ∧ sent s2 = sent s3 ∧
            connection (stage s2) = connection (stage s3) ∧ engine s2 = engine s3 ∧
            (connection (stage s2) = true → closed (stage s2) = true) ∧
            (engine s2 = true → disposed s2 = true)) as Hfinal.
  { intros code s3. unfold lseq, on_stage, connection_close, engine_dispose, lret.
    destruct (connection (stage s3)) eqn:Hc, (engine s3) eqn:He; simpl;
      rewrite ?He; simpl; eexists; (split; [done|]); simpl; rewrite ?Hc, ?He; done. }
  destruct r as [code|e].
  - destruct (Hfinal code s1) as (s2 & -> & H). by exists s2.
  - assert (∃ s3, lseq (λ s, if connection (stage s)
                             then log_execution env "load" "failed" 0 (Some e) None s
                             else lret () s) (λ _, lret 1%Z) s1 = (Ret 1%Z, s3) ∧
                  files (stage s3) = files (stage s1) ∧ sent s3 = sent s1 ∧
                  connection (stage s3) = connection (stage s1) ∧ engine s3 = engine s1)
      as (s3 & Hh & Hf3 & Hs3 & Hc3 & He3).
    { unfold lseq, lret. destruct (connection (stage s1)) eqn:Hc; [|by exists s1].
      destruct (load_log_execution_returns env "load" "failed" 0 (Some e) None s1)
        as (s3 & -> & Hf & Hc' & _ & Hs & He & _).
      exists s3. split; [done|]. by rewrite Hc', Hc. }
    cbv beta iota. rewrite Hh.
    destruct (Hfinal 1%Z s3) as (s2 & -> & Hf2 & Hs2 & Hc2 & He2 & H).
    exists s2. split; [done|]. split_and!; [congruence..|apply H|apply H].
Qed.

Lemma load_main_zero env db ic iy s :
  (main env db ic iy s).1 = Ret 0%Z →
  let input_cross_path := default (transform_output (config env)) ic in
  let input_ytd_path := default (ytd_output (config env)) iy in
  let s' := (main env db ic iy s).2 in
  ∃ content_cross content_ytd df_cross df_ytd daily,
    files (stage s) !! input_cross_path = Some content_cross ∧
    daily_frame content_cross = Ret df_cross ∧
    files (stage s) !! input_ytd_path = Some content_ytd ∧
    ytd_frame content_ytd = Ret df_ytd ∧
    (daily = [ToSqlDaily df_cross] ∨
     daily = ToSqlDaily df_cross :: (UpsertDaily <$> df_cross) ++ [Commit]) ∧
    sent s'
    = sent s ++ daily ++ (DeleteYtd <$> unique (ytd_date <$> df_ytd)) ++
        [Commit; ToSqlYtd df_ytd] ++ verify_queries ∧
    files (stage s') = files (stage s) ∧
    connection (stage s') = true ∧ engine s' = true.
Proof.
  intros Hzero input_cross_path input_ytd_path s'.
  set (s0 := mkState (mkWorld (files (stage s)) (execution_log (stage s))
                        (warnings (stage s)) false (closed (stage s)))
               (sent s) false (disposed s) (committed s)).
  destruct (main_body env db ic iy s0) as [r s1] eqn:Hbody.
  destruct (load_main_of_body env db ic iy s r s1 Hbody)
    as (s2 & Hmain & Hf & Hs & Hc & He & _).
  unfold s'. rewrite Hmain in Hzero |- *. simpl in Hzero |- *.
  destruct r as [code|e]; [|done]. injection Hzero as ->.
  apply load_main_body_Ret in Hbody
    as (_ & Hfiles & Hc1 & He1 & cc & cy & dfc & dfy & daily & H1 & H2 & H3 & H4 & H5 & H6).
  exists cc, cy, dfc, dfy, daily.
  split_and!; [done..|by rewrite Hs|by rewrite Hf, Hfiles|congruence|congruence].
Qed.

(** X21. The loading stage returns 0 only when it has found both files,
    sent the daily rates, then the deletions of the dates of the YTD frame
    with their commit and the YTD records, then the four queries of the
    verification, and nothing else: the daily rates go first, by one
    insertion or, after it, by one upsert for each row. It leaves the files
    as they are and closes what it has opened. *)
Theorem load_exit_zero env db ic iy s :
  (main env db ic iy s).1 = Ret 0%Z →
  let input_cross_path := default (transform_output (config env)) ic in
  let input_ytd_path := default (ytd_output (config env)) iy in
  let s' := (main env db ic iy s).2 in
  ∃ content_cross content_ytd df_cross df_ytd daily,
    files (stage s) !! input_cross_path = Some content_cross ∧
    daily_frame content_cross = Ret df_cross ∧
    files (stage s) !! input_ytd_path = Some content_ytd ∧
    ytd_frame content_ytd = Ret df_ytd ∧
    (daily = [ToSqlDaily df_cross] ∨
     daily = ToSqlDaily df_cross :: (UpsertDaily <$> df_cross) ++ [Commit]) ∧
    sent s'
    = sent s ++ daily ++ (DeleteYtd <$> unique (ytd_date <$> df_ytd)) ++
        [Commit; ToSqlYtd df_ytd] ++ verify_queries ∧
    files (stage s') = files (stage s) ∧
    closed (stage s') = true ∧ disposed s' = true.
Proof.
  intros Hzero input_cross_path input_ytd_path s'.
  destruct (load_main_zero env db ic iy s Hzero)
    as (cc & cy & dfc & dfy & daily & H1 & H2 & H3 & H4 & H5 & H6 & H7 & Hc & He).
  exists cc, cy, dfc, dfy, daily. split_and!; [done..| |].
  - set (s0 := mkState (mkWorld (files (stage s)) (execution_log (stage s))
                          (warnings (stage s)) false (closed (stage s)))
                 (sent s) false (disposed s) (committed s)).
    destruct (main_body env db ic iy s0) as [r s1] eqn:Hbody.
    destruct (load_main_of_body env db ic iy s r s1 Hbody)
      as (s2 & Hmain & _ & _ & _ & _ & Hclosed & _).
    unfold s'. rewrite Hmain in Hc |- *. by apply Hclosed.
  - set (s0 := mkState (mkWorld (files (stage s)) (execution_log (stage s))
                          (warnings (stage s)) false (closed (stage s)))
                 (sent s) false (disposed s) (committed s)).
    destruct (main_body env db ic iy s0) as [r s1] eqn:Hbody.
    destruct (load_main_of_body env db ic iy s r s1 Hbody)
      as (s2 & Hmain & _ & _ & _ & _ & _ & Hdisposed).
    unfold s'. rewrite Hmain in He |- *. by apply Hdisposed.
Qed.

(** X22. The loading stage never raises: it returns 0 or 1, and when it
    returns the connection it has opened is closed and the engine it has
    made is disposed of. *)
Theorem load_main_returns env db ic iy s :
  ∃ code s', main env db ic iy s = (Ret code, s') ∧
    (code = 0 ∨ code = 1)%Z ∧
    (connection (stage s') = true → closed (stage s') = true) ∧
    (engine s' = true → disposed s' = true).
Proof.
  set (s0 := mkState (mkWorld (files (stage s)) (execution_log (stage s))
                        (warnings (stage s)) false (closed (stage s)))
               (sent s) false (disposed s) (committed s)).
  destruct (main_body env db ic iy s0) as [r s1] eqn:Hbody.
  destruct (load_main_of_body env db ic iy s r s1 Hbody)
    as (s2 & Hmain & _ & _ & _ & _ & Hclosed & Hdisposed).
  eexists _, s2. split; [exact Hmain|]. split_and!; [|done..].
  destruct r as [code|e]; [|by right].
  apply load_main_body_Ret in Hbody as [-> _]. by left.
Qed.

(** The body up to the reading of the first file. *)
Lemma load_main_body_start env db ic iy s r s1 :
  main_body env db ic iy s = (r, s1) →
  let input_cross_path := default (transform_output (config env)) ic in
  ((∃ e, (validate_config env (stage s)).1 = Raise e) ∨
   (∃ e, db_connect env = Raise e) ∨
   files (stage s) !! input_cross_path = None →
   (∃ e, r = Raise e) ∧ sent s1 = sent s ∧ files (stage s1) = files (stage s)) ∧
  (∀ content,
     (validate_config env (stage s)).1 = Ret true → db_connect env = Ret () →
     files (stage s) !! input_cross_path = Some content →
     ∃ s5, sent s5 = sent s ∧ files (stage s5) = files (stage s) ∧
       lseq (load_daily_rates db content) (λ daily,
         lseq (load_csv_data (default (ytd_output (config env)) iy)) (λ df_ytd,
         lseq (load_ytd_metrics db df_ytd) (λ ytd,
         lseq (verify_load db) (λ _,
         lseq (log_execution env "load" "success" (daily.1 + ytd.1) None
                 (Some (daily.2 + ytd.2)))
              (λ _, lret 0%Z))))) s5 = (r, s1)).
Proof.
  intros Hbody input_cross_path. unfold main_body in Hbody.
  fold input_cross_path in Hbody.
  lstep Hbody v s2 Hv; apply on_stage_inv in Hv as (Hv & S2 & E2 & _);
    (assert (stage s2 = stage s) as W2;
     [pose proof (validate_config_stage env (stage s)) as Hw; by rewrite Hv in Hw|]).
  2:{ injection Hbody as <- <-. rewrite W2. split.
      - intros _. split; [by eexists|by split].
      - intros content Hok. by rewrite Hv in Hok. }
  lstep Hbody u3 s3 H3; [|done].
  assert (stage s3 = stage s2 ∧ sent s3 = sent s2 ∧ engine s3 = true) as (W3 & S3 & E3)
    by (unfold get_db_engine in H3; by injection H3 as _ <-).
  lstep Hbody u4 s4 H4; apply on_stage_inv in H4 as (H4 & S4 & E4 & _);
    unfold get_db_connection, seq, lift in H4;
    destruct (db_connect env) as [[]|e'] eqn:Hconn; simpl in H4; try done.
  2:{ injection H4 as _ W4. injection Hbody as <- <-.
      split; [|done]. intros _. split; [by eexists|]. split; congruence. }
  assert (files (stage s4) = files (stage s3)) as F4 by (by injection H4 as _ <-).
  lstep Hbody u5 s5 H5;
    (destruct (load_log_execution_returns env "load" "running" 0 None None s4)
       as (s5' & Hlog & Hf & _ & _ & S5 & _); rewrite Hlog in H5); [|done].
  assert (s5' = s5) as -> by congruence.
  assert (files (stage s5) = files (stage s)) as F5 by congruence.
  assert (sent s5 = sent s) as S5' by congruence.
  lstep Hbody content_cross s6 H6; apply load_csv_data_inv in H6 as [-> Hc];
    rewrite F5 in Hc.
  - split.
    + intros [[e He]|[[e He]|Hnone]]; [by rewrite Hv in He|done|congruence].
    + intros content _ _ Hcontent. exists s5.
      split_and!; [done..|]. congruence.
  - injection Hbody as <- <-. split.
    + intros _. split; [by eexists|]. by split.
    + intros content _ _ Hcontent. congruence.
Qed.

(** X23. When the configuration is not valid, the database cannot be
    reached or the file of cross pairs is missing, the loading stage
    returns 1 and sends nothing to the tables. Unlike the transformation,
    it does not run without the database. *)
Theorem load_fails_before_loading env db ic iy s :
  let input_cross_path := default (transform_output (config env)) ic in
  (∃ e, (validate_config env (stage s)).1 = Raise e) ∨
  (∃ e, db_connect env = Raise e) ∨
  files (stage s) !! input_cross_path = None →
  (main env db ic iy s).1 = Ret 1%Z ∧
  sent (main env db ic iy s).2 = sent s ∧
  files (stage (main env db ic iy s).2) = files (stage s).
Proof.
  intros input_cross_path Hcause.
  set (s0 := mkState (mkWorld (files (stage s)) (execution_log (stage s))
                        (warnings (stage s)) false (closed (stage s)))
               (sent s) false (disposed s) (committed s)).
  destruct (main_body env db ic iy s0) as [r s1] eqn:Hbody.
  destruct (load_main_of_body env db ic iy s r s1 Hbody)
    as (s2 & Hmain & Hf & Hs & _).
  apply load_main_body_start in Hbody as [Hstart _].
  rewrite Hmain. simpl. rewrite Hf, Hs.
  destruct Hstart as ([e ->] & Hsent & Hfiles); [|done].
  destruct Hcause as [[e He]|[?|?]]; [left|by right; left|by right; right].
  exists e. by rewrite (validate_config_result env _ (stage s)).
Qed.

(** X24. The two tables are not loaded as one: when the file of cross pairs
    is there and its insertion succeeds, and the file of YTD metrics is
    missing, the stage returns 1 with the daily rates inserted. *)
Theorem load_daily_rates_before_ytd_file env db ic iy s df_cross k :
  let input_cross_path := default (transform_output (config env)) ic in
  let input_ytd_path := default (ytd_output (config env)) iy in
  (validate_config env (stage s)).1 = Ret true →
  db_connect env = Ret () →
  files (stage s) !! input_cross_path = Some (CrossCsv df_cross) →
  db_execute db (sent s) (ToSqlDaily df_cross) = Ret k →
  files (stage s) !! input_ytd_path = None →
  (main env db ic iy s).1 = Ret 1%Z ∧
  sent (main env db ic iy s).2 = sent s ++ [ToSqlDaily df_cross].
Proof.
  intros input_cross_path input_ytd_path Hvalid Hconn Hcross Hinsert Hytd.
  set (s0 := mkState (mkWorld (files (stage s)) (execution_log (stage s))
                        (warnings (stage s)) false (closed (stage s)))
               (sent s) false (disposed s) (committed s)).
  destruct (main_body env db ic iy s0) as [r s1] eqn:Hbody.
  destruct (load_main_of_body env db ic iy s r s1 Hbody)
    as (s2 & Hmain & Hf & Hs & _).
  apply load_main_body_start in Hbody as [_ Hrest].
  destruct (Hrest (CrossCsv df_cross)) as (s5 & S5 & F5 & Hbody); [|done..|].
  { by rewrite (validate_config_result env _ (stage s)). }
  simpl in S5, F5.
  rewrite Hmain. simpl. rewrite Hs. clear Hmain Hf Hs s2 Hrest.
  lstep Hbody daily s7 H7;
    unfold load_daily_rates, lseq, llift, ltry_except, execute, lret in H7;
    simpl in H7; rewrite S5, Hinsert in H7; [|done].
  injection H7 as <- <-.
  lstep Hbody content_ytd s8 H8; apply load_csv_data_inv in H8 as [-> Hy];
    simpl in Hy; rewrite F5 in Hy.
  { unfold input_ytd_path in Hytd. congruence. }
  by injection Hbody as <- <-.
Qed.

End LoadMain.

(** ** A failure of the audit table, in the three stages *)

Section AuditSimulation.

Context {F : Type} {num : PyNum F}.
Implicit Types (s : Load.State F) (db : Load.Database F) (env : Env) (w : World F).

Lemma alike_extract_main_body env f api sd ed op :
  alike (F:=F) (Extract.main_body env api sd ed op)
        (Extract.main_body (with_db_insert env f) api sd ed op).
Proof.
  unfold Extract.main_body.
  apply alike_seq; [apply alike_validate_config|intros _].
  apply alike_seq.
  { apply alike_try_except; [|intros e; apply alike_logger_warning].
    apply alike_seq; [apply alike_get_db_connection|intros _].
    apply alike_log_execution. }
  intros _. apply alike_seq; [apply alike_lift|intros result].
  apply alike_seq; [apply alike_save_to_csv|intros _].
  apply alike_seq; [|intros _; apply alike_ret].
  apply alike_when_connection, alike_log_execution.
Qed.

Lemma alike_extract_main env f api sd ed op :
  alike (F:=F) (Extract.main env api sd ed op)
        (Extract.main (with_db_insert env f) api sd ed op).
Proof.
  intros w1 w2 (Hf & Hc & Hcl). unfold Extract.main.
  apply alike_try_finally.
  - apply alike_try_except; [apply alike_extract_main_body|intros e].
    apply alike_seq; [|intros _; apply alike_ret].
    apply alike_when_connection, alike_log_execution.
  - apply alike_when_connection, alike_connection_close.
  - unfold same_data. simpl. by rewrite Hf, Hcl.
Qed.

Import Load.

Lemma lalike_lret {A} (a : A) : lalike (F:=F) (lret a) (lret a).
Proof. by intros s1 s2 Hs. Qed.

Lemma lalike_llift {A} (o : outcome A) : lalike (F:=F) (llift o) (llift o).
Proof. by intros s1 s2 Hs. Qed.

Lemma lalike_lseq {A B} (m1 m2 : L F A) (k1 k2 : A → L F B) :
  lalike m1 m2 → (∀ a, lalike (k1 a) (k2 a)) → lalike (lseq m1 k1) (lseq m2 k2).
Proof.
  intros Hm Hk s1 s2 Hs. unfold lseq.
  destruct (Hm s1 s2 Hs) as [Hr Hs'].
  destruct (m1 s1) as [[a1|e1] s1'], (m2 s2) as [[a2|e2] s2'];
    simpl in Hr, Hs'; simplify_eq; [by apply Hk|done].
Qed.

Lemma lalike_ltry_except {A} (m1 m2 : L F A) (h1 h2 : string → L F A) :
  lalike m1 m2 → (∀ e, lalike (h1 e) (h2 e)) →
  lalike (ltry_except m1 h1) (ltry_except m2 h2).
Proof.
  intros Hm Hh s1 s2 Hs. unfold ltry_except.
  destruct (Hm s1 s2 Hs) as [Hr Hs'].
  destruct (m1 s1) as [[a1|e1] s1'], (m2 s2) as [[a2|e2] s2'];
    simpl in Hr, Hs'; simplify_eq; [done|by apply Hh].
Qed.

Lemma lalike_ltry_finally {A} (m1 m2 : L F A) (f1 f2 : L F unit) :
  lalike m1 m2 → lalike f1 f2 → lalike (ltry_finally m1 f1) (ltry_finally m2 f2).
Proof.
  intros Hm Hf s1 s2 Hs. unfold ltry_finally.
  destruct (Hm s1 s2 Hs) as [Hr Hs'].
  destruct (m1 s1) as [r1 s1'], (m2 s2) as [r2 s2']. simpl in Hr, Hs'. subst r2.
  destruct (Hf s1' s2' Hs') as [Hr Hs''].
  destruct (f1 s1') as [[[]|e1] s1''], (f2 s2') as [[[]|e2] s2''];
    simpl in Hr, Hs''; simplify_eq; done.
Qed.

Lemma lalike_on_stage {A} (m1 m2 : M F A) :
  alike m1 m2 → lalike (on_stage m1) (on_stage m2).
Proof.
  intros Hm s1 s2 (Hw & Hsent & He & Hd). unfold on_stage.
  destruct (Hm (stage s1) (stage s2) Hw) as [Hr Hw'].
  destruct (m1 (stage s1)) as [r1 w1], (m2 (stage s2)) as [r2 w2]. simpl in *.
  unfold same_load. simpl. by split_and!.
Qed.

Lemma lalike_execute db stmt : lalike (execute db stmt) (execute db stmt).
Proof.
  intros s1 s2 (Hw & Hsent & He & Hd). unfold execute, same_load. simpl.
  rewrite Hsent. by split_and!.
Qed.

Lemma lalike_load_csv_data path : lalike (F:=F) (load_csv_data path) (load_csv_data path).
Proof.
  intros s1 s2 Hs. pose proof Hs as ((Hf & _) & _). unfold load_csv_data. rewrite Hf.
  by destruct (files (stage s2) !! path).
Qed.

Lemma lalike_upsert_rows db rows counts :
  lalike (upsert_rows db rows counts) (upsert_rows db rows counts).
Proof.
  revert counts. induction rows as [|row rows IH]; intros counts; simpl.
  - apply lalike_lret.
  - apply lalike_lseq; [apply lalike_execute|intros rowcount; apply IH].
Qed.

Lemma lalike_delete_dates db dates : lalike (delete_dates db dates) (delete_dates db dates).
Proof.
  induction dates as [|d dates IH]; simpl.
  - apply lalike_lret.
  - apply lalike_lseq; [apply lalike_execute|intros _; apply IH].
Qed.

Lemma lalike_load_daily_rates db content :
  lalike (load_daily_rates db content) (load_daily_rates db content).
Proof.
  unfold load_daily_rates.
  apply lalike_lseq; [apply lalike_llift|intros df].
  apply lalike_lseq; [|intros counts; apply lalike_lret].
  apply lalike_ltry_except.
  - apply lalike_lseq; [apply lalike_execute|intros _; apply lalike_lret].
  - intros e.
    apply lalike_lseq; [apply lalike_on_stage, alike_logger_warning|intros _].
    apply lalike_lseq; [apply lalike_upsert_rows|intros counts].
    apply lalike_lseq; [apply lalike_execute|intros _; apply lalike_lret].
Qed.

Lemma lalike_load_ytd_metrics db content :
  lalike (load_ytd_metrics db content) (load_ytd_metrics db content).
Proof.
  unfold load_ytd_metrics.
  apply lalike_lseq; [apply lalike_llift|intros df]. cbv zeta.
  apply lalike_lseq; [apply lalike_delete_dates|intros _].
  apply lalike_lseq; [apply lalike_execute|intros _].
  apply lalike_lseq; [apply lalike_execute|intros _; apply lalike_lret].
Qed.

Lemma lalike_verify_load db : lalike (verify_load db) (verify_load db).
Proof.
  unfold verify_load.
  repeat (apply lalike_lseq; [apply lalike_execute|intros _]). apply lalike_lret.
Qed.

Lemma lalike_log_execution env f step st rows error duration :
  lalike (F:=F) (log_execution env step st rows error duration)
         (log_execution (with_db_insert env f) step st rows error duration).
Proof.
  intros s1 s2 ((Hf & Hc & Hcl) & Hsent & He & Hd).
  destruct (load_log_execution_returns env step st rows error duration s1)
    as (s1' & -> & Hf1 & Hc1 & Hcl1 & Hs1 & He1 & Hd1 & _).
  destruct (load_log_execution_returns (with_db_insert env f) step st rows error
              duration s2)
    as (s2' & -> & Hf2 & Hc2 & Hcl2 & Hs2 & He2 & Hd2 & _).
  simpl. unfold same_load, same_data.
  by rewrite Hf1, Hf2, Hc1, Hc2, Hcl1, Hcl2, Hs1, Hs2, He1, He2, Hd1, Hd2.
Qed.

Lemma lalike_get_db_engine : lalike (F:=F) get_db_engine get_db_engine.
Proof.
  intros s1 s2 (Hw & Hsent & He & Hd). unfold get_db_engine, same_load. simpl.
  by split_and!.
Qed.

Lemma lalike_if_connection (m1 m2 : L F unit) :
  lalike m1 m2 →
  lalike (λ s, if connection (stage s) then m1 s else lret () s)
         (λ s, if connection (stage s) then m2 s else lret () s).
Proof.
  intros Hm s1 s2 Hs. pose proof Hs as ((_ & Hc & _) & _). rewrite Hc.
  destruct (connection (stage s2)); [by apply Hm|done].
Qed.

Lemma lalike_if_engine :
  lalike (F:=F) (λ s, if engine s then engine_dispose s else lret () s)
                (λ s, if engine s then engine_dispose s else lret () s).
Proof.
  intros s1 s2 Hs. pose proof Hs as (Hw & Hsent & He & Hd).
  unfold same_load, engine_dispose, lret. rewrite He.
  destruct (engine s2) eqn:He2; simpl; split_and!; congruence.
Qed.

Lemma lalike_main_body env f db ic iy :
  lalike (main_body env db ic iy) (main_body (with_db_insert env f) db ic iy).
Proof.
  unfold main_body.
  apply lalike_lseq; [apply lalike_on_stage, alike_validate_config|intros _].
  cbv zeta.
  apply lalike_lseq; [apply lalike_get_db_engine|intros _].
  apply lalike_lseq; [apply lalike_on_stage, alike_get_db_connection|intros _].
  apply lalike_lseq; [apply lalike_log_execution|intros _].
  apply lalike_lseq; [apply lalike_load_csv_data|intros df_cross].
  apply lalike_lseq; [apply lalike_load_daily_rates|intros daily].
  apply lalike_lseq; [apply lalike_load_csv_data|intros df_ytd].
  apply lalike_lseq; [apply lalike_load_ytd_metrics|intros ytd].
  apply lalike_lseq; [apply lalike_verify_load|intros _].
  apply lalike_lseq; [apply lalike_log_execution|intros _; apply lalike_lret].
Qed.

Lemma lalike_main env f db ic iy :
  lalike (main env db ic iy) (main (with_db_insert env f) db ic iy).
Proof.
  intros s1 s2 ((Hf & Hc & Hcl) & Hsent & He & Hd). unfold main. cbv zeta.
  apply lalike_ltry_finally.
  - apply lalike_ltry_except; [apply lalike_main_body|intros e].
    apply lalike_lseq; [|intros _; apply lalike_lret].
    apply lalike_if_connection, lalike_log_execution.
  - apply lalike_lseq; [|intros _; apply lalike_if_engine].
    apply lalike_if_connection, lalike_on_stage, alike_connection_close.
  - unfold same_load, same_data. simpl. by rewrite Hf, Hcl, Hsent, Hd.
Qed.

End AuditSimulation.

Section AuditFailures.

Context {F : Type} {num : PyNum F}.
Implicit Types (s : Load.State F) (db : Load.Database F) (env : Env) (w : World F).

(** C9, as the program has it. [log_execution] returns normally whatever the
    insert into the audit table does, in the extraction and the
    transformation and in the loading stage: when the insert raises, the
    exception is dropped and a warning is logged. The value [main] returns,
    which is the exit status of the step, the files it leaves and, in the
    loading stage, the statements it sends to the tables are the same
    whatever the audit table does. What the loading stage commits is not: the
    record is committed on the connection that carries the upserts and the
    deletions, so that a record that is written commits what is pending, and
    a record that is refused leaves it as it was. *)
Theorem audit_failure_swallowed env f :
  (∀ step st rows error duration w,
     ∃ w', log_execution env step st rows error duration w = (Ret (), w') ∧
       files w' = files w ∧ connection w' = connection w ∧ closed w' = closed w ∧
       match db_insert env (execution_log w) (mkAudit step st rows error duration) with
       | Ret log' => execution_log w' = log' ∧ warnings w' = warnings w
       | Raise e =>
           execution_log w' = execution_log w ∧
           warnings w' = "Impossible de logger dans la DB" :: warnings w
       end) ∧
  (∀ step st rows error duration s,
     ∃ s', Load.log_execution env step st rows error duration s = (Ret (), s') ∧
       files (Load.stage s') = files (Load.stage s) ∧
       connection (Load.stage s') = connection (Load.stage s) ∧
       closed (Load.stage s') = closed (Load.stage s) ∧
       Load.sent s' = Load.sent s ∧ Load.engine s' = Load.engine s ∧
       Load.disposed s' = Load.disposed s ∧
       match db_insert env (execution_log (Load.stage s))
               (mkAudit step st rows error duration) with
       | Ret log' =>
           execution_log (Load.stage s') = log' ∧
           warnings (Load.stage s') = warnings (Load.stage s) ∧
           Load.committed s' = Load.sent s
       | Raise e =>
           execution_log (Load.stage s') = execution_log (Load.stage s) ∧
           warnings (Load.stage s')
           = "Impossible de logger dans la DB" :: warnings (Load.stage s) ∧
           Load.committed s' = Load.committed s
       end) ∧
  (∀ api sd ed op w,
     (Extract.main env api sd ed op w).1
     = (Extract.main (with_db_insert env f) api sd ed op w).1 ∧
     files (Extract.main env api sd ed op w).2
     = files (Extract.main (with_db_insert env f) api sd ed op w).2) ∧
  (∀ ip oc oy w,
     (main env ip oc oy w).1 = (main (with_db_insert env f) ip oc oy w).1 ∧
     files (main env ip oc oy w).2 = files (main (with_db_insert env f) ip oc oy w).2) ∧
  (∀ db ic iy s,
     (Load.main env db ic iy s).1 = (Load.main (with_db_insert env f) db ic iy s).1 ∧
     files (Load.stage (Load.main env db ic iy s).2)
     = files (Load.stage (Load.main (with_db_insert env f) db ic iy s).2) ∧
     Load.sent (Load.main env db ic iy s).2
     = Load.sent (Load.main (with_db_insert env f) db ic iy s).2).
Proof.
  split_and!.
  - intros step st rows error duration w. apply log_execution_returns.
  - intros step st rows error duration s. apply load_log_execution_returns.
  - intros api sd ed op w.
    destruct (alike_extract_main env f api sd ed op w w) as (Hr & Hf & _); [done|].
    by split.
  - intros ip oc oy w.
    destruct (alike_main env f ip oc oy w w) as (Hr & Hf & _); [done|]. by split.
  - intros db ic iy s.
    destruct (lalike_main env f db ic iy s s) as (Hr & (Hf & _) & Hsent & _); [done|].
    by split_and!.
Qed.

End AuditFailures.

(** C9 does not hold of the loading stage. The direct insertion of two daily
    rates is refused, the first upsert is taken and the second raises, so
    that the stage returns 1 with the first upsert pending. With an audit
    table that takes the record of the failure, the commit of that record
    commits the upsert. With one that refuses it, no commit is reached, and
    the upsert is dropped when the connection is closed. The exit status
    and the statements sent are the same in both runs; what is committed is
    not. *)
Lemma audit_failure_changes_commit :
  let s := ex_load_state ex_files_cross in
  let r1 := mkCross d_2024_01_01 "EUR" "NOK" (Fin (115 # 10)) in
  let r2 := mkCross d_2024_01_01 "EUR" "SEK" (Fin (112 # 10)) in
  let written := Load.main ex_env ex_db_upsert_fails None None s in
  let refused := Load.main ex_env_audit_fails ex_db_upsert_fails None None s in
  written.1 = Ret 1%Z ∧ refused.1 = Ret 1%Z ∧
  Load.sent written.2
  = [Load.ToSqlDaily ex_extracted; Load.UpsertDaily r1; Load.UpsertDaily r2] ∧
  Load.sent refused.2 = Load.sent written.2 ∧
  Load.db_execute ex_db_upsert_fails [Load.ToSqlDaily ex_extracted] (Load.UpsertDaily r1)
  = Ret 1%Z ∧
  execution_log (Load.stage written.2)
  = [mkAudit "load" "running" 0 None None;
     mkAudit "load" "failed" 0 (Some "OperationalError") None] ∧
  execution_log (Load.stage refused.2) = [mkAudit "load" "running" 0 None None] ∧
  warnings (Load.stage refused.2)
  = ["Impossible de logger dans la DB";
     "Insertion directe echouee, utilisation de UPSERT"] ∧
  closed (Load.stage written.2) = true ∧ closed (Load.stage refused.2) = true ∧
  Load.committed written.2
  = [Load.ToSqlDaily ex_extracted; Load.UpsertDaily r1; Load.UpsertDaily r2] ∧
  Load.committed refused.2 = [] ∧
  Load.committed written.2 ≠ Load.committed refused.2.
Proof.
  split_and!; by vm_compute.
Qed.

(** * The pipeline from end to end *)

Section PipelineFacts.

Context {F : Type} {num : PyNum F}.
Implicit Types (s : Load.State F) (db : Load.Database F) (env : Env)
  (api : Extract.Api F) (w : World F).

(** What a run of the body of the transformation has done to the files. *)
Lemma main_body_result env ip oc oy w r w1 :
  main_body env ip oc oy w = (r, w1) →
  let input_path := default (extract_output (config env)) ip in
  let output_cross_path := default (transform_output (config env)) oc in
  let output_ytd_path := default (ytd_output (config env)) oy in
  (∀ code, r = Ret code →
     code = 0%Z ∧
     ∃ df_raw df_cross,
       read_csv (files w) input_path = Ret df_raw ∧
       calculate_cross_pairs df_raw = Ret df_cross ∧
       files w1 = <[output_ytd_path := YtdCsv (calculate_ytd_metrics df_cross)]>
                    (<[output_cross_path := CrossCsv df_cross]> (files w))) ∧
  ((∃ e, (validate_config env w).1 = Raise e) ∨
   (∃ e, read_csv (files w) input_path = Raise e) →
   (∃ e, r = Raise e) ∧ files w1 = files w).
Proof.
  intros Hbody input_path output_cross_path output_ytd_path. revert Hbody.
  unfold main_body. fold input_path output_cross_path output_ytd_path.
  unfold seq at 1.
  pose proof (validate_config_stage env w) as Hv.
  destruct (validate_config env w) as [[b|e] wv]; simpl in Hv; subst wv; simpl.
  2:{ intros [= <- <-]. split; [done|]. intros _. split; [by eexists|done]. }
  unfold seq at 1.
  match goal with |- context [try_except ?a ?h w] =>
    destruct (files_kept_connect env "Impossible de se connecter a la DB pour les logs"
                "transform" "running" w) as [Hr Hf];
    destruct (try_except a h w) as [rc wc] end.
  simpl in Hr, Hf. subst rc.
  unfold seq at 1, load_extracted_data. simpl. rewrite Hf.
  destruct (read_csv (files w) input_path) as [df_raw|e] eqn:Hread.
  2:{ intros [= <- <-]. split; [done|]. intros _. split; [by eexists|done]. }
  assert (∀ P : Prop, ((∃ e : string, Ret b = Raise e) ∨
                       (∃ e : string, Ret df_raw = Raise e) → P)) as Hno.
  { by intros P [[e He]|[e He]]. }
  unfold seq at 1, lift.
  destruct (calculate_cross_pairs df_raw) as [df_cross|e] eqn:Hcross.
  2:{ intros [= <- <-]. split; [done|apply Hno]. }
  unfold seq at 1, save_to_csv at 1.
  destruct (writable env output_cross_path).
  2:{ intros [= <- <-]. split; [done|apply Hno]. }
  unfold seq at 1, save_to_csv at 1. simpl.
  destruct (writable env output_ytd_path).
  2:{ intros [= <- <-]. split; [done|apply Hno]. }
  unfold seq at 1.
  match goal with |- context [when ?c0 (log_execution ?e ?a ?b ?c ?d ?f) ?v] =>
    destruct (files_kept_when_connection _
                (files_kept_log_execution e a b c d f) v) as [Hr2 Hf2];
    cbv beta in Hr2, Hf2;
    destruct (when c0 (log_execution e a b c d f) v) as [r2 w2] end.
  simpl in Hr2, Hf2. subst r2.
  intros [= <- <-]. split; [|apply Hno].
  intros code [= <-]. split; [done|]. exists df_raw, df_cross.
  split_and!; [done..|]. by rewrite Hf2, Hf.
Qed.

Lemma main_zero_files env ip oc oy w :
  (main env ip oc oy w).1 = Ret 0%Z →
  ∃ df_raw df_cross,
    read_csv (files w) (default (extract_output (config env)) ip) = Ret df_raw ∧
    calculate_cross_pairs df_raw = Ret df_cross ∧
    files (main env ip oc oy w).2
    = <[default (ytd_output (config env)) oy := YtdCsv (calculate_ytd_metrics df_cross)]>
        (<[default (transform_output (config env)) oc := CrossCsv df_cross]> (files w)).
Proof.
  set (w0 := mkWorld (files w) (execution_log w) (warnings w) false (closed w)).
  destruct (main_body env ip oc oy w0) as [r w1] eqn:Hbody.
  destruct (main_of_body env ip oc oy w r w1 Hbody) as (w' & Hmain & Hf).
  apply main_body_result in Hbody as [Hret _].
  rewrite Hmain. simpl. intros Hzero.
  destruct r as [code|e]; [|done].
  destruct (Hret code eq_refl) as (_ & df_raw & df_cross & Hread & Hcross & Hfiles).
  exists df_raw, df_cross. split_and!; [done..|]. by rewrite Hf, Hfiles.
Qed.

Lemma exit_status_zero (r : outcome Z) :
  Pipeline.exit_status r = RunPipeline.Exited 0 → r = Ret 0%Z.
Proof. destruct r as [code|e]; [by intros [= ->]|done]. Qed.

Lemma python_extract exe env api db s :
  Pipeline.python env api db [exe; RunPipeline.path_join "scripts" "extract.py"] s
  = (Pipeline.exit_status (Load.on_stage (Extract.main env api None None None) s).1,
     (Load.on_stage (Extract.main env api None None None) s).2).
Proof.
  unfold Pipeline.python. rewrite decide_True by done.
  by destruct (Load.on_stage _ s).
Qed.

Lemma python_transform exe env api db s :
  Pipeline.python env api db [exe; RunPipeline.path_join "scripts" "transform.py"] s
  = (Pipeline.exit_status (Load.on_stage (main env None None None) s).1,
     (Load.on_stage (main env None None None) s).2).
Proof.
  unfold Pipeline.python. rewrite decide_False by done. rewrite decide_True by done.
  by destruct (Load.on_stage _ s).
Qed.

Lemma python_load exe env api db s :
  Pipeline.python env api db [exe; RunPipeline.path_join "scripts" "load.py"] s
  = (Pipeline.exit_status (Load.main env db None None s).1,
     (Load.main env db None None s).2).
Proof.
  unfold Pipeline.python. do 2 rewrite decide_False by done. rewrite decide_True by done.
  by destruct (Load.main env db None None s).
Qed.

Lemma on_stage_run {A} (m : M F A) s :
  (Load.on_stage m s).1 = (m (Load.stage s)).1 ∧
  Load.stage (Load.on_stage m s).2 = (m (Load.stage s)).2 ∧
  Load.sent (Load.on_stage m s).2 = Load.sent s.
Proof. unfold Load.on_stage. by destruct (m (Load.stage s)). Qed.

(** X25. From end to end: when the pipeline exits with 0 and the two
    outputs of the transformation are different files, the rows extracted
    in this run are in the extracted file, the cross pairs computed from
    them and their YTD records are in the two outputs, and these cross pairs
    and these records are what was sent to the tables, the daily rates
    first. Nothing else was sent. *)
Theorem pipeline_exit_zero exe env api db st :
  transform_output (config env) ≠ ytd_output (config env) →
  (RunPipeline.main (Pipeline.host exe env api db) st).1 = Ret 0%Z →
  let s := RunPipeline.world st in
  let s' := RunPipeline.world (RunPipeline.main (Pipeline.host exe env api db) st).2 in
  ∃ df duration df_cross daily,
    Extract.extract_fx_data api (START_DATE (config env)) None = Ret (df, duration) ∧
    calculate_cross_pairs (Extract.raw_row <$> df) = Ret df_cross ∧
    let df_ytd := calculate_ytd_metrics df_cross in
    files (Load.stage s')
    = <[ytd_output (config env) := YtdCsv df_ytd]>
        (<[transform_output (config env) := CrossCsv df_cross]>
           (<[extract_output (config env) := ExtractedCsv (Extract.raw_row <$> df)]>
              (files (Load.stage s)))) ∧
    (daily = [Load.ToSqlDaily df_cross] ∨
     daily = Load.ToSqlDaily df_cross :: (Load.UpsertDaily <$> df_cross) ++ [Load.Commit]) ∧
    Load.sent s'
    = Load.sent s ++ daily ++ (Load.DeleteYtd <$> Load.unique (ytd_date <$> df_ytd)) ++
        [Load.Commit; Load.ToSqlYtd df_ytd] ++ verify_queries.
Proof.
  intros Hpaths Hzero s s'.
  apply run_pipeline_main_zero in Hzero as (s1 & s2 & s3 & H1 & H2 & H3 & Hend).
  unfold s'. rewrite Hend. clear Hend s'.
  cbn [Pipeline.host RunPipeline.sys_executable RunPipeline.subprocess_run
       RunPipeline.world] in H1, H2, H3 |- *.
  fold s in H1.
  rewrite python_extract in H1. injection H1 as Hx1 <-.
  apply exit_status_zero in Hx1.
  destruct (on_stage_run (Extract.main env api None None None) s) as (R1 & W1 & S1).
  rewrite R1 in Hx1.
  apply extract_main_zero in Hx1 as (df & duration & Hx & Hf1). simpl in Hx, Hf1.
  rewrite <-W1 in Hf1.
  set (s1 := (Load.on_stage (Extract.main env api None None None) s).2) in *.
  rewrite python_transform in H2. injection H2 as Hx2 <-.
  apply exit_status_zero in Hx2.
  destruct (on_stage_run (main env None None None) s1) as (R2 & W2 & S2).
  rewrite R2 in Hx2.
  apply main_zero_files in Hx2 as (df_raw & df_cross & Hread & Hcross & Hf2).
  simpl in Hread, Hf2. rewrite <-W2 in Hf2.
  set (s2 := (Load.on_stage (main env None None None) s1).2) in *.
  assert (df_raw = Extract.raw_row <$> df) as ->.
  { unfold read_csv in Hread. rewrite Hf1, lookup_insert_eq in Hread. by injection Hread. }
  rewrite python_load in H3. injection H3 as Hx3 <-.
  apply exit_status_zero in Hx3.
  apply load_main_zero in Hx3
    as (cc & cy & dfc & dfy & daily & C1 & C2 & C3 & C4 & C5 & C6 & C7 & _).
  simpl in C1, C3.
  rewrite Hf2, lookup_insert_ne, lookup_insert_eq in C1 by done. injection C1 as <-.
  rewrite Hf2, lookup_insert_eq in C3. injection C3 as <-.
  simpl in C2, C4. injection C2 as <-. injection C4 as <-.
  exists df, duration, df_cross, daily.
  split_and!; [done..| |done|].
  - by rewrite C7, Hf2, Hf1.
  - by rewrite C6, S2, S1.
Qed.

(** X26. When the request of the extraction or the reading of its answer
    raises, the pipeline exits with 1 after the first command: the
    transformation and the loading are not run, no file is written and
    nothing is sent to the tables. *)
Theorem pipeline_stops_when_extraction_fails exe env api db st e :
  Extract.extract_fx_data api (START_DATE (config env)) None = Raise e →
  let result := RunPipeline.main (Pipeline.host exe env api db) st in
  result.1 = Ret 1%Z ∧
  RunPipeline.history result.2
  = RunPipeline.history st ++
      [([exe; RunPipeline.path_join "scripts" "extract.py"], RunPipeline.Exited 1)] ∧
  files (Load.stage (RunPipeline.world result.2))
  = files (Load.stage (RunPipeline.world st)) ∧
  Load.sent (RunPipeline.world result.2) = Load.sent (RunPipeline.world st).
Proof.
  intros Hfail result. unfold result, RunPipeline.main, RunPipeline.steps.
  unfold RunPipeline.run_steps, RunPipeline.run_step, RunPipeline.command.
  cbn [Pipeline.host RunPipeline.sys_executable RunPipeline.subprocess_run].
  rewrite python_extract.
  destruct (on_stage_run (Extract.main env api None None None) (RunPipeline.world st))
    as (R1 & W1 & S1).
  pose proof (extract_main_result env api None None None
                (Load.stage (RunPipeline.world st))) as Hres.
  simpl in Hres. rewrite Hfail in Hres.
  assert ((Extract.main env api None None None (Load.stage (RunPipeline.world st))).1
          = Ret 1%Z ∧
          files (Extract.main env api None None None (Load.stage (RunPipeline.world st))).2
          = files (Load.stage (RunPipeline.world st))) as [Hr Hf]
    by (by destruct (validate_config env _).1).
  rewrite R1, Hr. simpl. split_and!; [done..| |done].
  by rewrite W1.
Qed.

End PipelineFacts.

(** * Runs of the other stages on the sample data *)

(** X1 on the two days of sample rates. *)
Lemma cross_pairs_sorted_by_date_witness :
  StronglySorted row_date_le ex_cross_two_days.
Proof.
  apply (cross_pairs_sorted_by_date ex_raw_two_days ex_cross_two_days).
  by vm_compute.
Defined.

(** X2 on a frame whose only row is in USD. *)
Lemma cross_pairs_no_pair_raises_witness :
  calculate_cross_pairs ex_raw_foreign = Raise "KeyError".
Proof.
  apply (cross_pairs_no_pair_raises ex_raw_foreign).
  intros d Hd. apply list_elem_of_singleton in Hd. rewrite Hd. vm_compute. lia.
Defined.

(** X3 on NOK/SEK in the scenario of the specification. *)
Lemma cross_pairs_both_ways_witness :
  ∃ row', row' ∈ ex_raw_out ∧ rate_date row' = d_2024_01_01 ∧
    base_currency row' = "SEK" ∧ quote_currency row' = "NOK".
Proof.
  apply (cross_pairs_both_ways ex_raw ex_raw_out
           (mkCross d_2024_01_01 "NOK" "SEK" (Fin (12173913 # 12500000)))).
  - by vm_compute.
  - unfold ex_raw_out. elem_of_list.
Defined.

(** X4 on one day with the six currencies: 42 rows. *)
Lemma cross_pairs_full_count_witness :
  length ex_cross_full = length (group_dates ex_raw_full) * 42.
Proof.
  apply (cross_pairs_full_count ex_raw_full ex_cross_full).
  - by vm_compute.
  - intros d c Hd Hc Hne.
    assert (d = d_2024_01_01) as Hd1.
    { unfold ex_raw_full in Hd. simpl in Hd.
      repeat (apply elem_of_cons in Hd as [Hd|Hd]; [done|]). by apply elem_of_nil in Hd. }
    rewrite Hd1. revert c Hc Hne.
    apply (proj1 (Forall_forall
                    (λ c, c ≠ "EUR" → c ∈ raw_quote <$> date_group ex_raw_full d_2024_01_01)
                    CURRENCIES)).
    by_computation.
Defined.

(** X6 on the record of EUR/NOK on the second day. *)
Lemma ytd_days_count_in_year_witness :
  ex_ytd_nok ∈ calculate_ytd_metrics ex_cross_two_days ∧
  (1 ≤ ytd_days_count ex_ytd_nok)%nat.
Proof.
  assert (ex_ytd_nok ∈ calculate_ytd_metrics ex_cross_two_days) as Hy
    by (vm_compute; elem_of_list).
  split; [done|].
  destruct (ytd_days_count_in_year ex_cross_two_days ex_ytd_nok Hy) as (_ & H & _).
  exact H.
Defined.

(** X7 on EUR/NOK on the first day, at 3. *)
Lemma ytd_first_record_of_year_witness :
  mkYtd d_2024_01_01 "EUR" "NOK" (Fin 3) (Fin 3) (Fin 3) (Fin 3) (Fin 3) 1 None None (Fin 0)
  ∈ calculate_ytd_metrics ex_cross_two_days.
Proof.
  pose proof (ytd_first_record_of_year ex_cross_two_days
                (mkCross d_2024_01_01 "EUR" "NOK" (Fin 3)) 3 eq_refl) as H.
  apply H. by vm_compute.
Defined.

(** X8 with NOK at zero. *)
Lemma zero_rate_raises_witness :
  calculate_cross_pairs ex_raw_zero = Raise "ZeroDivisionError".
Proof.
  apply (zero_rate_raises ex_raw_zero (mkRaw d_2024_01_01 "NOK" (Fin 0))).
  - left.
  - by_computation.
  - done.
  - intros r' Hr' _ Hq. apply elem_of_cons in Hr' as [Hr'|Hr']; [by rewrite Hr'|].
    apply list_elem_of_singleton in Hr'. by rewrite Hr' in Hq.
  - reflexivity.
Defined.

(** X9 on the record of EUR/NOK on the second day, in the order of the
    exact instance. *)
Lemma ytd_min_max_bounds_witness :
  pyfloat_le (ytd_min_rate ex_ytd_nok) (ytd_first_rate ex_ytd_nok) ∧
  pyfloat_le (ytd_last_rate ex_ytd_nok) (ytd_max_rate ex_ytd_nok) ∧
  pyfloat_le (ytd_min_rate ex_ytd_nok) (ytd_max_rate ex_ytd_nok).
Proof.
  assert (ex_ytd_nok ∈ calculate_ytd_metrics ex_cross_two_days) as Hy
    by (vm_compute; elem_of_list).
  assert (∀ r, r ∈ ex_cross_two_days → ∃ q, exchange_rate r = Fin q) as Hfin.
  { apply Forall_forall. vm_compute. repeat (constructor; [by eexists|]). constructor. }
  destruct (ytd_min_max_bounds (λ x, ∃ q, x = Fin q) pyfloat_le
              pyfloat_le_refl pyfloat_le_trans pyfloat_minimum_below
              pyfloat_maximum_above (pyfloat_round_mono 8)
              ex_cross_two_days ex_ytd_nok Hfin Hy) as (H1 & _ & _ & H4 & H5).
  by split_and!.
Defined.

(** X10 with a database that cannot be reached. *)
Lemma transform_main_without_database_witness :
  (main ex_env None None None (ex_world ex_raw)).1
  = (main (with_database ex_env (Raise "OperationalError") (λ _ _, Raise "OperationalError"))
       None None None (ex_world ex_raw)).1.
Proof.
  apply (transform_main_without_database ex_env (Raise "OperationalError")
           (λ _ _, Raise "OperationalError") None None None
           (ex_world ex_raw) (ex_world ex_raw)).
  reflexivity.
Defined.

(** X12 on a run that succeeds. *)
Lemma transform_main_audit_trail_witness :
  ∃ final,
    execution_log (main ex_env None None None (ex_world ex_raw)).2
    = [] ++ [mkAudit "transform" "running" 0 None None; final] ∧
    pipeline_step final = "transform".
Proof.
  pose proof (transform_main_audit_trail ex_env None None None (ex_world ex_raw)
                eq_refl (λ _ _, eq_refl)) as H.
  cbv zeta in H.
  assert ((validate_config ex_env (ex_world ex_raw)).1 = Ret true) as Hv by reflexivity.
  rewrite Hv in H. destruct H as (final & Hlog & Hstep & _).
  exists final. split; [exact Hlog|exact Hstep].
Defined.

(** X13 on an answer with two rates. *)
Lemma extract_one_row_per_rate_witness :
  Extract.extract_fx_data ex_api "2024-01-01" None = Ret (ex_extracted, 0) ∧
  length ex_extracted = 2.
Proof.
  assert (Extract.extract_fx_data ex_api "2024-01-01" None = Ret (ex_extracted, 0)) as Hx
    by (by vm_compute).
  split; [done|].
  destruct (extract_one_row_per_rate ex_api "2024-01-01" None ex_extracted 0 Hx)
    as (url & symbols & response & rates & Hget & _ & Hjson & _ & Hlen & _).
  vm_compute in Hget. injection Hget as <-. vm_compute in Hjson. injection Hjson as <-.
  exact Hlen.
Defined.

(** X14 on an answer whose only date has no rate. *)
Lemma extract_no_rate_raises_witness :
  Extract.extract_fx_data ex_api_empty "2024-01-06" None = Raise "KeyError".
Proof.
  apply (extract_no_rate_raises ex_api_empty "2024-01-06" None).
  intros url symbols. eexists. split; [reflexivity|]. split; [simpl; lia|].
  eexists. split; [reflexivity|].
  intros rates Hrates entry Hentry. injection Hrates as <-.
  apply list_elem_of_singleton in Hentry. by rewrite Hentry.
Defined.

(** X16 from an empty directory. *)
Lemma extract_then_load_extracted_witness :
  ∃ df duration,
    Extract.extract_fx_data ex_api "2024-01-01" None = Ret (df, duration) ∧
    (load_extracted_data "raw.csv"
       (Extract.main ex_env ex_api None None None (ex_world [])).2).1
    = Ret (Extract.raw_row <$> df) ∧
    df ≠ [].
Proof.
  apply (extract_then_load_extracted ex_env ex_api None None (ex_world [])).
  by vm_compute.
Defined.

(** X19 through the fallback: six rows, each counted as updated. *)
Lemma load_daily_rates_count_witness :
  ∃ df, Load.daily_frame (CrossCsv ex_raw_out) = Ret df ∧ 6 = length df.
Proof.
  destruct (load_daily_rates_count ex_db_duplicates (CrossCsv ex_raw_out) (ex_load_state ∅)
              6 0 (Load.load_daily_rates ex_db_duplicates (CrossCsv ex_raw_out)
                     (ex_load_state ∅)).2)
    as (df & Hdf & Hn & _); [by vm_compute|].
  by exists df.
Defined.

(** X20 on the YTD records of the two days. *)
Lemma load_ytd_metrics_statements_witness :
  ∃ deleted rest,
    Load.sent (Load.load_ytd_metrics ex_db (YtdCsv ex_ytd_two_days) (ex_load_state ∅)).2
    = [] ++ (Load.DeleteYtd <$> deleted) ++ rest ∧
    NoDup deleted ∧
    ∀ d, d ∈ deleted → d ∈ ytd_date <$> ex_ytd_two_days.
Proof.
  pose proof (load_ytd_metrics_statements ex_db ex_ytd_two_days (ex_load_state ∅)
              (Load.load_ytd_metrics ex_db (YtdCsv ex_ytd_two_days) (ex_load_state ∅)).1
              (Load.load_ytd_metrics ex_db (YtdCsv ex_ytd_two_days) (ex_load_state ∅)).2) as H.
  assert (Load.load_ytd_metrics ex_db (YtdCsv ex_ytd_two_days) (ex_load_state ∅) =
  ((Load.load_ytd_metrics ex_db (YtdCsv ex_ytd_two_days) (ex_load_state ∅)).1,
   (Load.load_ytd_metrics ex_db (YtdCsv ex_ytd_two_days) (ex_load_state ∅)).2)) as Heq.
  { apply surjective_pairing. }
  destruct (H Heq) as (deleted & rest & Hs & _ & Hnd & Hin & _).
  exists deleted, rest.
  split_and!.
  - exact Hs.
  - exact Hnd.
  - exact Hin.
Defined.

(** X21 on the files of a transformation. *)
Lemma load_exit_zero_witness :
  closed (Load.stage (Load.main ex_env ex_db None None
                        (ex_load_state ex_files_transformed)).2) = true ∧
  Load.disposed (Load.main ex_env ex_db None None
                   (ex_load_state ex_files_transformed)).2 = true.
Proof.
  destruct (load_exit_zero ex_env ex_db None None (ex_load_state ex_files_transformed))
    as (? & ? & ? & ? & ? & _ & _ & _ & _ & _ & _ & _ & Hc & Hd); [by vm_compute|].
  by split.
Defined.

(** X23 with no file. *)
Lemma load_fails_before_loading_witness :
  (Load.main ex_env ex_db None None (ex_load_state ∅)).1 = Ret 1%Z ∧
  Load.sent (Load.main ex_env ex_db None None (ex_load_state ∅)).2 = [].
Proof.
  destruct (load_fails_before_loading ex_env ex_db None None (ex_load_state ∅))
    as (H1 & H2 & _); [right; right; reflexivity|].
  by split.
Defined.

(** X24 with the file of cross pairs only. *)
Lemma load_daily_rates_before_ytd_file_witness :
  let s := ex_load_state {[ "cross.csv" := CrossCsv ex_cross_two_days ]} in
  (Load.main ex_env ex_db None None s).1 = Ret 1%Z ∧
  Load.sent (Load.main ex_env ex_db None None s).2 = [Load.ToSqlDaily ex_cross_two_days].
Proof.
  intros s.
  apply (load_daily_rates_before_ytd_file ex_env ex_db None None s ex_cross_two_days 1).
  - by vm_compute.
  - reflexivity.
  - by vm_compute.
  - reflexivity.
  - by vm_compute.
Defined.

(** X25 from an empty directory, with an API and a database that work. *)
Lemma pipeline_exit_zero_witness :
  ∃ df duration df_cross,
    Extract.extract_fx_data ex_api "2024-01-01" None = Ret (df, duration) ∧
    calculate_cross_pairs (Extract.raw_row <$> df) = Ret df_cross ∧
    Load.ToSqlDaily df_cross
    ∈ Load.sent (RunPipeline.world
                   (RunPipeline.main (Pipeline.host "python" ex_env ex_api ex_db) ex_run).2).
Proof.
  destruct (pipeline_exit_zero "python" ex_env ex_api ex_db ex_run)
    as (df & duration & df_cross & daily & Hx & Hc & _ & Hdaily & Hsent);
    [done|by vm_compute|].
  exists df, duration, df_cross. split_and!; [done..|].
  rewrite Hsent. apply elem_of_app. right. apply elem_of_app. left.
  destruct Hdaily as [->| ->]; left.
Defined.

(** X26 with an API that has no rate. *)
Lemma pipeline_stops_when_extraction_fails_witness :
  (RunPipeline.main (Pipeline.host "python" ex_env ex_api_empty ex_db) ex_run).1 = Ret 1%Z.
Proof.
  apply (pipeline_stops_when_extraction_fails "python" ex_env ex_api_empty ex_db ex_run
           "KeyError").
  by vm_compute.
Defined.
